(** * lan_tuya: the device communication stack, embedded in Rocq

    A shallow embedding of [tuya/tuya_protocol.py], [tuya/device_scanner.py],
    [tuya/device.py] and [tuya/utils.py], with the library routines they call
    (struct.pack, binascii.crc32, base64, hashlib.md5, AES in ECB mode,
    UTF-8, json.dumps, colorsys.hsv_to_rgb, int in base 10 and 16, format
    in base 16) written out so that every definition evaluates. *)

From Stdlib Require Import List ZArith NArith Bool Lia String Ascii.
From Stdlib Require Import Strings.Byte DecimalString SpecFloat Morphisms.
From Stdlib Require HexString.
From AAC_tactics Require Import AAC.
Import ListNotations.

#[local] Open Scope string_scope.
#[local] Open Scope list_scope.
#[local] Open Scope Z_scope.

(** ** Python values shared by the three modules *)

(** Python [bytes]. *)
Definition bytes := list byte.

(** The exceptions the modelled code raises, by Python class: classes
    derived from [Exception], which [except Exception] catches. The class
    [ConnectionError] stands for itself and its subclasses, and [OSError]
    for the other classes derived from [OSError], a timeout or an
    unreachable host among them, which [except ConnectionError] does not
    catch.

    [OutOfModel] is no exception of Python. It marks a call that returns,
    in Python, a value the model has no term for: text with a code point
    from 256 up. What the model shows after it is not what the code
    does. *)
Inductive exn : Type :=
| KeyError
| TypeError
| ValueError (msg : string)
| NotImplementedError
| StructError
| BinasciiError
| UnicodeDecodeError
| ZeroDivisionError
| OverflowError
| ConnectionError
| TuyaError
| RuntimeError
| AttributeError
| OSError
| OutOfModel.

(** A call either returns a value or raises. *)
Inductive result (A : Type) : Type :=
| Ok (a : A)
| Raise (e : exn).
Arguments Ok {A} a.
Arguments Raise {A} e.

Definition bind {A B} (r : result A) (k : A -> result B) : result B :=
  match r with
  | Ok a => k a
  | Raise e => Raise e
  end.

Notation "x <- c ;; k" := (bind c (fun x => k))
  (at level 61, c at next level, right associativity).

Module Py.

(** [len(s)] as a Python int. *)
Definition len {A} (s : list A) : Z := Z.of_nat (List.length s).

(** [s[i:]] for [0 <= i]. *)
Definition drop {A} (i : Z) (s : list A) : list A := skipn (Z.to_nat i) s.

(** [s[:i]] for [0 <= i]. *)
Definition take {A} (i : Z) (s : list A) : list A := firstn (Z.to_nat i) s.

(** [s[-n:]] for [0 < n]: the last [n] items, all of [s] when it is shorter. *)
Definition last_n {A} (n : Z) (s : list A) : list A :=
  skipn (List.length s - Z.to_nat n) s.

(** [s[:-n]] for [0 < n]: all but the last [n] items. *)
Definition drop_last {A} (n : Z) (s : list A) : list A :=
  firstn (List.length s - Z.to_nat n) s.

(** [s[i:-n]] for [0 <= i] and [0 < n]. *)
Definition slice_mid {A} (i n : Z) (s : list A) : list A :=
  skipn (Z.to_nat i) (drop_last n s).

(** [s.startswith(p)] on bytes. *)
Fixpoint startswith (s p : bytes) {struct p} : bool :=
  match p, s with
  | [], _ => true
  | _ :: _, [] => false
  | b :: p', c :: s' => Byte.eqb b c && startswith s' p'
  end.

(** A byte of a Python int in [0, 256). *)
Definition byte_of_Z (z : Z) : byte :=
  match Byte.of_N (Z.to_N (z mod 256)) with
  | Some b => b
  | None => x00
  end.

Definition Z_of_byte (b : byte) : Z := Z.of_N (Byte.to_N b).

(** [n * bytes([b])]. *)
Definition rep (n : Z) (b : byte) : bytes := repeat b (Z.to_nat n).

End Py.

(** ** struct: big-endian unsigned 32-bit fields *)

Module Struct.

(** The four bytes of one [I] field, most significant first. *)
Definition be32 (v : Z) : bytes :=
  [Py.byte_of_Z (Z.shiftr v 24); Py.byte_of_Z (Z.shiftr v 16);
   Py.byte_of_Z (Z.shiftr v 8); Py.byte_of_Z v].

(** [struct.pack(">nI", v1, ..., vn)]: every field must fit 32 bits. *)
Fixpoint pack_be32 (vs : list Z) : result bytes :=
  match vs with
  | [] => Ok []
  | v :: vs' =>
      if (0 <=? v) && (v <? 2 ^ 32)
      then rest <- pack_be32 vs' ;; Ok (be32 v ++ rest)
      else Raise StructError
  end.

(** The value of bytes read most significant first. *)
Definition be_value (bs : bytes) : Z :=
  fold_left (fun acc b => acc * 256 + Py.Z_of_byte b) bs 0.

(** [struct.unpack(">nI", data)]: [data] must be exactly [4 * n] bytes. *)
Fixpoint unpack_be32 (n : nat) (data : bytes) : result (list Z) :=
  match n with
  | O => match data with [] => Ok [] | _ => Raise StructError end
  | S n' =>
      match data with
      | a :: b :: c :: d :: data' =>
          rest <- unpack_be32 n' data' ;; Ok (be_value [a; b; c; d] :: rest)
      | _ => Raise StructError
      end
  end.

(** [struct.calcsize] of the three formats the protocol uses. *)
Definition calcsize_4I : Z := 16.
Definition calcsize_5I : Z := 20.
Definition calcsize_2I : Z := 8.

End Struct.

(** ** binascii.crc32 *)

Module Binascii.

(** One bit step of the reflected CRC-32 (polynomial 0xEDB88320). *)
Definition crc_step (c : Z) : Z :=
  if Z.testbit c 0 then Z.lxor (Z.shiftr c 1) 0xEDB88320 else Z.shiftr c 1.

Definition crc_byte (c : Z) (b : byte) : Z :=
  let c0 := Z.lxor c (Py.Z_of_byte b) in
  crc_step (crc_step (crc_step (crc_step
    (crc_step (crc_step (crc_step (crc_step c0))))))).

(** [binascii.crc32(data)]. *)
Definition crc32 (data : bytes) : Z :=
  Z.lxor (fold_left crc_byte data 0xFFFFFFFF) 0xFFFFFFFF.

End Binascii.

(** ** Crypto.Cipher.AES, ECB mode (FIPS 197) *)

Module AES.

Definition bxor (a b : byte) : byte :=
  Py.byte_of_Z (Z.lxor (Py.Z_of_byte a) (Py.Z_of_byte b)).

(** Multiplication by [x] in GF(2^8) modulo x^8 + x^4 + x^3 + x + 1. *)
Definition xtime (a : byte) : byte :=
  let d := 2 * Py.Z_of_byte a in
  Py.byte_of_Z (if d <? 256 then d else Z.lxor (d - 256) 0x1b).

(** Multiplication in GF(2^8): [gmul_bits k a b] adds [a * x^i] for every
    set bit [i] of [b] among the lowest [k]. *)
Fixpoint gmul_bits (k : nat) (a : byte) (b : Z) : byte :=
  match k with
  | O => x00
  | S k' =>
      bxor (if Z.odd b then a else x00) (gmul_bits k' (xtime a) (Z.div2 b))
  end.

Definition gmul (a b : byte) : byte := gmul_bits 8 a (Py.Z_of_byte b).

(** The multiplicative inverse, [a^254], with [0] sent to [0]. *)
Definition ginv (a : byte) : byte :=
  let a2 := gmul a a in
  let a4 := gmul a2 a2 in
  let a8 := gmul a4 a4 in
  let a16 := gmul a8 a8 in
  let a32 := gmul a16 a16 in
  let a64 := gmul a32 a32 in
  let a128 := gmul a64 a64 in
  gmul a128 (gmul a64 (gmul a32 (gmul a16 (gmul a8 (gmul a4 a2))))).

(** Rotation of a byte to the left. *)
Definition rotl8 (a : byte) (k : Z) : byte :=
  let v := Py.Z_of_byte a in
  Py.byte_of_Z (Z.lor (Z.shiftl v k) (Z.shiftr v (8 - k))).

Definition sbox (a : byte) : byte :=
  let b := ginv a in
  bxor b (bxor (rotl8 b 1) (bxor (rotl8 b 2) (bxor (rotl8 b 3)
    (bxor (rotl8 b 4) x63)))).

Definition inv_sbox (s : byte) : byte :=
  ginv (bxor (rotl8 s 1) (bxor (rotl8 s 3) (bxor (rotl8 s 6) x05))).

(** A column of the state (equally, a word of the key schedule) and the
    state, column by column. *)
Definition col : Type := byte * byte * byte * byte.
Definition block : Type := col * col * col * col.

Definition col_map (f : byte -> byte) (c : col) : col :=
  let '(a0, a1, a2, a3) := c in (f a0, f a1, f a2, f a3).

Definition col_xor (c d : col) : col :=
  let '(a0, a1, a2, a3) := c in
  let '(b0, b1, b2, b3) := d in
  (bxor a0 b0, bxor a1 b1, bxor a2 b2, bxor a3 b3).

Definition block_map (f : col -> col) (s : block) : block :=
  let '(c0, c1, c2, c3) := s in (f c0, f c1, f c2, f c3).

Definition sub_bytes : block -> block := block_map (col_map sbox).
Definition inv_sub_bytes : block -> block := block_map (col_map inv_sbox).

Definition shift_rows (s : block) : block :=
  let '((a0, a1, a2, a3), (b0, b1, b2, b3),
        (c0, c1, c2, c3), (d0, d1, d2, d3)) := s in
  ((a0, b1, c2, d3), (b0, c1, d2, a3), (c0, d1, a2, b3), (d0, a1, b2, c3)).

Definition inv_shift_rows (s : block) : block :=
  let '((a0, a1, a2, a3), (b0, b1, b2, b3),
        (c0, c1, c2, c3), (d0, d1, d2, d3)) := s in
  ((a0, d1, c2, b3), (b0, a1, d2, c3), (c0, b1, a2, d3), (d0, c1, b2, a3)).

(** One row of a column product: [p*a0 + q*a1 + r*a2 + t*a3]. *)
Definition dot (p q r t : byte) (c : col) : byte :=
  let '(a0, a1, a2, a3) := c in
  bxor (gmul a0 p) (bxor (gmul a1 q) (bxor (gmul a2 r) (gmul a3 t))).

Definition mix_column (c : col) : col :=
  (dot x02 x03 x01 x01 c, dot x01 x02 x03 x01 c,
   dot x01 x01 x02 x03 c, dot x03 x01 x01 x02 c).

Definition inv_mix_column (c : col) : col :=
  (dot x0e x0b x0d x09 c, dot x09 x0e x0b x0d c,
   dot x0d x09 x0e x0b c, dot x0b x0d x09 x0e c).

Definition mix_columns : block -> block := block_map mix_column.
Definition inv_mix_columns : block -> block := block_map inv_mix_column.

Definition add_round_key (s k : block) : block :=
  let '(c0, c1, c2, c3) := s in
  let '(k0, k1, k2, k3) := k in
  (col_xor c0 k0, col_xor c1 k1, col_xor c2 k2, col_xor c3 k3).

(** The rounds of the cipher, each with its round key. *)
Inductive round : Type :=
| Initial (k : block)
| Middle (k : block)
| Final (k : block).

Definition apply_round (s : block) (r : round) : block :=
  match r with
  | Initial k => add_round_key s k
  | Middle k => add_round_key (mix_columns (shift_rows (sub_bytes s))) k
  | Final k => add_round_key (shift_rows (sub_bytes s)) k
  end.

Definition undo_round (s : block) (r : round) : block :=
  match r with
  | Initial k => add_round_key s k
  | Middle k =>
      inv_sub_bytes (inv_shift_rows (inv_mix_columns (add_round_key s k)))
  | Final k => inv_sub_bytes (inv_shift_rows (add_round_key s k))
  end.

(** *** Key expansion *)

Definition rot_word (w : col) : col :=
  let '(a0, a1, a2, a3) := w in (a1, a2, a3, a0).

Definition sub_word : col -> col := col_map sbox.

(** [rcon j] is the round constant [x^(j-1)]. *)
Definition rcon (j : nat) : col :=
  (Nat.iter (j - 1) xtime x01, x00, x00, x00).

Fixpoint words_of_bytes (bs : bytes) : list col :=
  match bs with
  | a :: b :: c :: d :: bs' => (a, b, c, d) :: words_of_bytes bs'
  | _ => []
  end.

Definition zero_col : col := (x00, x00, x00, x00).

(** [expand nk n i rw] appends [n] words to the schedule; [rw] holds the
    words [w(i-1), w(i-2), ...] made so far, newest first. *)
Fixpoint expand (nk n i : nat) (rw : list col) : list col :=
  match n with
  | O => rw
  | S n' =>
      let temp := nth 0 rw zero_col in
      let temp :=
        if Nat.eqb (i mod nk) 0
        then col_xor (sub_word (rot_word temp)) (rcon (i / nk))
        else if Nat.ltb 6 nk && Nat.eqb (i mod nk) 4
             then sub_word temp
             else temp in
      expand nk n' (S i) (col_xor (nth (nk - 1) rw zero_col) temp :: rw)
  end.

Fixpoint blocks_of_words (ws : list col) : list block :=
  match ws with
  | a :: b :: c :: d :: ws' => (a, b, c, d) :: blocks_of_words ws'
  | _ => []
  end.

(** The round keys of a key of [nk] words: [nk + 7] of them. *)
Definition round_keys (key : bytes) : list block :=
  let nk := (List.length key / 4)%nat in
  let w := words_of_bytes key in
  blocks_of_words (rev (expand nk (4 * (nk + 7) - nk) nk (rev w))).

Fixpoint later_rounds (ks : list block) : list round :=
  match ks with
  | [] => []
  | [k] => [Final k]
  | k :: ks' => Middle k :: later_rounds ks'
  end.

Definition schedule (key : bytes) : list round :=
  match round_keys key with
  | [] => []
  | k0 :: ks => Initial k0 :: later_rounds ks
  end.

Definition encrypt_block (rs : list round) (s : block) : block :=
  fold_left apply_round rs s.

Definition decrypt_block (rs : list round) (s : block) : block :=
  fold_left undo_round (rev rs) s.

(** *** ECB over byte strings *)

Definition bytes_of_block (s : block) : bytes :=
  let '((a0, a1, a2, a3), (b0, b1, b2, b3),
        (c0, c1, c2, c3), (d0, d1, d2, d3)) := s in
  [a0; a1; a2; a3; b0; b1; b2; b3; c0; c1; c2; c3; d0; d1; d2; d3].

(** [ecb f data]: [f] on every 16-byte block; [None] when the data is not
    aligned to the block size. *)
Fixpoint ecb (f : block -> block) (data : bytes) : option bytes :=
  match data with
  | [] => Some []
  | a0 :: a1 :: a2 :: a3 :: b0 :: b1 :: b2 :: b3 ::
    c0 :: c1 :: c2 :: c3 :: d0 :: d1 :: d2 :: d3 :: rest =>
      match ecb f rest with
      | Some out =>
          Some (bytes_of_block
                  (f ((a0, a1, a2, a3), (b0, b1, b2, b3),
                      (c0, c1, c2, c3), (d0, d1, d2, d3))) ++ out)
      | None => None
      end
  | _ => None
  end.

(** [AES.new(key, AES.MODE_ECB)] accepts keys of 16, 24 or 32 bytes. *)
Definition valid_key (key : bytes) : bool :=
  let n := Py.len key in (n =? 16) || (n =? 24) || (n =? 32).

Definition key_error : exn := ValueError "Incorrect AES key length".
Definition align_error : exn :=
  ValueError "Data must be aligned to block boundary in ECB mode".

(** [AES.new(key, AES.MODE_ECB).encrypt(data)]. *)
Definition encrypt (key data : bytes) : result bytes :=
  if valid_key key then
    match ecb (encrypt_block (schedule key)) data with
    | Some out => Ok out
    | None => Raise align_error
    end
  else Raise key_error.

(** [AES.new(key, AES.MODE_ECB).decrypt(data)]. *)
Definition decrypt (key data : bytes) : result bytes :=
  if valid_key key then
    match ecb (decrypt_block (schedule key)) data with
    | Some out => Ok out
    | None => Raise align_error
    end
  else Raise key_error.

End AES.

(** ** base64.b64encode, base64.b64decode *)

Module Base64.

Definition alphabet : bytes :=
  list_byte_of_string
    "ABCDEFGHIJKLMNOPQRSTUVWXYZabcdefghijklmnopqrstuvwxyz0123456789+/".

Definition pad_char : byte := "="%byte.

(** The character of a 6-bit value. *)
Definition enc6 (v : Z) : byte := nth (Z.to_nat (v mod 64)) alphabet x00.

Fixpoint b64encode (s : bytes) : bytes :=
  match s with
  | [] => []
  | [a] =>
      let x := Py.Z_of_byte a in
      [enc6 (Z.shiftr x 2); enc6 (Z.shiftl (Z.land x 3) 4);
       pad_char; pad_char]
  | [a; b] =>
      let x := Py.Z_of_byte a in
      let y := Py.Z_of_byte b in
      [enc6 (Z.shiftr x 2);
       enc6 (Z.lor (Z.shiftl (Z.land x 3) 4) (Z.shiftr y 4));
       enc6 (Z.shiftl (Z.land y 15) 2); pad_char]
  | a :: b :: c :: rest =>
      let x := Py.Z_of_byte a in
      let y := Py.Z_of_byte b in
      let z := Py.Z_of_byte c in
      enc6 (Z.shiftr x 2)
      :: enc6 (Z.lor (Z.shiftl (Z.land x 3) 4) (Z.shiftr y 4))
      :: enc6 (Z.lor (Z.shiftl (Z.land y 15) 2) (Z.shiftr z 6))
      :: enc6 (Z.land z 63) :: b64encode rest
  end.

(** The 6-bit value of an alphabet character, [None] for any other byte. *)
Fixpoint index_of (c : byte) (l : bytes) (i : Z) : option Z :=
  match l with
  | [] => None
  | d :: l' => if Byte.eqb c d then Some i else index_of c l' (i + 1)
  end.

Definition dec6 (c : byte) : option Z := index_of c alphabet 0.

(** The decoder of [binascii.a2b_base64] without strict mode: bytes outside
    the alphabet are skipped, a pad sequence that completes a quad ends the
    input, and a quad left open at the end is an error. [quad_pos] counts
    the characters of the current quad, [leftchar] holds its pending bits,
    [pads] the pad characters seen in a row. *)
Fixpoint a2b (s : bytes) (quad_pos leftchar pads : Z) (out : bytes)
  : result bytes :=
  match s with
  | [] => if quad_pos =? 0 then Ok (rev out) else Raise BinasciiError
  | c :: s' =>
      if Byte.eqb c pad_char then
        if (2 <=? quad_pos) && (4 <=? quad_pos + (pads + 1))
        then Ok (rev out)
        else a2b s' quad_pos leftchar
               (if 2 <=? quad_pos then pads + 1 else pads) out
      else
        match dec6 c with
        | None => a2b s' quad_pos leftchar pads out
        | Some v =>
            if quad_pos =? 0 then a2b s' 1 v 0 out
            else if quad_pos =? 1 then
              a2b s' 2 (Z.land v 15) 0
                (Py.byte_of_Z (Z.lor (Z.shiftl leftchar 2) (Z.shiftr v 4))
                 :: out)
            else if quad_pos =? 2 then
              a2b s' 3 (Z.land v 3) 0
                (Py.byte_of_Z (Z.lor (Z.shiftl leftchar 4) (Z.shiftr v 2))
                 :: out)
            else
              a2b s' 0 0 0
                (Py.byte_of_Z (Z.lor (Z.shiftl leftchar 6) v) :: out)
        end
  end.

Definition b64decode (s : bytes) : result bytes := a2b s 0 0 0 [].

End Base64.

(** ** hashlib.md5 (RFC 1321) *)

Module MD5.

Definition mask32 : Z := 0xFFFFFFFF.
Definition add32 (a b : Z) : Z := (a + b) mod 2 ^ 32.
Definition not32 (a : Z) : Z := Z.lxor a mask32.
Definition rotl32 (a k : Z) : Z :=
  Z.lor (Z.land (Z.shiftl a k) mask32) (Z.shiftr a (32 - k)).

Definition K : list Z :=
  [0xd76aa478; 0xe8c7b756; 0x242070db; 0xc1bdceee;
   0xf57c0faf; 0x4787c62a; 0xa8304613; 0xfd469501;
   0x698098d8; 0x8b44f7af; 0xffff5bb1; 0x895cd7be;
   0x6b901122; 0xfd987193; 0xa679438e; 0x49b40821;
   0xf61e2562; 0xc040b340; 0x265e5a51; 0xe9b6c7aa;
   0xd62f105d; 0x02441453; 0xd8a1e681; 0xe7d3fbc8;
   0x21e1cde6; 0xc33707d6; 0xf4d50d87; 0x455a14ed;
   0xa9e3e905; 0xfcefa3f8; 0x676f02d9; 0x8d2a4c8a;
   0xfffa3942; 0x8771f681; 0x6d9d6122; 0xfde5380c;
   0xa4beea44; 0x4bdecfa9; 0xf6bb4b60; 0xbebfbc70;
   0x289b7ec6; 0xeaa127fa; 0xd4ef3085; 0x04881d05;
   0xd9d4d039; 0xe6db99e5; 0x1fa27cf8; 0xc4ac5665;
   0xf4292244; 0x432aff97; 0xab9423a7; 0xfc93a039;
   0x655b59c3; 0x8f0ccc92; 0xffeff47d; 0x85845dd1;
   0x6fa87e4f; 0xfe2ce6e0; 0xa3014314; 0x4e0811a1;
   0xf7537e82; 0xbd3af235; 0x2ad7d2bb; 0xeb86d391].

Definition shifts : list (list Z) :=
  [[7; 12; 17; 22]; [5; 9; 14; 20]; [4; 11; 16; 23]; [6; 10; 15; 21]].

Definition shift_of (i : nat) : Z :=
  nth (i mod 4) (nth (i / 16) shifts []) 0.

(** One of the 64 steps on the working state [(A, B, C, D)]. *)
Definition step (M : list Z) (st : Z * Z * Z * Z) (i : nat)
  : Z * Z * Z * Z :=
  let '(A, B, C, D) := st in
  let '(F, g) :=
    if Nat.ltb i 16 then
      (Z.lor (Z.land B C) (Z.land (not32 B) D), i)
    else if Nat.ltb i 32 then
      (Z.lor (Z.land D B) (Z.land (not32 D) C), (5 * i + 1) mod 16)%nat
    else if Nat.ltb i 48 then
      (Z.lxor B (Z.lxor C D), (3 * i + 5) mod 16)%nat
    else
      (Z.lxor C (Z.lor B (not32 D)), (7 * i) mod 16)%nat in
  let F := add32 (add32 (add32 F A) (nth i K 0)) (nth g M 0) in
  (D, add32 B (rotl32 F (shift_of i)), B, C).

(** Little-endian 32-bit words of a chunk. *)
Fixpoint le_words (bs : bytes) : list Z :=
  match bs with
  | a :: b :: c :: d :: bs' =>
      (Py.Z_of_byte a + 256 * (Py.Z_of_byte b + 256 * (Py.Z_of_byte c
         + 256 * Py.Z_of_byte d))) :: le_words bs'
  | _ => []
  end.

Definition process_chunk (h : Z * Z * Z * Z) (chunk : bytes)
  : Z * Z * Z * Z :=
  let '(a0, b0, c0, d0) := h in
  let '(A, B, C, D) := fold_left (step (le_words chunk)) (seq 0 64) h in
  (add32 a0 A, add32 b0 B, add32 c0 C, add32 d0 D).

(** [n] bytes of [v], least significant first. *)
Fixpoint le_bytes (n : nat) (v : Z) : bytes :=
  match n with
  | O => []
  | S n' => Py.byte_of_Z v :: le_bytes n' (Z.shiftr v 8)
  end.

(** The message padded to a multiple of 64 bytes. *)
Definition padded (msg : bytes) : bytes :=
  let l := Py.len msg in
  let zeros := (55 - l) mod 64 in
  msg ++ [x80] ++ Py.rep zeros x00 ++ le_bytes 8 ((8 * l) mod 2 ^ 64).

Fixpoint chunks (fuel : nat) (bs : bytes) : list bytes :=
  match fuel, bs with
  | O, _ => []
  | _, [] => []
  | S fuel', _ => firstn 64 bs :: chunks fuel' (skipn 64 bs)
  end.

(** [md5(msg).digest()]. *)
Definition digest (msg : bytes) : bytes :=
  let p := padded msg in
  let '(a, b, c, d) :=
    fold_left process_chunk (chunks (List.length p) p)
      (0x67452301, 0xefcdab89, 0x98badcfe, 0x10325476) in
  le_bytes 4 a ++ le_bytes 4 b ++ le_bytes 4 c ++ le_bytes 4 d.

Definition hex_digit (v : Z) : ascii :=
  nth (Z.to_nat v) (list_ascii_of_string "0123456789abcdef") "0"%char.

Fixpoint hex_of_bytes (bs : bytes) : string :=
  match bs with
  | [] => EmptyString
  | b :: bs' =>
      let v := Py.Z_of_byte b in
      String (hex_digit (v / 16)) (String (hex_digit (v mod 16))
        (hex_of_bytes bs'))
  end.

(** [md5(msg).hexdigest()]. *)
Definition hexdigest (msg : bytes) : string := hex_of_bytes (digest msg).

End MD5.

(** ** Python dicts with string keys *)

Module Dict.

(** The items in insertion order; no key stands twice. *)
Definition t (V : Type) : Type := list (string * V).

(** [k in d]. *)
Fixpoint mem {V} (k : string) (d : t V) : bool :=
  match d with
  | [] => false
  | (k', _) :: d' => String.eqb k k' || mem k d'
  end.

(** [d.get(k)]. *)
Fixpoint get {V} (k : string) (d : t V) : option V :=
  match d with
  | [] => None
  | (k', v) :: d' => if String.eqb k k' then Some v else get k d'
  end.

(** [d[k]], raising [KeyError] for a missing key. *)
Definition item {V} (k : string) (d : t V) : result V :=
  match get k d with
  | Some v => Ok v
  | None => Raise KeyError
  end.

(** [d[k] = v]: the value is replaced where the key stands, a new key is
    added at the end. *)
Fixpoint set {V} (k : string) (v : V) (d : t V) : t V :=
  match d with
  | [] => [(k, v)]
  | (k', v') :: d' =>
      if String.eqb k k' then (k', v) :: d' else (k', v') :: set k v d'
  end.

(** [d.update(e)]. *)
Definition update {V} (d e : t V) : t V :=
  fold_left (fun acc kv => set (fst kv) (snd kv) acc) e d.

(** The dict built from items in order, as a dict display or comprehension
    builds it. *)
Definition of_items {V} (items : list (string * V)) : t V :=
  update [] items.

(** [list(d.keys())]. *)
Definition keys {V} (d : t V) : list string := map fst d.

(** [d.pop(k, None)], the value dropped: the item of [k] leaves, the order
    of the others stays. *)
Fixpoint remove {V} (k : string) (d : t V) : t V :=
  match d with
  | [] => []
  | (k', v) :: d' => if String.eqb k k' then d' else (k', v) :: remove k d'
  end.

End Dict.

(** ** Python text and json.dumps *)

(** Python [str] is modelled by Rocq strings: text whose code points are
    below 256, one character per code point. *)

Module Text.

Definition code (c : ascii) : Z := Z.of_N (N_of_ascii c).
Definition chr (v : Z) : ascii := ascii_of_N (Z.to_N v).

(** [s.encode("utf-8")]. *)
Fixpoint encode_utf8 (s : string) : bytes :=
  match s with
  | EmptyString => []
  | String c s' =>
      let v := code c in
      if v <? 128 then Py.byte_of_Z v :: encode_utf8 s'
      else Py.byte_of_Z (Z.lor 0xC0 (Z.shiftr v 6))
           :: Py.byte_of_Z (Z.lor 0x80 (Z.land v 63)) :: encode_utf8 s'
  end.

(** A byte that continues a sequence: 0x80 to 0xBF. *)
Definition continuation (w : Z) : bool := (0x80 <=? w) && (w <? 0xC0).

(** The second byte of a sequence of three or four, after the lead [v]:
    the ranges that shut out the encodings that are too long, the
    surrogates, and the code points above 0x10FFFF. *)
Definition second3 (v w : Z) : bool :=
  if v =? 0xE0 then (0xA0 <=? w) && (w <? 0xC0)
  else if v =? 0xED then (0x80 <=? w) && (w <? 0xA0)
  else continuation w.

Definition second4 (v w : Z) : bool :=
  if v =? 0xF0 then (0x90 <=? w) && (w <? 0xC0)
  else if v =? 0xF4 then (0x80 <=? w) && (w <? 0x90)
  else continuation w.

(** [b.decode("utf-8")]. Bytes that are not UTF-8 raise
    [UnicodeDecodeError], wherever they stand. UTF-8 that denotes text of
    the model is decoded. UTF-8 with a code point from 256 up is text in
    Python and [OutOfModel] here. *)
Fixpoint decode_utf8 (b : bytes) : result string :=
  match b with
  | [] => Ok EmptyString
  | x :: b' =>
      let v := Py.Z_of_byte x in
      if v <? 0x80 then
        s <- decode_utf8 b' ;; Ok (String (chr v) s)
      else if (0xC2 <=? v) && (v <? 0xE0) then
        match b' with
        | y :: b'' =>
            let w := Py.Z_of_byte y in
            if continuation w then
              s <- decode_utf8 b'' ;;
              let cp := Z.lor (Z.shiftl (Z.land v 31) 6) (Z.land w 63) in
              if cp <? 256 then Ok (String (chr cp) s) else Raise OutOfModel
            else Raise UnicodeDecodeError
        | [] => Raise UnicodeDecodeError
        end
      else if (0xE0 <=? v) && (v <? 0xF0) then
        match b' with
        | y :: z :: b'' =>
            if second3 v (Py.Z_of_byte y) && continuation (Py.Z_of_byte z)
            then _ <- decode_utf8 b'' ;; Raise OutOfModel
            else Raise UnicodeDecodeError
        | _ => Raise UnicodeDecodeError
        end
      else if (0xF0 <=? v) && (v <? 0xF5) then
        match b' with
        | y :: z :: t :: b'' =>
            if second4 v (Py.Z_of_byte y) && continuation (Py.Z_of_byte z)
               && continuation (Py.Z_of_byte t)
            then _ <- decode_utf8 b'' ;; Raise OutOfModel
            else Raise UnicodeDecodeError
        | _ => Raise UnicodeDecodeError
        end
      else Raise UnicodeDecodeError
  end.

(** [s.encode("latin1")]. *)
Definition encode_latin1 (s : string) : bytes := list_byte_of_string s.

(** [s.replace] of every space by nothing. *)
Fixpoint remove_spaces (s : string) : string :=
  match s with
  | EmptyString => EmptyString
  | String c s' =>
      if Ascii.eqb c " "%char then remove_spaces s'
      else String c (remove_spaces s')
  end.

(** [s[i:]] and [s[:n]] on text. *)
Fixpoint drop (i : nat) (s : string) : string :=
  match i, s with
  | O, _ => s
  | S i', String _ s' => drop i' s'
  | S _, EmptyString => EmptyString
  end.

Fixpoint take (n : nat) (s : string) : string :=
  match n, s with
  | S n', String c s' => String c (take n' s')
  | _, _ => EmptyString
  end.

(** [str(z)] of an int. *)
Definition str_of_int (z : Z) : string :=
  DecimalString.NilZero.string_of_int (Z.to_int z).

(** The value of a hexadecimal digit. *)
Definition hex_value (c : ascii) : option Z :=
  let v := code c in
  if (48 <=? v) && (v <=? 57) then Some (v - 48)
  else if (97 <=? v) && (v <=? 102) then Some (v - 87)
  else if (65 <=? v) && (v <=? 70) then Some (v - 55)
  else None.

Fixpoint hex_digits (s : string) (acc : Z) : result Z :=
  match s with
  | EmptyString => Ok acc
  | String c s' =>
      match hex_value c with
      | Some d => hex_digits s' (16 * acc + d)
      | None => Raise (ValueError "invalid literal for int() with base 16")
      end
  end.

(** [int(s, 16)] of a string of hexadecimal digits. *)
Definition int16 (s : string) : result Z :=
  match s with
  | EmptyString => Raise (ValueError "invalid literal for int() with base 16")
  | _ => hex_digits s 0
  end.

(** [s[i:j]] on text, for [0 <= i <= j]. *)
Definition slice (i j : nat) (s : string) : string := take (j - i) (drop i s).

Definition int_error : exn :=
  ValueError "invalid literal for int() with base 16".

(** A blank that [int] skips around a number: tab to carriage return, the
    space, and the two blanks of Latin-1, which it reads as spaces. *)
Definition is_blank (c : ascii) : bool :=
  let v := code c in
  ((9 <=? v) && (v <=? 13)) || (v =? 32) || (v =? 133) || (v =? 160).

Fixpoint skip_blanks (s : string) : string :=
  match s with
  | String c s' => if is_blank c then skip_blanks s' else s
  | EmptyString => s
  end.

(** The digits of a number in base 16, with single underscores between
    them: the value read and the text behind it. [underscore] tells that
    the character before was an underscore; a second one in a row, or one
    at the end of the digits, is an error. *)
Fixpoint digits16 (s : string) (acc : Z) (underscore : bool)
  : result (Z * string) :=
  match s with
  | EmptyString => if underscore then Raise int_error else Ok (acc, s)
  | String c s' =>
      if Ascii.eqb c "_" then
        if underscore then Raise int_error else digits16 s' acc true
      else
        match hex_value c with
        | Some d => digits16 s' (16 * acc + d) false
        | None => if underscore then Raise int_error else Ok (acc, s)
        end
  end.

(** [int(s, 16)] of any text: blanks around the number, a sign, the prefix
    [0x] or [0X] with one underscore behind it, and digits of either case
    with single underscores between them. *)
Definition int_base16 (s : string) : result Z :=
  let s := skip_blanks s in
  let '(negative, s) :=
    match s with
    | String "+" s' => (false, s')
    | String "-" s' => (true, s')
    | _ => (false, s)
    end in
  let s :=
    match s with
    | String "0" (String x s') =>
        if Ascii.eqb x "x" || Ascii.eqb x "X" then
          match s' with
          | String "_" s'' => s''
          | _ => s'
          end
        else s
    | _ => s
    end in
  match s with
  | EmptyString => Raise int_error
  | String c _ =>
      match hex_value c with
      | None => Raise int_error
      | Some _ =>
          r <- digits16 s 0 false ;;
          match skip_blanks (snd r) with
          | EmptyString => Ok (if negative then - fst r else fst r)
          | String _ _ => Raise int_error
          end
      end
  end.

Definition int10_error : exn :=
  ValueError "invalid literal for int() with base 10".

Definition int_limit_error : exn :=
  ValueError "Exceeds the limit (4300 digits) for integer string conversion".

(** The value of a decimal digit. *)
Definition dec_value (c : ascii) : option Z :=
  let v := code c in
  if (48 <=? v) && (v <=? 57) then Some (v - 48) else None.

(** The digits of a number in base 10, with single underscores between
    them: the value read, the number of digits, and the text behind
    them. *)
Fixpoint digits10 (s : string) (acc count : Z) (underscore : bool)
  : result (Z * Z * string) :=
  match s with
  | EmptyString => if underscore then Raise int10_error else Ok (acc, count, s)
  | String c s' =>
      if Ascii.eqb c "_" then
        if underscore then Raise int10_error else digits10 s' acc count true
      else
        match dec_value c with
        | Some d => digits10 s' (10 * acc + d) (count + 1) false
        | None =>
            if underscore then Raise int10_error else Ok (acc, count, s)
        end
  end.

(** [int(s)] of any text, as Python 3.11 reads it: blanks around the
    number, a sign, and decimal digits with single underscores between
    them; more than 4300 digits are refused before the text behind them is
    looked at. *)
Definition int_base10 (s : string) : result Z :=
  let s := skip_blanks s in
  let '(negative, s) :=
    match s with
    | String "+" s' => (false, s')
    | String "-" s' => (true, s')
    | _ => (false, s)
    end in
  match s with
  | EmptyString => Raise int10_error
  | String c _ =>
      match dec_value c with
      | None => Raise int10_error
      | Some _ =>
          r <- digits10 s 0 0 false ;;
          let '(value, count, rest) := r in
          if 4300 <? count then Raise int_limit_error
          else
            match skip_blanks rest with
            | EmptyString => Ok (if negative then - value else value)
            | String _ _ => Raise int10_error
            end
      end
  end.

(** [n] zeros. *)
Fixpoint zeros (n : nat) : string :=
  match n with
  | O => EmptyString
  | S n' => String "0" (zeros n')
  end.

(** [s.rjust(width, "0")]. *)
Definition zfill (width : nat) (s : string) : string :=
  (zeros (width - String.length s) ++ s)%string.

(** The field [{z:0wx}] of an f-string: lower-case digits of base 16,
    filled with zeros to [width] characters, the sign of a negative number
    before the zeros and counted in the width. *)
Definition format_x (width : nat) (z : Z) : string :=
  match z with
  | Z0 => zfill width "0"
  | Zpos p => zfill width (HexString.Raw.of_pos p "")
  | Zneg p => String "-" (zfill (width - 1) (HexString.Raw.of_pos p ""))
  end.

End Text.

Module Json.

#[local] Set Warnings "-register-all".

(** The values the payloads are built from. A [JObj] is a Python dict: its
    items in insertion order, no key twice. *)
Inductive json : Type :=
| JNull
| JBool (b : bool)
| JInt (z : Z)
| JStr (s : string)
| JList (l : list json)
| JObj (items : list (string * json)).

Definition dict : Type := Dict.t json.

(** [a == b]. A bool is an int in Python, so [True == 1] and [False == 0];
    lists are equal item by item, dicts when they hold the same keys with
    equal values, in whatever order; values of different kinds are
    unequal. *)
Fixpoint equal (a b : json) : bool :=
  match a, b with
  | JNull, JNull => true
  | JBool x, JBool y => Bool.eqb x y
  | JBool x, JInt y => (if x then 1 else 0) =? y
  | JInt x, JBool y => x =? (if y then 1 else 0)
  | JInt x, JInt y => x =? y
  | JStr x, JStr y => String.eqb x y
  | JList x, JList y =>
      (fix items (x y : list json) : bool :=
         match x, y with
         | [], [] => true
         | v :: x', w :: y' => equal v w && items x' y'
         | _, _ => false
         end) x y
  | JObj x, JObj y =>
      Nat.eqb (List.length x) (List.length y)
      && forallb (fun kv : string * json =>
                    let '(k, v) := kv in
                    match Dict.get k y with
                    | Some w => equal v w
                    | None => false
                    end) x
  | _, _ => false
  end.

(** Whether [hash(j)] returns: a list and a dict raise [TypeError]. *)
Definition hashable (j : json) : bool :=
  match j with
  | JList _ | JObj _ => false
  | _ => true
  end.

(** The truth of a value: [None], [False], 0 and the empty text, list and
    dict are false. *)
Definition truthy (j : json) : bool :=
  match j with
  | JNull | JBool false | JInt 0 | JStr EmptyString | JList [] | JObj [] =>
      false
  | _ => true
  end.

Definition hex4 (v : Z) : string :=
  String (MD5.hex_digit (v / 4096 mod 16))
    (String (MD5.hex_digit (v / 256 mod 16))
       (String (MD5.hex_digit (v / 16 mod 16))
          (String (MD5.hex_digit (v mod 16)) EmptyString))).

(** One character of a string literal, as [ensure_ascii] writes it. *)
Definition escape_char (c : ascii) : string :=
  let v := Text.code c in
  let c0 := Text.chr 92 in
  if v =? 34 then String c0 (String c EmptyString)
  else if v =? 92 then String c0 (String c0 EmptyString)
  else if v =? 10 then "\n"%string
  else if v =? 13 then "\r"%string
  else if v =? 9 then "\t"%string
  else if v =? 8 then "\b"%string
  else if v =? 12 then "\f"%string
  else if (32 <=? v) && (v <=? 126) then String c EmptyString
  else ("\u" ++ hex4 v)%string.

Fixpoint escape (s : string) : string :=
  match s with
  | EmptyString => EmptyString
  | String c s' => (escape_char c ++ escape s')%string
  end.

Definition quote (s : string) : string :=
  (String (Text.chr 34) (escape s) ++ String (Text.chr 34) EmptyString)%string.

(** [json.dumps(j)] with the default separators [", "] and [": "]. *)
Fixpoint dumps (j : json) : string :=
  match j with
  | JNull => "null"%string
  | JBool true => "true"%string
  | JBool false => "false"%string
  | JInt z => Text.str_of_int z
  | JStr s => quote s
  | JList l =>
      ("[" ++ (fix items (l : list json) : string :=
                 match l with
                 | [] => EmptyString
                 | x :: l' =>
                     match l' with
                     | [] => dumps x
                     | _ :: _ => dumps x ++ ", " ++ items l'
                     end
                 end) l ++ "]")%string
  | JObj d =>
      ("{" ++ (fix items (d : list (string * json)) : string :=
                 match d with
                 | [] => EmptyString
                 | (k, v) :: d' =>
                     match d' with
                     | [] => quote k ++ ": " ++ dumps v
                     | _ :: _ => quote k ++ ": " ++ dumps v ++ ", " ++ items d'
                     end
                 end) d ++ "}")%string
  end.

End Json.

(** ** tuya_protocol.py *)

Module AESCipher.

(** [self.bs]. *)
Definition bs : Z := 16.

(** [AESCipher._pad]. *)
Definition _pad (s : bytes) : bytes :=
  let padnum := bs - Py.len s mod bs in
  s ++ Py.rep padnum (Py.byte_of_Z padnum).

(** [AESCipher._unpad]: [s[: -ord(s[len(s) - 1 :])]]. The slice is [s[:0]]
    when the last byte is zero, and [ord] of the empty tail raises. *)
Definition _unpad (s : bytes) : result bytes :=
  match rev s with
  | [] => Raise TypeError
  | b :: _ =>
      let n := Py.Z_of_byte b in
      if n =? 0 then Ok [] else Ok (Py.drop_last n s)
  end.

(** [AESCipher.encrypt(raw, use_base64)]. *)
Definition encrypt (key raw : bytes) (use_base64 : bool) : result bytes :=
  let raw := _pad raw in
  crypted_text <- AES.encrypt key raw ;;
  if use_base64 then Ok (Base64.b64encode crypted_text)
  else Ok crypted_text.

(** [AESCipher.decrypt(enc, use_base64)]. *)
Definition decrypt (key enc : bytes) (use_base64 : bool) : result string :=
  enc <- (if use_base64 then Base64.b64decode enc else Ok enc) ;;
  raw <- AES.decrypt key enc ;;
  raw <- _unpad raw ;;
  Text.decode_utf8 raw.

End AESCipher.

Module TuyaProtocol.

Import Json.
Import Dict.

(** Command types. *)
Definition AP_CONFIG : Z := 1.
Definition CONTROL : Z := 7.
Definition STATUS : Z := 8.
Definition HEART_BEAT : Z := 9.
Definition DP_QUERY : Z := 10.
Definition CONTROL_NEW : Z := 13.
Definition DP_QUERY_NEW : Z := 16.
Definition UPDATEDPS : Z := 18.

Definition PROTOCOL_VERSION_BYTES_31 : bytes := list_byte_of_string "3.1".
Definition PROTOCOL_VERSION_BYTES_33 : bytes := list_byte_of_string "3.3".
Definition PROTOCOL_33_HEADER : bytes :=
  PROTOCOL_VERSION_BYTES_33 ++ Py.rep 12 x00.
Definition PREFIX_VALUE : Z := 0x000055AA.
Definition SUFFIX_VALUE : Z := 0x0000AA55.

Record CommanData : Type := {
  hexByte : string;
  command : dict
}.

Definition empty : json := JStr "".

(** [TUYA_COMMANDS["default"]]: [None] where the dict has no such key. *)
Definition TUYA_COMMANDS_default (cmd : Z) : option CommanData :=
  if cmd =? AP_CONFIG then
    Some {| hexByte := "01";
            command := [("gwId", empty); ("devId", empty);
                        ("uid", empty); ("t", empty)] |}
  else if cmd =? CONTROL then
    Some {| hexByte := "07";
            command := [("devId", empty); ("uid", empty); ("t", empty)] |}
  else if cmd =? STATUS then
    Some {| hexByte := "08";
            command := [("gwId", empty); ("devId", empty)] |}
  else if cmd =? HEART_BEAT then
    Some {| hexByte := "09";
            command := [("gwId", empty); ("devId", empty)] |}
  else if cmd =? DP_QUERY then
    Some {| hexByte := "0a";
            command := [("gwId", empty); ("devId", empty);
                        ("uid", empty); ("t", empty)] |}
  else if cmd =? CONTROL_NEW then
    Some {| hexByte := "0d";
            command := [("devId", empty); ("uid", empty); ("t", empty)] |}
  else if cmd =? DP_QUERY_NEW then
    Some {| hexByte := "0f";
            command := [("devId", empty); ("uid", empty); ("t", empty)] |}
  else if cmd =? UPDATEDPS then
    Some {| hexByte := "12";
            command := [("dpId", JList [JInt 18; JInt 19; JInt 20])] |}
  else None.

(** [TuyaRequest]; its fields carry a prefix here, because the names are
    those of [TuyaResponse] too. *)
Record TuyaRequest : Type := {
  req_seqno : Z;
  req_cmd : Z;
  req_payload : bytes
}.

Record TuyaResponse : Type := {
  seqno : Z;
  cmd : Z;
  payload : bytes;
  retcode : Z;
  crc : Z
}.

(** [TuyaProtocol._pack_message]. *)
Definition _pack_message (msg : TuyaRequest) : result bytes :=
  header <- Struct.pack_be32
              [PREFIX_VALUE; req_seqno msg; req_cmd msg;
               Py.len (req_payload msg) + Struct.calcsize_2I] ;;
  let buffer := header ++ req_payload msg in
  trailer <- Struct.pack_be32
               [Z.land (Binascii.crc32 buffer) 0xFFFFFFFF; SUFFIX_VALUE] ;;
  Ok (buffer ++ trailer).

(** [TuyaProtocol.unpack_message]. *)
Definition unpack_message (data : bytes) : result TuyaResponse :=
  let header_len := Struct.calcsize_5I in
  let end_len := Struct.calcsize_2I in
  header <- Struct.unpack_be32 5 (Py.take header_len data) ;;
  let payload := Py.slice_mid header_len end_len data in
  trailer <- Struct.unpack_be32 2 (Py.last_n end_len data) ;;
  Ok {| seqno := nth 1 header 0;
        cmd := nth 2 header 0;
        payload := payload;
        retcode := nth 4 header 0;
        crc := nth 0 trailer 0 |}.

(** The template with the id and timestamp filled in and the data added:
    the dict that [_generate_payload] serializes. *)
Definition fill (json_data : dict) (id timestamp : string)
  (data : option json) : dict :=
  let json_data :=
    if mem "gwId" json_data then set "gwId" (JStr id) json_data
    else json_data in
  let json_data :=
    if mem "devId" json_data then set "devId" (JStr id) json_data
    else json_data in
  let json_data :=
    if mem "uid" json_data then set "uid" (JStr id) json_data
    else json_data in
  let json_data :=
    if mem "t" json_data then set "t" (JStr timestamp) json_data
    else json_data in
  match data with
  | Some data =>
      if mem "dpId" json_data then set "dpId" data json_data
      else set "dps" data json_data
  | None => json_data
  end.

(** The bytes [_generate_payload] hands to [_pack_message]: the serialized
    dict after the per-version encryption and header. *)
Definition encode_payload (command_hb : string) (command : Z)
  (local_key version : string) (payload : bytes) : result bytes :=
  let blocal_key := Text.encode_utf8 local_key in
  payload <- (if String.eqb version "3.3"
              then AESCipher.encrypt blocal_key payload false
              else Ok payload) ;;
  if negb (String.eqb command_hb "0a") && negb (String.eqb command_hb "12")
  then Ok (PROTOCOL_33_HEADER ++ payload)
  else if command =? CONTROL then
    payload <- AESCipher.encrypt blocal_key payload true ;;
    let preMd5String :=
      list_byte_of_string "data=" ++ payload
      ++ list_byte_of_string "||lpv=" ++ PROTOCOL_VERSION_BYTES_31
      ++ list_byte_of_string "||" ++ blocal_key in
    let hexdigest := MD5.hexdigest preMd5String in
    Ok (PROTOCOL_VERSION_BYTES_31
        ++ Text.encode_latin1 (Text.take 16 (Text.drop 8 hexdigest))
        ++ payload)
  else Ok payload.

(** The text [_generate_payload] encodes: [json.dumps] of the filled dict
    with every space removed. *)
Definition message_of (json_data : dict) : string :=
  Text.remove_spaces (dumps (JObj json_data)).

(** [TuyaProtocol._generate_payload]. *)
Definition _generate_payload (command : Z) (id local_key version : string)
  (sequence_number : Z) (timestamp : string) (data : option json)
  : result bytes :=
  match TUYA_COMMANDS_default command with
  | None => Raise KeyError
  | Some entry =>
      let json_data := fill (TuyaProtocol.command entry) id timestamp data in
      let command_hb := hexByte entry in
      if String.eqb command_hb "0d" then Raise NotImplementedError
      else
        let message := message_of json_data in
        let payload := Text.encode_utf8 message in
        payload <- encode_payload command_hb command local_key version
                     payload ;;
        code <- Text.int16 command_hb ;;
        _pack_message {| req_seqno := sequence_number;
                         req_cmd := code;
                         req_payload := payload |}
  end.

(** [TuyaProtocol._decode_payload]. *)
Definition _decode_payload (payload : bytes) (local_key version : string)
  : result string :=
  match payload with
  | [] => Ok EmptyString
  | _ :: _ =>
      let blocal_key := Text.encode_utf8 local_key in
      if Py.startswith payload PROTOCOL_VERSION_BYTES_31 then
        let payload := Py.drop (Py.len PROTOCOL_VERSION_BYTES_31) payload in
        AESCipher.decrypt blocal_key (Py.drop 16 payload) true
      else if String.eqb version "3.3" then
        let payload :=
          if Py.startswith payload PROTOCOL_VERSION_BYTES_33
          then Py.drop (Py.len PROTOCOL_33_HEADER) payload
          else payload in
        match payload with
        | [] => Ok EmptyString
        | _ :: _ => AESCipher.decrypt blocal_key payload false
        end
      else if Py.startswith payload (list_byte_of_string "{") then
        Text.decode_utf8 payload
      else Raise (ValueError "Unexpected payload")
  end.

(** [TuyaProtocol.data_received] up to the decoded text: the frame is
    unpacked and its payload decoded; [json.loads] of the text is left to
    the caller. *)
Definition data_received (data : bytes) (local_key version : string)
  : result string :=
  msg <- unpack_message data ;;
  _decode_payload (payload msg) local_key version.

(** *** The protocol object of one exchange *)

(** [TuyaProtocol(...)]: the class counter [sequence_number] is advanced
    before the frame is built, so a constructor that raises has used a
    number too. Given the counter, the pair is the counter afterwards and
    the outcome of building [self._payload]. *)
Definition __init__ (sequence_number : Z) (id local_key version : string)
  (command : Z) (timestamp : string) (data : option json)
  : Z * result bytes :=
  let sqno := sequence_number + 1 in
  (sqno,
   _generate_payload command id local_key version sqno timestamp data).

(** [TuyaProtocol.connection_made]: what is written to the transport,
    nothing for an empty payload. *)
Definition connection_made (payload : bytes) : option bytes :=
  match payload with
  | [] => None
  | _ :: _ => Some payload
  end.

(** The future [self._outcome]: pending, or done with a result, with an
    exception, or cancelled. *)
Inductive outcome : Type :=
| Pending
| Finished (value : option json)
| Failed (e : exn)
| Cancelled.

(** [self._outcome.done()]. *)
Definition done (o : outcome) : bool :=
  match o with
  | Pending => false
  | _ => true
  end.

(** What the event loop tells the protocol. *)
Inductive event : Type :=
| DataReceived (data : bytes)
| ConnectionLost (exc : option exn)
| EofReceived.

Module Events.

Section Handlers.

(** [json.loads], a parser the model takes as given. *)
Variable json_loads : string -> result json.

(** [self._local_key] and [self._version]. *)
Variables local_key version : string.

(** The body of the [try] of [data_received]: the value the future is
    resolved with. A response tuple is never false, so the message is
    always decoded. *)
Definition decoded (data : bytes) : result (option json) :=
  payload <- TuyaProtocol.data_received data local_key version ;;
  match payload with
  | EmptyString => Ok None
  | String _ _ => j <- json_loads payload ;; Ok (Some j)
  end.

(** [TuyaProtocol.data_received]. *)
Definition data_received (o : outcome) (data : bytes) : outcome :=
  if done o then o
  else
    match decoded data with
    | Ok value => Finished value
    | Raise e => Failed e
    end.

(** [TuyaProtocol.connection_lost]: [exc] is an exception or [None]. *)
Definition connection_lost (o : outcome) (exc : option exn) : outcome :=
  if done o then o
  else
    match exc with
    | Some e => Failed e
    | None => Cancelled
    end.

(** [TuyaProtocol.eof_received]. *)
Definition eof_received (o : outcome) : outcome :=
  if done o then o else Failed TuyaError.

Definition handle (o : outcome) (ev : event) : outcome :=
  match ev with
  | DataReceived data => data_received o data
  | ConnectionLost exc => connection_lost o exc
  | EofReceived => eof_received o
  end.

(** The future after the events of a connection, in order. *)
Definition after (events : list event) : outcome :=
  fold_left handle events Pending.

End Handlers.

End Events.

End TuyaProtocol.

(** ** device_scanner.py *)

Module Scanner.

Import Json.

(** [ScanResult]: a named tuple of eight fields. The types its
    declaration gives them are not checked when a tuple is made, so a field
    holds whatever value the announcement has for it. *)
Record ScanResult : Type := {
  ip : json;
  gwId : json;
  active : json;
  ability : json;
  mode : json;
  encrypt : json;
  productKey : json;
  version : json
}.

(** [a == b] of two tuples: field by field. *)
Definition ScanResult_eqb (a b : ScanResult) : bool :=
  equal (ip a) (ip b) && equal (gwId a) (gwId b)
  && equal (active a) (active b) && equal (ability a) (ability b)
  && equal (mode a) (mode b) && equal (encrypt a) (encrypt b)
  && equal (productKey a) (productKey b)
  && equal (version a) (version b).

(** Whether [hash(data)] returns: every field must have a hash. *)
Definition ScanResult_hashable (data : ScanResult) : bool :=
  hashable (ip data) && hashable (gwId data) && hashable (active data)
  && hashable (ability data) && hashable (mode data)
  && hashable (encrypt data) && hashable (productKey data)
  && hashable (version data).

(** A consumer: called with a result, it returns or raises. *)
Definition DeviceFoundCallback : Type := ScanResult -> result unit.

(** The calls made to consumers, oldest first: the registry key of the
    callback and the result it was called with. *)
Definition calls : Type := list (string * ScanResult).

(** [DeviceScanner]: the results seen and the registry of callbacks, in the
    order they were added. *)
Record DeviceScanner : Type := {
  _seen : list ScanResult;
  on_device_found : Dict.t DeviceFoundCallback;
  is_running : bool
}.

(** [DeviceScanner()]. *)
Definition new : DeviceScanner :=
  {| _seen := []; on_device_found := []; is_running := false |}.

(** [data in self._seen], for a tuple that has a hash: one of the set is
    equal to it. *)
Definition seen_mem (data : ScanResult) (seen : list ScanResult) : bool :=
  existsb (ScanResult_eqb data) seen.

(** The loop of [_on_device_found_wrapper] over [self.on_device_found]:
    each callback is called in turn, and the first exception leaves the
    loop. *)
Fixpoint call_each (cbs : Dict.t DeviceFoundCallback) (data : ScanResult)
  (log : calls) : result unit * calls :=
  match cbs with
  | [] => (Ok tt, log)
  | (key, callback) :: cbs' =>
      let log := log ++ [(key, data)] in
      match callback data with
      | Ok _ => call_each cbs' data log
      | Raise e => (Raise e, log)
      end
  end.

(** [DeviceScanner._on_device_found_wrapper]. The test [data not in
    self._seen] hashes the tuple first, which raises [TypeError] when a
    field is a list or a dict. *)
Definition _on_device_found_wrapper (self : DeviceScanner)
  (data : ScanResult) (log : calls)
  : result unit * DeviceScanner * calls :=
  if negb (ScanResult_hashable data) then (Raise TypeError, self, log)
  else if negb (seen_mem data (_seen self)) then
    let self := {| _seen := _seen self ++ [data];
                   on_device_found := on_device_found self;
                   is_running := is_running self |} in
    let '(r, log) := call_each (on_device_found self) data log in
    (r, self, log)
  else (Ok tt, self, log).

(** [DeviceScanner.add_listener], with the key [generate_random_key] drew:
    one the registry does not hold. The sockets are started. *)
Definition add_listener (self : DeviceScanner) (key : string)
  (cb : DeviceFoundCallback) : DeviceScanner :=
  {| _seen := _seen self;
     on_device_found := Dict.set key cb (on_device_found self);
     is_running := true |}.

(** The keyword [k] of a call of [ScanResult] with the keywords of [d]: a
    field without a keyword is a [TypeError]. *)
Definition field (k : string) (d : dict) : result json :=
  match Dict.get k d with
  | Some v => Ok v
  | None => Raise TypeError
  end.

(** [ScanResult] called with the keywords of [json_data]: the value must be
    a dict, and the dict must hold the eight fields and no other key; what
    the fields hold is not looked at. *)
Definition ScanResult_of (json_data : json) : result ScanResult :=
  match json_data with
  | JObj d =>
      if negb (Nat.eqb (List.length d) 8) then Raise TypeError
      else
        ip <- field "ip" d ;;
        gwId <- field "gwId" d ;;
        active <- field "active" d ;;
        ability <- field "ability" d ;;
        mode <- field "mode" d ;;
        encrypt <- field "encrypt" d ;;
        productKey <- field "productKey" d ;;
        version <- field "version" d ;;
        Ok {| ip := ip; gwId := gwId; active := active; ability := ability;
              mode := mode; encrypt := encrypt; productKey := productKey;
              version := version |}
  | _ => Raise TypeError
  end.

(** [v31PresenseProto.decode]. *)
Definition decode_31 (data : bytes) : result string := Text.decode_utf8 data.

(** [v33PresenseProto.udpkey]. *)
Definition udpkey : bytes := MD5.digest (list_byte_of_string "yGAdlopoPVldABfn").

(** [v33PresenseProto.decode]: [decrypt_udp], that is [decrypt] with the
    discovery key. *)
Definition decode_33 (msg : bytes) : result string :=
  raw <- AES.decrypt udpkey msg ;;
  raw <- AESCipher._unpad raw ;;
  Text.decode_utf8 raw.

(** The two protocols of the scanner: the port a datagram arrives on
    decides how it is decoded. *)
Inductive generation : Type := Gen31 | Gen33.

Definition decode_of (g : generation) : bytes -> result string :=
  match g with
  | Gen31 => decode_31
  | Gen33 => decode_33
  end.

Section Listener.

(** The text [decode] returns and [json.loads] reads: nothing else is done
    with it, so what follows holds for any type of text. *)
Variable T : Type.

(** [json.loads], a parser the model takes as given. *)
Variable json_loads : T -> result json.

(** What [datagram_received] does before it calls back: the datagram
    without its 20-byte header and 8-byte footer is decoded and parsed,
    and the tuple is made. *)
Definition parse_datagram (decode : bytes -> result T) (data : bytes)
  : result ScanResult :=
  let result := Py.slice_mid 20 8 data in
  message <- decode result ;;
  json_data <- json_loads message ;;
  ScanResult_of json_data.

(** The end of [datagram_received]: the callback of the protocol, which is
    the scanner's wrapper, is called inside [try: ... except: pass]. *)
Definition deliver (self : DeviceScanner) (scan_result : ScanResult)
  (log : calls) : result unit * DeviceScanner * calls :=
  let '(_, self, log) := _on_device_found_wrapper self scan_result log in
  (Ok tt, self, log).

(** [datagram_received] of either protocol of the scanner. *)
Definition datagram_received (decode : bytes -> result T)
  (self : DeviceScanner) (data : bytes) (log : calls)
  : result unit * DeviceScanner * calls :=
  match parse_datagram decode data with
  | Ok scan_result => deliver self scan_result log
  | Raise e => (Raise e, self, log)
  end.

(** The datagrams of a listener lifetime, handled in order, each decoded
    as its port has it; an exception of one goes to the event loop and the
    next is handled all the same. *)
Fixpoint receive_all (decoders : generation -> bytes -> result T)
  (self : DeviceScanner) (datagrams : list (generation * bytes))
  (log : calls) : DeviceScanner * calls :=
  match datagrams with
  | [] => (self, log)
  | (g, data) :: datagrams' =>
      let '(_, self, log) := datagram_received (decoders g) self data log in
      receive_all decoders self datagrams' log
  end.

(** The tuples the datagrams give, in order: a datagram that raises before
    its tuple is made gives none. *)
Definition parsed (decoders : generation -> bytes -> result T)
  (datagrams : list (generation * bytes)) : list ScanResult :=
  flat_map (fun d => match parse_datagram (decoders (fst d)) (snd d) with
                     | Ok r => [r]
                     | Raise _ => []
                     end) datagrams.

End Listener.

Arguments parse_datagram {T} json_loads decode data.
Arguments datagram_received {T} json_loads decode self data log.
Arguments receive_all {T} json_loads decoders self datagrams log.
Arguments parsed {T} json_loads decoders datagrams.

(** The same after parsing: the results of the datagrams in order. *)
Fixpoint deliver_all (self : DeviceScanner) (rs : list ScanResult)
  (log : calls) : DeviceScanner * calls :=
  match rs with
  | [] => (self, log)
  | r :: rs' =>
      let '(_, self, log) := deliver self r log in
      deliver_all self rs' log
  end.

(** *** Starting and stopping *)

(** [DeviceScanner.seen]: a copy of the set. *)
Definition seen (self : DeviceScanner) : list ScanResult := _seen self.

Definition with_running (self : DeviceScanner) (running : bool)
  : DeviceScanner :=
  {| _seen := _seen self;
     on_device_found := on_device_found self;
     is_running := running |}.

Definition with_registry (self : DeviceScanner)
  (registry : Dict.t DeviceFoundCallback) : DeviceScanner :=
  {| _seen := _seen self;
     on_device_found := registry;
     is_running := is_running self |}.

(** [DeviceScanner._stop]: the transports are closed and the flag is
    cleared; the sockets themselves are not part of the model. *)
Definition _stop (self : DeviceScanner) : DeviceScanner :=
  if negb (is_running self) then self else with_running self false.

(** [DeviceScanner._start], given the outcome of binding the two ports:
    the flag is set after both endpoints exist. *)
Definition _start (self : DeviceScanner) (endpoints : result unit)
  : result unit * DeviceScanner :=
  if is_running self then (Ok tt, self)
  else
    match endpoints with
    | Ok _ => (Ok tt, with_running self true)
    | Raise e => (Raise e, self)
    end.

(** [DeviceScanner.add_listener] with the key drawn and the outcome of
    binding the ports: the callback is registered before the start is
    tried. *)
Definition add_listener_bind (self : DeviceScanner) (key : string)
  (cb : DeviceFoundCallback) (endpoints : result unit)
  : result unit * DeviceScanner :=
  _start (with_registry self (Dict.set key cb (on_device_found self)))
    endpoints.

(** The closure [remove] that [add_listener] returns for [key]. *)
Definition remove (self : DeviceScanner) (key : string) : DeviceScanner :=
  let self := with_registry self (Dict.remove key (on_device_found self)) in
  match on_device_found self with
  | [] => _stop self
  | _ :: _ => self
  end.

(** What happens to a scanner: a listener is added (the ports bind), the
    closure for a key is called, a datagram arrives. *)
Inductive action : Type :=
| Add (key : string) (cb : DeviceFoundCallback)
| Remove (key : string)
| Receive (g : generation) (data : bytes).

Section Lifetime.

Variable json_loads : string -> result json.

Definition act (st : DeviceScanner * calls) (a : action)
  : DeviceScanner * calls :=
  let '(self, log) := st in
  match a with
  | Add key cb => (add_listener self key cb, log)
  | Remove key => (remove self key, log)
  | Receive g data =>
      let '(_, self, log) :=
        datagram_received json_loads (decode_of g) self data log in
      (self, log)
  end.

Definition run (self : DeviceScanner) (log : calls) (actions : list action)
  : DeviceScanner * calls :=
  fold_left act actions (self, log).

End Lifetime.

(** How often the callback under [key] was called with [data]. *)
Definition delivered (key : string) (data : ScanResult) (log : calls) : nat :=
  List.length
    (filter (fun c => String.eqb (fst c) key && ScanResult_eqb (snd c) data)
       log).

End Scanner.

(** ** Python floats and sets *)

Module Float.

(** A Python float: IEEE 754 binary64, rounding to nearest even. *)
Definition float : Type := spec_float.
Definition prec : Z := 53.
Definition emax : Z := 1024.

(** [float(z)] of an int. *)
Definition of_int (z : Z) : result float :=
  match binary_normalize prec emax z 0 false with
  | S754_infinity _ => Raise OverflowError
  | f => Ok f
  end.

Definition one : float := binary_normalize prec emax 1 0 false.

Definition mul : float -> float -> float := SFmul prec emax.
Definition sub : float -> float -> float := SFsub prec emax.

(** [a / b], raising for a zero divisor. *)
Definition div (a b : float) : result float :=
  match b with
  | S754_zero _ => Raise ZeroDivisionError
  | _ => Ok (SFdiv prec emax a b)
  end.

(** [int(f)]: truncation toward zero. *)
Definition to_int (f : float) : result Z :=
  match f with
  | S754_zero _ => Ok 0
  | S754_finite s m e =>
      let mag := if 0 <=? e then Zpos m * 2 ^ e else Zpos m / 2 ^ (- e) in
      Ok (if s then - mag else mag)
  | S754_infinity _ => Raise OverflowError
  | S754_nan => Raise (ValueError "cannot convert float NaN to integer")
  end.

Definition six : float := binary_normalize prec emax 6 0 false.
Definition f255 : float := binary_normalize prec emax 255 0 false.

(** [f == 0.0]. *)
Definition is_zero (f : float) : bool :=
  match f with
  | S754_zero _ => true
  | _ => false
  end.

End Float.

(** ** colorsys.hsv_to_rgb *)

Module Colorsys.

Import Float.

Definition hsv_to_rgb (h s v : float) : result (float * float * float) :=
  if is_zero s then Ok (v, v, v)
  else
    i <- to_int (mul h six) ;;
    fi <- of_int i ;;
    let f := sub (mul h six) fi in
    let p := mul v (sub one s) in
    let q := mul v (sub one (mul s f)) in
    let t := mul v (sub one (mul s (sub one f))) in
    let i := i mod 6 in
    if i =? 0 then Ok (v, t, p)
    else if i =? 1 then Ok (q, v, p)
    else if i =? 2 then Ok (p, v, t)
    else if i =? 3 then Ok (p, q, v)
    else if i =? 4 then Ok (t, p, v)
    else Ok (v, p, q).

End Colorsys.

Module PySet.

(** A set of strings: its elements, none twice. *)
Definition t : Type := list string.

Definition mem (x : string) (s : t) : bool := existsb (String.eqb x) s.

(** [set(l)]. *)
Fixpoint of_list (l : list string) : t :=
  match l with
  | [] => []
  | x :: l' => let s := of_list l' in if mem x s then s else x :: s
  end.

(** [a & b]. *)
Definition inter (a b : t) : t := filter (fun x => mem x b) a.

(** [s.pop()] of a set that is not empty: which element comes out is up to
    the hash order of the process, here the index [order] gives. *)
Definition pop (order : t -> nat) (s : t) : option string :=
  match s with
  | [] => None
  | _ :: _ => nth_error s (order s mod List.length s)
  end.

End PySet.

(** ** device.py *)

Module Device.

Import Json.

(** [TUYA_CODES]. *)
Definition SWITCH_1 : string := "switch_1".
Definition SWITCH_LED : string := "switch_led".
Definition WORK_MODE : string := "work_mode".
Definition BRIGHT_VALUE_V2 : string := "bright_value_v2".
Definition TEMP_VALUE_V2 : string := "temp_value_v2".
Definition BRIGHT_VALUE : string := "bright_value".
Definition TEMP_VALUE : string := "temp_value".
Definition COLOUR_DATA : string := "colour_data".

Definition TURN_ON_CODES : PySet.t := [SWITCH_LED; SWITCH_1].
Definition BRIGHTNESS_CODES : PySet.t := [BRIGHT_VALUE; BRIGHT_VALUE_V2].
Definition COLOR_CODES : PySet.t := [COLOUR_DATA].
Definition COLOR_TEMP_CODES : PySet.t := [TEMP_VALUE; TEMP_VALUE_V2].
Definition WORK_MODES : PySet.t := [WORK_MODE].

Record ValueRange : Type := { min : Z; max : Z }.

Definition ValueRange_eqb (a b : ValueRange) : bool :=
  (min a =? min b) && (max a =? max b).

Definition TUYA_TEMP_MODE : string := "white".
Definition TUYA_COLOR_MODE : string := "colour".
Definition TUYA_TYPE_LIGHT : string := "dj".
Definition TUYA_TYPE_SWITCH : string := "cz".

Definition RANGE_255 : ValueRange := {| min := 0; max := 255 |}.
Definition TUYA_HSV_RANGE : ValueRange * ValueRange * ValueRange :=
  ({| min := 0; max := 360 |}, {| min := 0; max := 255 |},
   {| min := 0; max := 255 |}).

(** [scale_value]. *)
Definition scale_value (value1 : Z) (range1 range2 : ValueRange)
  : result Z :=
  if ValueRange_eqb range1 range2 then Ok value1
  else if value1 =? min range1 then Ok (min range2)
  else if value1 =? max range1 then Ok (max range2)
  else
    span1 <- Float.of_int (max range1 - min range1) ;;
    let span1 := Float.mul Float.one span1 in
    span2 <- Float.of_int (max range2 - min range2) ;;
    factor <- Float.div span2 span1 ;;
    rest <- Float.of_int (max range1 - value1) ;;
    top <- Float.of_int (max range2) ;;
    Float.to_int (Float.sub top (Float.mul factor rest)).

Record _TuyaMap : Type := {
  device_types : Dict.t string;
  light_modes : Dict.t string;
  range_brightness : ValueRange;
  range_hsv : ValueRange * ValueRange * ValueRange;
  range_color_temperature : ValueRange
}.

(** The two class attributes [build_map] sets. *)
Record maps : Type := {
  _map_from_tuya : _TuyaMap;
  _map_to_tuya : _TuyaMap
}.

(** [{m[k]: k for k in m}]. *)
Definition inverted (m : Dict.t string) : Dict.t string :=
  Dict.of_items (map (fun kv => (snd kv, fst kv)) m).

(** [TuyaDevice.build_map]. *)
Definition build_map (device_type_unknown device_type_light
  device_type_switch light_mode_temperature light_mode_color : string)
  (range_brightness : ValueRange)
  (range_hsv : ValueRange * ValueRange * ValueRange)
  (range_color_temperature : ValueRange) : maps :=
  let device_types :=
    Dict.of_items [(TUYA_TYPE_LIGHT, device_type_light);
                   (TUYA_TYPE_SWITCH, device_type_switch);
                   ("", device_type_unknown)] in
  let light_modes :=
    Dict.of_items [(TUYA_TEMP_MODE, light_mode_temperature);
                   (TUYA_COLOR_MODE, light_mode_color)] in
  {| _map_from_tuya :=
       {| device_types := device_types;
          light_modes := light_modes;
          range_brightness := range_brightness;
          range_hsv := range_hsv;
          range_color_temperature := range_color_temperature |};
     _map_to_tuya :=
       {| device_types := inverted device_types;
          light_modes := inverted light_modes;
          range_brightness := RANGE_255;
          range_hsv := TUYA_HSV_RANGE;
          range_color_temperature := RANGE_255 |} |}.

(** The keys of [DeviceData] the device model reads or writes. *)
Record DeviceData : Type := {
  name : string;
  id : string;
  local_key : string;
  device_type : string;
  attributes : list string;
  ip : json;
  version : json;
  code_to_name : option (Dict.t string);
  name_to_code : option (Dict.t string)
}.

(** [TuyaState]: values by attribute name. *)
Definition TuyaState : Type := Dict.t json.

Record TuyaDevice : Type := {
  _data : DeviceData;
  _state : option TuyaState;
  _failed_connect : Z;
  _attributes : PySet.t
}.

(** [TuyaDevice(device_data)]. *)
Definition new (device_data : DeviceData) : TuyaDevice :=
  {| _data := device_data;
     _state := None;
     _failed_connect := 0;
     _attributes := PySet.of_list (attributes device_data) |}.

(** [TuyaDevice.assumed_state]. *)
Definition assumed_state (self : TuyaDevice) : bool :=
  3 <? _failed_connect self.

(** Truth of an optional string, dict or state: [None] and the empty value
    are false. The ip and the version of a device are values as an
    announcement holds them, with [Json.truthy] for their truth. *)
Definition truthy_str (s : option string) : bool :=
  match s with
  | Some (String _ _) => true
  | _ => false
  end.

Definition truthy_dict {V} (d : option (Dict.t V)) : bool :=
  match d with
  | Some (_ :: _) => true
  | _ => false
  end.

(** [code == c] for the code a property returned. *)
Definition code_is (code : option string) (c : string) : bool :=
  match code with
  | Some s => String.eqb s c
  | None => false
  end.

(** [int(value1)] of a stored value: a bool counts as 0 or 1, text is
    read as a number, and [None], a list and a dict are refused. *)
Definition int_of (j : json) : result Z :=
  match j with
  | JInt z => Ok z
  | JBool b => Ok (if b then 1 else 0)
  | JStr s => Text.int_base10 s
  | JNull | JList _ | JObj _ => Raise TypeError
  end.

(** [scale_value] called with a stored value. An int, and a bool as the
    int it is, go the way of [scale_value]. Any other value is handed to
    [int] when the ranges are equal; when they are not, it is equal to
    neither end of the range, the factor is worked out, and the
    subtraction [range1.max - value1] raises [TypeError]. *)
Definition scale_value_of (value1 : json) (range1 range2 : ValueRange)
  : result Z :=
  match value1 with
  | JInt z => scale_value z range1 range2
  | JBool b => scale_value (if b then 1 else 0) range1 range2
  | JNull | JStr _ | JList _ | JObj _ =>
      if ValueRange_eqb range1 range2 then int_of value1
      else
        span1 <- Float.of_int (max range1 - min range1) ;;
        let span1 := Float.mul Float.one span1 in
        span2 <- Float.of_int (max range2 - min range2) ;;
        factor <- Float.div span2 span1 ;;
        Raise TypeError
  end.

Section Getters.

(** The hash order of the process, which decides what [set.pop] returns. *)
Variable order : PySet.t -> nat.

(** The class attributes set by [build_map]. *)
Variable cfg : maps.

(** The shared body of the five code properties:
    [code = CODES & attributes if attributes else None], then
    [code.pop() if code else None]. *)
Definition code_in (codes : PySet.t) (self : TuyaDevice) : option string :=
  let attributes := _attributes self in
  match attributes with
  | [] => None
  | _ :: _ => PySet.pop order (PySet.inter codes attributes)
  end.

Definition color_code : TuyaDevice -> option string := code_in COLOR_CODES.
Definition color_temp_code : TuyaDevice -> option string :=
  code_in COLOR_TEMP_CODES.
Definition brightness_code : TuyaDevice -> option string :=
  code_in BRIGHTNESS_CODES.
Definition power_code : TuyaDevice -> option string := code_in TURN_ON_CODES.
Definition work_mode_code : TuyaDevice -> option string :=
  code_in WORK_MODES.

(** [if code and state and code in state], giving [state[code]]. *)
Definition state_value (self : TuyaDevice) (code : option string)
  : option json :=
  if truthy_str code && truthy_dict (_state self) then
    match code, _state self with
    | Some c, Some state => Dict.get c state
    | _, _ => None
    end
  else None.

(** [TuyaDevice.brightness]. *)
Definition brightness (self : TuyaDevice) : result (option Z) :=
  let range := range_brightness (_map_from_tuya cfg) in
  let t_range := range_brightness (_map_to_tuya cfg) in
  let code := brightness_code self in
  match state_value self code with
  | Some v =>
      if code_is code BRIGHT_VALUE then
        r <- scale_value_of v t_range range ;; Ok (Some r)
      else Ok None
  | None => Ok None
  end.

(** [TuyaDevice.set_brightness]. *)
Definition set_brightness (self : TuyaDevice) (value : Z)
  : result (option (Dict.t json)) :=
  let range := range_brightness (_map_from_tuya cfg) in
  let t_range := range_brightness (_map_to_tuya cfg) in
  let code := brightness_code self in
  if truthy_str code && code_is code BRIGHT_VALUE then
    v <- scale_value value range t_range ;;
    Ok (Some [(BRIGHT_VALUE, JInt (Z.max 25 v))])
  else Ok None.

(** [TuyaDevice.color_temp]. *)
Definition color_temp (self : TuyaDevice) : result (option Z) :=
  let range := range_color_temperature (_map_from_tuya cfg) in
  let t_range := range_color_temperature (_map_to_tuya cfg) in
  let code := color_temp_code self in
  match state_value self code with
  | Some v =>
      if code_is code TEMP_VALUE then
        r <- scale_value_of v t_range range ;; Ok (Some r)
      else Ok None
  | None => Ok None
  end.

(** [TuyaDevice.set_color_temp]. *)
Definition set_color_temp (self : TuyaDevice) (value : Z)
  : result (option (Dict.t json)) :=
  let range := range_color_temperature (_map_from_tuya cfg) in
  let t_range := range_color_temperature (_map_to_tuya cfg) in
  let code := color_temp_code self in
  if truthy_str code && code_is code TEMP_VALUE then
    v <- scale_value value range t_range ;;
    Ok (Some [(TEMP_VALUE, JInt v)])
  else Ok None.

End Getters.

(** *** Fetching and setting the state *)

(** What [_lan_control] gives back: the decoded JSON object, [None] for an
    empty reply, or the exception of the exchange. A reply that decodes to
    a value other than an object is not told apart from [None]: [status]
    raises on both inside the [try] of its caller, and [set_state] looks at
    neither. *)
Definition reply : Type := result (option dict).

(** [status] of tuya_platform.py, after its [_lan_control] call: what the
    reply holds under ["dps"] is returned as it is. *)
Definition status (r : reply) : result json :=
  data <- r ;;
  if truthy_dict data then
    match data with
    | Some d =>
        match Dict.get "dps" d with
        | Some dps => Ok dps
        | None => Raise (ValueError "Unexpected")
        end
    | None => Raise (ValueError "Unexpected")
    end
  else Raise (ValueError "Unexpected").

(** [{m[k]: d[k] for k in d}]. *)
Fixpoint rekey (m : Dict.t string) (d : Dict.t json) (acc : Dict.t json)
  : result (Dict.t json) :=
  match d with
  | [] => Ok acc
  | (k, v) :: d' => k' <- Dict.item k m ;; rekey m d' (Dict.set k' v acc)
  end.

Definition with_data (self : TuyaDevice) (data : DeviceData) : TuyaDevice :=
  {| _data := data;
     _state := _state self;
     _failed_connect := _failed_connect self;
     _attributes := _attributes self |}.

Definition with_state (self : TuyaDevice) (state : option TuyaState)
  (failed_connect : Z) : TuyaDevice :=
  {| _data := _data self;
     _state := state;
     _failed_connect := failed_connect;
     _attributes := _attributes self |}.

(** [zip(codes, attributes)]. *)
Fixpoint zip (codes attributes : list string) : list (string * string) :=
  match codes, attributes with
  | c :: codes', a :: attributes' => (c, a) :: zip codes' attributes'
  | _, _ => []
  end.

(** [list(status.keys())]: only a dict has the method. *)
Definition keys_of (status : json) : result (list string) :=
  match status with
  | JObj d => Ok (Dict.keys d)
  | _ => Raise AttributeError
  end.

(** [TuyaDevice._create_code_name_maps]. *)
Definition _create_code_name_maps (self : TuyaDevice) (status : json)
  : result (Dict.t string * TuyaDevice) :=
  codes <- keys_of status ;;
  let attributes := attributes (_data self) in
  let code_to_name := Dict.of_items (zip codes attributes) in
  let name_to_code := inverted code_to_name in
  let data := _data self in
  Ok (code_to_name,
      with_data self
        {| name := name data; id := id data; local_key := local_key data;
           device_type := device_type data; attributes := attributes;
           ip := ip data; version := version data;
           code_to_name := Some code_to_name;
           name_to_code := Some name_to_code |}).

(** [{map[code]: status[code] for code in status}], the key of an item
    worked out before its value. A dict is gone through by its keys. Text
    is gone through by its characters and a list by its items: the first
    of them is looked up in [map], which raises [KeyError] for what is no
    key of it and [TypeError] for a list or a dict, and is then used as an
    index into the text or the list, which raises [TypeError]. [None], a
    bool and an int cannot be gone through. *)
Definition translated (map : Dict.t string) (status : json)
  : result (Dict.t json) :=
  match status with
  | JObj d => rekey map d []
  | JStr EmptyString => Ok []
  | JStr (String c _) =>
      _ <- Dict.item (String c EmptyString) map ;; Raise TypeError
  | JList [] => Ok []
  | JList (JStr code :: _) => _ <- Dict.item code map ;; Raise TypeError
  | JList ((JList _ | JObj _) :: _) => Raise TypeError
  | JList ((JNull | JBool _ | JInt _) :: _) => Raise KeyError
  | JNull | JBool _ | JInt _ => Raise TypeError
  end.

Definition no_ip : exn := ValueError "No IP address".
Definition no_codes : exn :=
  ValueError "No DPS codes found yet.Fetch state before setting it.".

(** [map or self._create_code_name_maps(status)], for the [map] of the
    device data: the maps are made when there is none or an empty one. *)
Definition map_or_create (self : TuyaDevice) (status : json)
  : result (Dict.t string * TuyaDevice) :=
  if truthy_dict (code_to_name (_data self)) then
    match code_to_name (_data self) with
    | Some map => Ok (map, self)
    | None => _create_code_name_maps self status
    end
  else _create_code_name_maps self status.

(** [TuyaDevice.fetch_state], given the outcome [r] of its exchange. The
    [try] holds the call of [status] alone: what the [else] branch raises
    leaves [fetch_state], with the state and the counter as they were. *)
Definition fetch_state (self : TuyaDevice) (r : reply)
  : result unit * TuyaDevice :=
  if negb (truthy (ip (_data self))) then (Raise no_ip, self)
  else
    match status r with
    | Raise ConnectionError =>
        (Ok tt, with_state self (_state self) (_failed_connect self + 1))
    | Raise _ => (Ok tt, self)
    | Ok status =>
        match map_or_create self status with
        | Raise e => (Raise e, self)
        | Ok (map, self) =>
            match translated map status with
            | Ok state => (Ok tt, with_state self (Some state) 0)
            | Raise e => (Raise e, self)
            end
        end
    end.

(** [state.update(value)] when the state is neither [None] nor empty. *)
Definition merged (self : TuyaDevice) (value : Dict.t json) : TuyaDevice :=
  if truthy_dict (_state self) then
    match _state self with
    | Some state =>
        with_state self (Some (Dict.update state value))
          (_failed_connect self)
    | None => self
    end
  else self.

(** The [while attempt < max_attempt] loop of [set_state]. [net] gives the
    outcome of each exchange by its number; the count returned with the
    result is that of the exchanges made. *)
Fixpoint attempts (fuel : nat) (attempt : Z) (net : Z -> reply)
  (self : TuyaDevice) (value : Dict.t json) : bool * TuyaDevice * Z :=
  match fuel with
  | O => (false, self, attempt)
  | S fuel' =>
      match net attempt with
      | Ok _ => (true, merged self value, attempt + 1)
      | Raise ConnectionError => attempts fuel' (attempt + 1) net self value
      | Raise _ => (false, self, attempt + 1)
      end
  end.

Definition max_attempt : Z := 2.

(** [TuyaDevice.set_state]. *)
Definition set_state (self : TuyaDevice) (value : Dict.t json)
  (net : Z -> reply) : result bool * TuyaDevice * Z :=
  if negb (truthy (ip (_data self))) then (Raise no_ip, self, 0)
  else if negb (truthy_dict (name_to_code (_data self)))
  then (Raise no_codes, self, 0)
  else
    match name_to_code (_data self) with
    | None => (Raise no_codes, self, 0)
    | Some map =>
        match rekey map value [] with
        | Raise e => (Raise e, self, 0)
        | Ok status =>
            let '(ok, self, sent) :=
              attempts (Z.to_nat (max_attempt - 0)) 0 net self value in
            (Ok ok, self, sent)
        end
    end.

(** *** Availability, type, power and mode *)

(** [TuyaDevice.apply]. *)
Definition apply (self : TuyaDevice) (result : Scanner.ScanResult)
  : TuyaDevice :=
  let data := _data self in
  with_data self
    {| name := name data; id := id data; local_key := local_key data;
       device_type := device_type data; attributes := attributes data;
       ip := Scanner.ip result; version := Scanner.version result;
       code_to_name := code_to_name data;
       name_to_code := name_to_code data |}.

(** [TuyaDevice.is_available]. *)
Definition is_available (self : TuyaDevice) : bool :=
  match ip (_data self), _state self with
  | JNull, _ => false
  | _, None => false
  | _, Some _ => true
  end.

Definition power_unsupported : exn := ValueError "Power state is unsupported".

Section Switching.

Variable order : PySet.t -> nat.
Variable cfg : maps.

(** The property [TuyaDevice.device_type]; the default [mapping[""]] is
    looked up before [get] is called. *)
Definition device_type_of (self : TuyaDevice) : result string :=
  let value := device_type (_data self) in
  let mapping := device_types (_map_from_tuya cfg) in
  default <- Dict.item "" mapping ;;
  Ok (match Dict.get value mapping with
      | Some t => t
      | None => default
      end).

(** [TuyaDevice.power_state]: the stored value as it is, or [False]. *)
Definition power_state (self : TuyaDevice) : json :=
  match state_value self (power_code order self) with
  | Some v => v
  | None => JBool false
  end.

(** [TuyaDevice.set_power_state]. *)
Definition set_power_state (self : TuyaDevice) (value : bool)
  : result (Dict.t json) :=
  let code := power_code order self in
  if truthy_str code then
    if code_is code SWITCH_LED then Ok [(SWITCH_LED, JBool value)]
    else if code_is code SWITCH_1 then Ok [(SWITCH_1, JBool value)]
    else Raise power_unsupported
  else Raise power_unsupported.

(** [TuyaDevice.color_mode]: [mapping.get] of the stored mode; a list or
    an object cannot be hashed, a value of another type than text is no
    key of the mapping. *)
Definition color_mode (self : TuyaDevice) : result (option string) :=
  match state_value self (work_mode_code order self) with
  | Some tuya_mode =>
      let mapping := light_modes (_map_from_tuya cfg) in
      match tuya_mode with
      | JStr s => Ok (Dict.get s mapping)
      | JList _ | JObj _ => Raise TypeError
      | _ => Ok None
      end
  | None => Ok None
  end.

(** [TuyaDevice.set_color_mode]. *)
Definition set_color_mode (self : TuyaDevice) (value : string)
  : result (option (Dict.t json)) :=
  let mapping := light_modes (_map_to_tuya cfg) in
  let code := work_mode_code order self in
  if truthy_str code && code_is code WORK_MODE then
    t <- Dict.item value mapping ;; Ok (Some [(WORK_MODE, JStr t)])
  else Ok None.

End Switching.

(** *** Colours *)

Definition hsv_unsupported : exn := ValueError "HSV color is unsupported".

(** [len(hexvalue)] of a stored value: text, lists and objects have a
    length, other values raise. *)
Definition len_of (j : json) : result Z :=
  match j with
  | JStr s => Ok (Z.of_nat (String.length s))
  | JList l => Ok (Py.len l)
  | JObj d => Ok (Py.len d)
  | _ => Raise TypeError
  end.

(** [int(hexvalue[i:j], 16)]: a slice of a list is a list, which [int]
    refuses with a base, and an object cannot be sliced. *)
Definition int_slice (i j : nat) (hexvalue : json) : result Z :=
  match hexvalue with
  | JStr s => Text.int_base16 (Text.slice i j s)
  | _ => Raise TypeError
  end.

(** [c / float(m)] of two ints. *)
Definition ratio (c m : Z) : result Float.float :=
  fm <- Float.of_int m ;;
  fc <- Float.of_int c ;;
  Float.div fc fm.

Section Colours.

Variable order : PySet.t -> nat.
Variable cfg : maps.

(** [TuyaDevice.color_rgb]. *)
Definition color_rgb (self : TuyaDevice) : result (option (Z * Z * Z)) :=
  let code := color_code order self in
  match state_value self code with
  | Some hexvalue =>
      if code_is code COLOUR_DATA then
        n <- len_of hexvalue ;;
        if n =? 14 then
          r <- int_slice 0 2 hexvalue ;;
          g <- int_slice 2 4 hexvalue ;;
          b <- int_slice 4 6 hexvalue ;;
          Ok (Some (r, g, b))
        else Ok None
      else Ok None
  | None => Ok None
  end.

(** [TuyaDevice.color_hsv]. *)
Definition color_hsv (self : TuyaDevice) : result (Z * Z * Z) :=
  let '(ranges0, ranges1, ranges2) := range_hsv (_map_from_tuya cfg) in
  let '(t_ranges0, t_ranges1, t_ranges2) := range_hsv (_map_to_tuya cfg) in
  let code := color_code order self in
  match state_value self code with
  | Some hexvalue =>
      if code_is code COLOUR_DATA then
        n <- len_of hexvalue ;;
        if n =? 14 then
          h <- int_slice 7 10 hexvalue ;;
          s <- int_slice 10 12 hexvalue ;;
          v <- int_slice 12 14 hexvalue ;;
          ho <- scale_value h t_ranges0 ranges0 ;;
          so <- scale_value s t_ranges1 ranges1 ;;
          vo <- scale_value v t_ranges2 ranges2 ;;
          Ok (ho, so, vo)
        else Raise hsv_unsupported
      else Raise hsv_unsupported
  | None => Raise hsv_unsupported
  end.

(** [TuyaDevice.set_color_hsv]. *)
Definition set_color_hsv (self : TuyaDevice) (color : Z * Z * Z)
  : result (option (Dict.t json)) :=
  let '(ranges0, ranges1, ranges2) := range_hsv (_map_from_tuya cfg) in
  let '(t_ranges0, t_ranges1, t_ranges2) := range_hsv (_map_to_tuya cfg) in
  let '(color0, color1, color2) := color in
  let code := color_code order self in
  if truthy_str code && code_is code COLOUR_DATA then
    hn <- ratio color0 (max ranges0) ;;
    sn <- ratio color1 (max ranges1) ;;
    vn <- ratio color2 (max ranges2) ;;
    rgb <- Colorsys.hsv_to_rgb hn sn vn ;;
    let '(rn, gn, bn) := rgb in
    r <- Float.to_int (Float.mul rn Float.f255) ;;
    g <- Float.to_int (Float.mul gn Float.f255) ;;
    b <- Float.to_int (Float.mul bn Float.f255) ;;
    h <- scale_value color0 ranges0 t_ranges0 ;;
    s <- scale_value color1 ranges1 t_ranges1 ;;
    v <- scale_value color2 ranges2 t_ranges2 ;;
    let hx :=
      (Text.format_x 2 r ++ Text.format_x 2 g ++ Text.format_x 2 b ++ "0"
       ++ Text.format_x 3 h ++ Text.format_x 2 s ++ Text.format_x 2 v)%string
    in
    Ok (Some [(COLOUR_DATA, JStr hx)])
  else Ok None.

End Colours.

End Device.

(** ** __init__.py: the ranges the integration hands to [build_map] *)

Module Integration.

Definition HA_HSV_RANGE
  : Device.ValueRange * Device.ValueRange * Device.ValueRange :=
  ({| Device.min := 0; Device.max := 360 |},
   {| Device.min := 0; Device.max := 100 |},
   {| Device.min := 1; Device.max := 255 |}).

Definition RANGE_255 : Device.ValueRange :=
  {| Device.min := 0; Device.max := 255 |}.

End Integration.

(** ** utils.py *)

Module Utils.

(** [c.lower()] of a character with a code point below 256: the ASCII
    capitals and the Latin-1 capitals, which are 0xC0 to 0xDE without the
    multiplication sign, move up by 32. *)
Definition lower_char (c : ascii) : ascii :=
  let v := Text.code c in
  if ((65 <=? v) && (v <=? 90))
     || ((192 <=? v) && (v <=? 222) && negb (v =? 215))
  then Text.chr (v + 32)
  else c.

(** [s.lower()]. *)
Fixpoint lower (s : string) : string :=
  match s with
  | EmptyString => EmptyString
  | String c s' => String (lower_char c) (lower s')
  end.

(** A character outside the class of [mac_strip_regex]: a decimal digit or
    one of the letters a to f. *)
Definition mac_digit (c : ascii) : bool :=
  let v := Text.code c in
  ((97 <=? v) && (v <=? 102)) || ((48 <=? v) && (v <=? 57)).

(** [mac_strip_regex.sub("", s)]: every match of the class is removed. *)
Fixpoint strip (s : string) : string :=
  match s with
  | EmptyString => EmptyString
  | String c s' => if mac_digit c then String c (strip s') else strip s'
  end.

(** [normalize_mac]. *)
Definition normalize_mac (mac : string) : string := strip (lower mac).

End Utils.

(** * Facts *)

(** ** The library routines on published test vectors *)

Definition of_hex (s : string) : bytes :=
  (fix go (s : string) : bytes :=
     match s with
     | String a (String b s') =>
         match Text.hex_value a, Text.hex_value b with
         | Some x, Some y => Py.byte_of_Z (16 * x + y) :: go s'
         | _, _ => []
         end
     | _ => []
     end) s.

(** FIPS 197, appendix C: the example vectors of the three key sizes. *)
Example aes128_vector :
  AES.encrypt (of_hex "000102030405060708090a0b0c0d0e0f")
    (of_hex "00112233445566778899aabbccddeeff")
  = Ok (of_hex "69c4e0d86a7b0430d8cdb78070b4c55a").
Proof. vm_compute. reflexivity. Qed.

Example aes192_vector :
  AES.encrypt (of_hex "000102030405060708090a0b0c0d0e0f1011121314151617")
    (of_hex "00112233445566778899aabbccddeeff")
  = Ok (of_hex "dda97ca4864cdfe06eaf70a0ec0d7191").
Proof. vm_compute. reflexivity. Qed.

Example aes256_vector :
  AES.encrypt
    (of_hex "000102030405060708090a0b0c0d0e0f101112131415161718191a1b1c1d1e1f")
    (of_hex "00112233445566778899aabbccddeeff")
  = Ok (of_hex "8ea2b7ca516745bfeafc49904b496089").
Proof. vm_compute. reflexivity. Qed.

(** RFC 1321, appendix A.5. *)
Example md5_vectors :
  MD5.hexdigest [] = "d41d8cd98f00b204e9800998ecf8427e"
  /\ MD5.hexdigest (list_byte_of_string "abc")
     = "900150983cd24fb0d6963f7d28e17f72"
  /\ MD5.hexdigest
       (list_byte_of_string
          "12345678901234567890123456789012345678901234567890123456789012345678901234567890")
     = "57edf4a22be3c955ac49da2e2107b67a".
Proof. vm_compute. auto. Qed.

(** RFC 4648, section 10. *)
Example base64_vectors :
  Base64.b64encode (list_byte_of_string "fooba")
  = list_byte_of_string "Zm9vYmE="
  /\ Base64.b64decode (list_byte_of_string "Zm9vYmFy")
     = Ok (list_byte_of_string "foobar")
  /\ Base64.b64decode (list_byte_of_string "Zm9vYmE")
     = Raise BinasciiError.
Proof. vm_compute. auto. Qed.

(** The check value of CRC-32. *)
Example crc32_check :
  Binascii.crc32 (list_byte_of_string "123456789") = 0xCBF43926.
Proof. reflexivity. Qed.

(** [json.dumps] writes items with a space after comma and colon. *)
Example dumps_control :
  Json.dumps
    (Json.JObj [("devId", Json.JStr "ab c");
                ("dps", Json.JObj [("1", Json.JBool true);
                                   ("2", Json.JInt (-25))])])
  = String.concat (String (Text.chr 34) EmptyString)
      ["{"; "devId"; ": "; "ab c"; ", "; "dps"; ": {"; "1"; ": true, ";
       "2"; ": -25}}"].
Proof. reflexivity. Qed.

(** ** Bytes, by enumeration *)

Definition all_bytes : list byte :=
  map (fun n => Py.byte_of_Z (Z.of_nat n)) (seq 0 256).

Lemma all_bytes_nth (b : byte) : nth (Byte.to_nat b) all_bytes x00 = b.
Proof. destruct b; vm_compute; reflexivity. Qed.

Lemma all_bytes_complete (b : byte) : In b all_bytes.
Proof.
  rewrite <- (all_bytes_nth b). apply nth_In.
  pose proof (Byte.to_nat_bounded b).
  change (List.length all_bytes) with 256%nat. lia.
Qed.

Lemma byte_cases (P : byte -> bool) :
  forallb P all_bytes = true -> forall b, P b = true.
Proof.
  intros H b. rewrite forallb_forall in H. apply H, all_bytes_complete.
Qed.

Lemma byte_cases2 (P : byte -> byte -> bool) :
  forallb (fun a => forallb (P a) all_bytes) all_bytes = true ->
  forall a b, P a b = true.
Proof.
  intros H a b.
  apply (byte_cases (P a)). apply (byte_cases _ H a).
Qed.

Lemma byte_eq_cases (f g : byte -> byte) :
  forallb (fun a => Byte.eqb (f a) (g a)) all_bytes = true ->
  forall a, f a = g a.
Proof.
  intros H a. apply Byte.byte_dec_bl. exact (byte_cases _ H a).
Qed.

Lemma byte_eq_cases2 (f g : byte -> byte -> byte) :
  forallb (fun a => forallb (fun b => Byte.eqb (f a b) (g a b)) all_bytes)
    all_bytes = true ->
  forall a b, f a b = g a b.
Proof.
  intros H a b. apply Byte.byte_dec_bl.
  exact (byte_cases2 (fun a b => Byte.eqb (f a b) (g a b)) H a b).
Qed.

Lemma byte_of_Z_of_byte (b : byte) : Py.byte_of_Z (Py.Z_of_byte b) = b.
Proof. revert b. apply byte_eq_cases. vm_compute. reflexivity. Qed.

Lemma Z_of_byte_inj (a b : byte) : Py.Z_of_byte a = Py.Z_of_byte b -> a = b.
Proof.
  intros H. rewrite <- (byte_of_Z_of_byte a), <- (byte_of_Z_of_byte b).
  now rewrite H.
Qed.

Lemma Z_of_bxor (a b : byte) :
  Py.Z_of_byte (AES.bxor a b) = Z.lxor (Py.Z_of_byte a) (Py.Z_of_byte b).
Proof.
  assert (H : forall a b,
    (Py.Z_of_byte (AES.bxor a b) =? Z.lxor (Py.Z_of_byte a) (Py.Z_of_byte b))
    = true).
  { apply byte_cases2. vm_compute. reflexivity. }
  apply Z.eqb_eq, H.
Qed.

Lemma bxor_comm (a b : byte) : AES.bxor a b = AES.bxor b a.
Proof. apply Z_of_byte_inj. rewrite !Z_of_bxor. apply Z.lxor_comm. Qed.

Lemma bxor_assoc (a b c : byte) :
  AES.bxor a (AES.bxor b c) = AES.bxor (AES.bxor a b) c.
Proof.
  apply Z_of_byte_inj. rewrite !Z_of_bxor. symmetry. apply Z.lxor_assoc.
Qed.

Lemma bxor_nilpotent (a : byte) : AES.bxor a a = x00.
Proof. apply Z_of_byte_inj. rewrite Z_of_bxor, Z.lxor_nilpotent. reflexivity. Qed.

Lemma bxor_0_r (a : byte) : AES.bxor a x00 = a.
Proof. apply Z_of_byte_inj. rewrite Z_of_bxor. apply Z.lxor_0_r. Qed.

Lemma bxor_0_l (a : byte) : AES.bxor x00 a = a.
Proof. rewrite bxor_comm. apply bxor_0_r. Qed.

Lemma bxor_cancel (a b : byte) : AES.bxor (AES.bxor a b) b = a.
Proof. rewrite <- bxor_assoc, bxor_nilpotent. apply bxor_0_r. Qed.

Lemma inv_sbox_sbox (b : byte) : AES.inv_sbox (AES.sbox b) = b.
Proof. revert b. apply byte_eq_cases. vm_compute. reflexivity. Qed.

(** ** AES: every round can be undone *)

Lemma xtime_linear (a b : byte) :
  AES.xtime (AES.bxor a b) = AES.bxor (AES.xtime a) (AES.xtime b).
Proof.
  revert a b.
  apply (byte_eq_cases2 (fun a b => AES.xtime (AES.bxor a b))
           (fun a b => AES.bxor (AES.xtime a) (AES.xtime b))).
  vm_compute. reflexivity.
Qed.

Lemma xor_interchange (a b c d : byte) :
  AES.bxor (AES.bxor a b) (AES.bxor c d)
  = AES.bxor (AES.bxor a c) (AES.bxor b d).
Proof.
  rewrite <- !bxor_assoc. f_equal.
  rewrite !bxor_assoc. f_equal. apply bxor_comm.
Qed.

Lemma gmul_bits_linear (k : nat) (a b : byte) (z : Z) :
  AES.gmul_bits k (AES.bxor a b) z
  = AES.bxor (AES.gmul_bits k a z) (AES.gmul_bits k b z).
Proof.
  revert a b z. induction k as [|k IH]; intros a b z; simpl.
  - now rewrite bxor_0_r.
  - rewrite xtime_linear, IH, <- xor_interchange.
    destruct (Z.odd z); [reflexivity | now rewrite bxor_0_r].
Qed.

Lemma gmul_linear (c a b : byte) :
  AES.gmul (AES.bxor a b) c = AES.bxor (AES.gmul a c) (AES.gmul b c).
Proof. apply gmul_bits_linear. Qed.

#[local] Instance bxor_Assoc : Associative eq AES.bxor.
Proof. intros a b c. apply bxor_assoc. Qed.

#[local] Instance bxor_Comm : Commutative eq AES.bxor.
Proof. intros a b. apply bxor_comm. Qed.

Lemma xor_transpose (a0 a1 a2 a3 b0 b1 b2 b3 c0 c1 c2 c3 d0 d1 d2 d3 : byte) :
  let x := AES.bxor in
  x (x a0 (x a1 (x a2 a3))) (x (x b0 (x b1 (x b2 b3)))
    (x (x c0 (x c1 (x c2 c3))) (x d0 (x d1 (x d2 d3))))) =
  x (x a0 (x b0 (x c0 d0))) (x (x a1 (x b1 (x c1 d1)))
    (x (x a2 (x b2 (x c2 d2))) (x a3 (x b3 (x c3 d3))))).
Proof. intros x. subst x. aac_reflexivity. Qed.

(** The product of a row [(p, q, r, t)] of the inverse matrix with the
    column of the forward matrix that holds [(c0, c1, c2, c3)]. *)
Definition entry (p q r t c0 c1 c2 c3 a : byte) : byte :=
  AES.bxor (AES.gmul (AES.gmul a c0) p)
    (AES.bxor (AES.gmul (AES.gmul a c1) q)
       (AES.bxor (AES.gmul (AES.gmul a c2) r) (AES.gmul (AES.gmul a c3) t))).

Lemma dot_mix (p q r t : byte) (a0 a1 a2 a3 : byte) :
  AES.dot p q r t (AES.mix_column (a0, a1, a2, a3)) =
  AES.bxor (entry p q r t x02 x01 x01 x03 a0)
    (AES.bxor (entry p q r t x03 x02 x01 x01 a1)
       (AES.bxor (entry p q r t x01 x03 x02 x01 a2)
          (entry p q r t x01 x01 x03 x02 a3))).
Proof.
  unfold AES.mix_column, AES.dot, entry.
  rewrite !gmul_linear.
  apply xor_transpose.
Qed.

(** The rows of the inverse matrix and the columns of the forward one. *)
Definition inv_rows : list (byte * byte * byte * byte) :=
  [(x0e, x0b, x0d, x09); (x09, x0e, x0b, x0d);
   (x0d, x09, x0e, x0b); (x0b, x0d, x09, x0e)].
Definition fwd_cols : list (byte * byte * byte * byte) :=
  [(x02, x01, x01, x03); (x03, x02, x01, x01);
   (x01, x03, x02, x01); (x01, x01, x03, x02)].

(** Row [i] times column [j] is the identity for [i = j], zero otherwise. *)
Definition product_ok (i j : nat) : bool :=
  let '(p, q, r, t) := nth i inv_rows (x00, x00, x00, x00) in
  let '(c0, c1, c2, c3) := nth j fwd_cols (x00, x00, x00, x00) in
  forallb (fun a => Byte.eqb (entry p q r t c0 c1 c2 c3 a)
                      (if Nat.eqb i j then a else x00)) all_bytes.

Lemma products_ok :
  forallb (fun i => forallb (product_ok i) (seq 0 4)) (seq 0 4) = true.
Proof. vm_compute. reflexivity. Qed.

Lemma product_entry (i j : nat) (a : byte) :
  (i < 4)%nat -> (j < 4)%nat ->
  let '(p, q, r, t) := nth i inv_rows (x00, x00, x00, x00) in
  let '(c0, c1, c2, c3) := nth j fwd_cols (x00, x00, x00, x00) in
  entry p q r t c0 c1 c2 c3 a = if Nat.eqb i j then a else x00.
Proof.
  intros Hi Hj. pose proof products_ok as H.
  rewrite forallb_forall in H.
  specialize (H i ltac:(apply in_seq; lia)).
  rewrite forallb_forall in H.
  specialize (H j ltac:(apply in_seq; lia)).
  unfold product_ok in H.
  destruct (nth i inv_rows _) as [[[p q] r] t].
  destruct (nth j fwd_cols _) as [[[c0 c1] c2] c3].
  apply Byte.byte_dec_bl.
  exact (byte_cases
           (fun a => Byte.eqb (entry p q r t c0 c1 c2 c3 a)
                       (if Nat.eqb i j then a else x00)) H a).
Qed.

Lemma inv_mix_column_mix_column (c : AES.col) :
  AES.inv_mix_column (AES.mix_column c) = c.
Proof.
  destruct c as [[[a0 a1] a2] a3].
  unfold AES.inv_mix_column.
  rewrite !dot_mix.
  pose proof (fun i j a Hi Hj => product_entry i j a Hi Hj) as E.
  rewrite (E 0%nat 0%nat a0), (E 0%nat 1%nat a1), (E 0%nat 2%nat a2),
    (E 0%nat 3%nat a3), (E 1%nat 0%nat a0), (E 1%nat 1%nat a1),
    (E 1%nat 2%nat a2), (E 1%nat 3%nat a3), (E 2%nat 0%nat a0),
    (E 2%nat 1%nat a1), (E 2%nat 2%nat a2), (E 2%nat 3%nat a3),
    (E 3%nat 0%nat a0), (E 3%nat 1%nat a1), (E 3%nat 2%nat a2),
    (E 3%nat 3%nat a3) by lia.
  simpl. rewrite ?bxor_0_r, ?bxor_0_l. reflexivity.
Qed.

Lemma col_xor_cancel (c k : AES.col) : AES.col_xor (AES.col_xor c k) k = c.
Proof.
  destruct c as [[[a0 a1] a2] a3], k as [[[k0 k1] k2] k3]. simpl.
  now rewrite !bxor_cancel.
Qed.

Lemma add_round_key_cancel (s k : AES.block) :
  AES.add_round_key (AES.add_round_key s k) k = s.
Proof.
  destruct s as [[[c0 c1] c2] c3], k as [[[k0 k1] k2] k3]. simpl.
  now rewrite !col_xor_cancel.
Qed.

Lemma inv_sub_bytes_sub_bytes (s : AES.block) :
  AES.inv_sub_bytes (AES.sub_bytes s) = s.
Proof.
  destruct s as [[[[[[a0 a1] a2] a3] [[[b0 b1] b2] b3]]
                   [[[c0 c1] c2] c3]] [[[d0 d1] d2] d3]].
  unfold AES.inv_sub_bytes, AES.sub_bytes, AES.block_map, AES.col_map.
  now rewrite !inv_sbox_sbox.
Qed.

Lemma inv_shift_rows_shift_rows (s : AES.block) :
  AES.inv_shift_rows (AES.shift_rows s) = s.
Proof.
  destruct s as [[[[[[a0 a1] a2] a3] [[[b0 b1] b2] b3]]
                   [[[c0 c1] c2] c3]] [[[d0 d1] d2] d3]].
  reflexivity.
Qed.

Lemma inv_mix_columns_mix_columns (s : AES.block) :
  AES.inv_mix_columns (AES.mix_columns s) = s.
Proof.
  destruct s as [[[c0 c1] c2] c3].
  unfold AES.inv_mix_columns, AES.mix_columns, AES.block_map.
  now rewrite !inv_mix_column_mix_column.
Qed.

Lemma undo_apply_round (s : AES.block) (r : AES.round) :
  AES.undo_round (AES.apply_round s r) r = s.
Proof.
  destruct r as [k | k | k]; simpl; rewrite add_round_key_cancel.
  - reflexivity.
  - now rewrite inv_mix_columns_mix_columns, inv_shift_rows_shift_rows,
      inv_sub_bytes_sub_bytes.
  - now rewrite inv_shift_rows_shift_rows, inv_sub_bytes_sub_bytes.
Qed.

(** The inverse cipher undoes the cipher, whatever the round keys. *)
Lemma decrypt_encrypt_block (rs : list AES.round) (s : AES.block) :
  AES.decrypt_block rs (AES.encrypt_block rs s) = s.
Proof.
  unfold AES.decrypt_block, AES.encrypt_block.
  revert s. induction rs as [|r rs IH]; intros s; simpl.
  - reflexivity.
  - rewrite fold_left_app. simpl. rewrite IH. apply undo_apply_round.
Qed.

(** ** ECB and the padding *)

(** A byte string is empty, shorter than a block, or a block and a rest. *)
Lemma block_split (data : bytes) :
  data = [] \/
  (0 < List.length data < 16)%nat \/
  exists s rest, data = AES.bytes_of_block s ++ rest.
Proof.
  do 16 (destruct data as [|? data];
         [ first [ now left | right; left; simpl; lia ] | ]).
  right. right.
  match goal with
  | |- context [?a0 :: ?a1 :: ?a2 :: ?a3 :: ?b0 :: ?b1 :: ?b2 :: ?b3 ::
                ?c0 :: ?c1 :: ?c2 :: ?c3 :: ?d0 :: ?d1 :: ?d2 :: ?d3 :: data] =>
      exists ((a0, a1, a2, a3), (b0, b1, b2, b3),
              (c0, c1, c2, c3), (d0, d1, d2, d3)), data
  end.
  reflexivity.
Qed.

Lemma bytes_of_block_length (s : AES.block) :
  List.length (AES.bytes_of_block s) = 16%nat.
Proof.
  destruct s as [[[[[[a0 a1] a2] a3] [[[b0 b1] b2] b3]]
                   [[[c0 c1] c2] c3]] [[[d0 d1] d2] d3]].
  reflexivity.
Qed.

Lemma ecb_block (f : AES.block -> AES.block) (s : AES.block) (rest : bytes) :
  AES.ecb f (AES.bytes_of_block s ++ rest) =
  match AES.ecb f rest with
  | Some out => Some (AES.bytes_of_block (f s) ++ out)
  | None => None
  end.
Proof.
  destruct s as [[[[[[a0 a1] a2] a3] [[[b0 b1] b2] b3]]
                   [[[c0 c1] c2] c3]] [[[d0 d1] d2] d3]].
  reflexivity.
Qed.

Lemma ecb_short (f : AES.block -> AES.block) (data : bytes) :
  (0 < List.length data < 16)%nat -> AES.ecb f data = None.
Proof.
  intros H.
  do 16 (destruct data as [|? data]; [ first [ reflexivity | simpl in H; lia ] | ]).
  simpl in H. lia.
Qed.

(** Induction on byte strings, a block at a time. *)
Lemma block_ind (P : bytes -> Prop) :
  P [] ->
  (forall data, (0 < List.length data < 16)%nat -> P data) ->
  (forall s rest, P rest -> P (AES.bytes_of_block s ++ rest)) ->
  forall data, P data.
Proof.
  intros H0 Hs Hb data.
  remember (List.length data) as n eqn:Hn.
  revert data Hn. induction n as [n IH] using lt_wf_ind. intros data Hn.
  destruct (block_split data) as [-> | [H | (s & rest & ->)]]; auto.
  apply Hb. apply (IH (List.length rest)); [|reflexivity].
  rewrite Hn, length_app, bytes_of_block_length. lia.
Qed.

Lemma ecb_length (f : AES.block -> AES.block) (data out : bytes) :
  AES.ecb f data = Some out -> List.length out = List.length data.
Proof.
  revert out. induction data as [| data H | s rest IH] using block_ind;
    intros out E.
  - now inversion E.
  - rewrite ecb_short in E by assumption. discriminate.
  - rewrite ecb_block in E. destruct (AES.ecb f rest) as [o|]; [|discriminate].
    inversion E. rewrite !length_app, !bytes_of_block_length.
    now rewrite (IH o eq_refl).
Qed.

Lemma ecb_inverse (f g : AES.block -> AES.block) (data out : bytes) :
  (forall s, g (f s) = s) ->
  AES.ecb f data = Some out -> AES.ecb g out = Some data.
Proof.
  intros I. revert out.
  induction data as [| data H | s rest IH] using block_ind; intros out E.
  - now inversion E.
  - rewrite ecb_short in E by assumption. discriminate.
  - rewrite ecb_block in E. destruct (AES.ecb f rest) as [o|]; [|discriminate].
    inversion E. rewrite ecb_block, (IH o eq_refl), I. reflexivity.
Qed.

Lemma ecb_aligned (f : AES.block -> AES.block) (data : bytes) :
  (List.length data mod 16 = 0)%nat -> exists out, AES.ecb f data = Some out.
Proof.
  induction data as [| data H | s rest IH] using block_ind; intros A.
  - now exists [].
  - rewrite Nat.mod_small in A; lia.
  - rewrite ecb_block.
    destruct IH as [o ->].
    + rewrite length_app, bytes_of_block_length in A.
      replace (16 + List.length rest)%nat
        with (List.length rest + 1 * 16)%nat in A by lia.
      now rewrite Nat.Div0.mod_add in A.
    + eauto.
Qed.

(** Decryption with the key undoes encryption. *)
Lemma decrypt_encrypt (key data out : bytes) :
  AES.encrypt key data = Ok out -> AES.decrypt key out = Ok data.
Proof.
  unfold AES.encrypt, AES.decrypt.
  destruct (AES.valid_key key); [|discriminate].
  destruct (AES.ecb _ data) as [o|] eqn:E; [|discriminate].
  intros [= <-].
  rewrite (ecb_inverse (AES.encrypt_block (AES.schedule key))
             (AES.decrypt_block (AES.schedule key)) data o); auto.
  apply decrypt_encrypt_block.
Qed.

Lemma encrypt_length (key data out : bytes) :
  AES.encrypt key data = Ok out -> List.length out = List.length data.
Proof.
  unfold AES.encrypt.
  destruct (AES.valid_key key); [|discriminate].
  destruct (AES.ecb _ data) as [o|] eqn:E; [|discriminate].
  intros [= <-]. eapply ecb_length, E.
Qed.

Lemma pad_length (s : bytes) :
  exists q, (List.length (AESCipher._pad s) = 16 * S q)%nat.
Proof.
  unfold AESCipher._pad, AESCipher.bs, Py.rep, Py.len.
  rewrite length_app, repeat_length.
  set (n := List.length s).
  exists (n / 16)%nat.
  pose proof (Nat.div_mod_eq n 16).
  pose proof (Nat.mod_upper_bound n 16 ltac:(lia)).
  replace (Z.of_nat n mod 16) with (Z.of_nat (n mod 16))
    by (rewrite Nat2Z.inj_mod; reflexivity).
  lia.
Qed.

Lemma encrypt_pad (key s : bytes) :
  AES.valid_key key = true ->
  exists ct, AES.encrypt key (AESCipher._pad s) = Ok ct.
Proof.
  intros V. unfold AES.encrypt. rewrite V.
  destruct (ecb_aligned (AES.encrypt_block (AES.schedule key))
              (AESCipher._pad s)) as [o ->]; eauto.
  destruct (pad_length s) as [q ->].
  replace (16 * S q)%nat with (0 + S q * 16)%nat by lia.
  now rewrite Nat.Div0.mod_add.
Qed.

Lemma Z_of_byte_of_Z (z : Z) :
  0 <= z < 256 -> Py.Z_of_byte (Py.byte_of_Z z) = z.
Proof.
  intros H.
  assert (C : forallb (fun k => Py.Z_of_byte (Py.byte_of_Z (Z.of_nat k))
                                =? Z.of_nat k) (seq 0 256) = true)
    by (vm_compute; reflexivity).
  rewrite forallb_forall in C.
  rewrite <- (Z2Nat.id z) by lia. apply Z.eqb_eq, C, in_seq. lia.
Qed.

Lemma unpad_app (s : bytes) (p : nat) :
  (1 <= p <= 255)%nat ->
  AESCipher._unpad (s ++ repeat (Py.byte_of_Z (Z.of_nat p)) p) = Ok s.
Proof.
  intros Hp. unfold AESCipher._unpad.
  rewrite rev_app_distr, rev_repeat.
  destruct p as [|p']; [lia|].
  change (repeat ?b (S p')) with (b :: repeat b p'). cbn [app].
  rewrite Z_of_byte_of_Z by lia.
  destruct (Z.eqb_spec (Z.of_nat (S p')) 0) as [Q|Q]; [lia|].
  unfold Py.drop_last. rewrite Nat2Z.id, length_app.
  cbn [List.length]. rewrite repeat_length.
  replace (List.length s + S p' - S p')%nat with (List.length s + 0)%nat by lia.
  rewrite firstn_app_2. simpl. now rewrite app_nil_r.
Qed.

Lemma unpad_pad (s : bytes) : AESCipher._unpad (AESCipher._pad s) = Ok s.
Proof.
  unfold AESCipher._pad, AESCipher.bs, Py.rep, Py.len.
  set (n := List.length s).
  pose proof (Nat.mod_upper_bound n 16 ltac:(lia)) as B.
  assert (E : 16 - Z.of_nat n mod 16 = Z.of_nat (16 - n mod 16)).
  { rewrite Nat2Z.inj_sub by lia. rewrite Nat2Z.inj_mod. reflexivity. }
  rewrite E, Nat2Z.id. apply unpad_app. lia.
Qed.

(** ** Text *)

Definition all_ascii : list ascii :=
  map (fun n => ascii_of_nat n) (seq 0 256).

Lemma all_ascii_complete (c : ascii) : In c all_ascii.
Proof.
  rewrite <- (ascii_nat_embedding c). apply in_map, in_seq.
  pose proof (nat_ascii_bounded c). lia.
Qed.

(** One character encoded and decoded again, with any text after it. *)
Definition utf8_char_ok (c : ascii) : bool :=
  match Text.encode_utf8 (String c EmptyString) with
  | [x] => (Py.Z_of_byte x <? 128) && Ascii.eqb (Text.chr (Py.Z_of_byte x)) c
  | [x; y] =>
      let v := Py.Z_of_byte x in
      let w := Py.Z_of_byte y in
      let cp := Z.lor (Z.shiftl (Z.land v 31) 6) (Z.land w 63) in
      negb (v <? 128) && ((0xC2 <=? v) && (v <? 0xE0))
      && Text.continuation w && (cp <? 256)
      && Ascii.eqb (Text.chr cp) c
  | _ => false
  end.

Lemma utf8_chars_ok : forallb utf8_char_ok all_ascii = true.
Proof. vm_compute. reflexivity. Qed.

Lemma encode_utf8_cons (c : ascii) (s : string) :
  Text.encode_utf8 (String c s)
  = Text.encode_utf8 (String c EmptyString) ++ Text.encode_utf8 s.
Proof.
  simpl. destruct (Text.code c <? 128); reflexivity.
Qed.

Lemma decode_encode_utf8 (s : string) :
  Text.decode_utf8 (Text.encode_utf8 s) = Ok s.
Proof.
  induction s as [|c s IH]; [reflexivity|].
  rewrite encode_utf8_cons.
  pose proof utf8_chars_ok as H. rewrite forallb_forall in H.
  specialize (H c (all_ascii_complete c)). unfold utf8_char_ok in H.
  destruct (Text.encode_utf8 (String c EmptyString)) as [|x [|y [|z l]]];
    try discriminate; cbn [app].
  - apply andb_prop in H as [H1 H2]. apply Ascii.eqb_eq in H2.
    cbn [Text.decode_utf8]. rewrite H1, IH. simpl. now rewrite H2.
  - cbv zeta in H.
    apply andb_prop in H as [H E]. apply Ascii.eqb_eq in E.
    apply andb_prop in H as [H W]. apply andb_prop in H as [H K].
    apply andb_prop in H as [A L].
    cbn [Text.decode_utf8]. cbv zeta.
    destruct (Py.Z_of_byte x <? 128); [discriminate|].
    rewrite L, K, IH. cbn [bind]. rewrite W, E. reflexivity.
Qed.

(** Bytes that are no UTF-8: a continuation byte alone, an encoding that
    is too long, a surrogate, a sequence cut short. *)
Example decode_utf8_refuses :
  Text.decode_utf8 [x80] = Raise UnicodeDecodeError
  /\ Text.decode_utf8 [xc0; x80] = Raise UnicodeDecodeError
  /\ Text.decode_utf8 [xed; xa0; x80] = Raise UnicodeDecodeError
  /\ Text.decode_utf8 [xe2; x82] = Raise UnicodeDecodeError
  /\ Text.decode_utf8 [xe2; x82; xac; xff] = Raise UnicodeDecodeError.
Proof. repeat split. Qed.

(** The euro sign and a character outside the first plane are text in
    Python; the model has no character for them. *)
Example decode_utf8_beyond :
  Text.decode_utf8 [xe2; x82; xac] = Raise OutOfModel
  /\ Text.decode_utf8 [x41; xf0; x9f; x92; xa1] = Raise OutOfModel
  /\ Text.decode_utf8 [xc4; x80] = Raise OutOfModel.
Proof. repeat split. Qed.

(** [int] of text, in base 10. *)
Example int_base10_reads :
  Text.int_base10 "128" = Ok 128
  /\ Text.int_base10 " -1_000 " = Ok (-1000)
  /\ Text.int_base10 "+007" = Ok 7
  /\ Text.int_base10 "" = Raise Text.int10_error
  /\ Text.int_base10 "0x10" = Raise Text.int10_error
  /\ Text.int_base10 "1__0" = Raise Text.int10_error
  /\ Text.int_base10 "12.5" = Raise Text.int10_error.
Proof. repeat split. Qed.

Lemma remove_spaces_app (a b : string) :
  Text.remove_spaces (a ++ b)
  = (Text.remove_spaces a ++ Text.remove_spaces b)%string.
Proof.
  induction a as [|c a IH]; simpl; [reflexivity|].
  destruct (Ascii.eqb c " "); simpl; now rewrite IH.
Qed.

(** The serialized dict opens with a brace. *)
Lemma message_of_brace (d : Json.dict) :
  exists rest, TuyaProtocol.message_of d = String "{" rest.
Proof.
  unfold TuyaProtocol.message_of. cbn [Json.dumps].
  rewrite remove_spaces_app. simpl. eauto.
Qed.

(** ** Words and the checksum *)

Lemma Z_of_byte_range (b : byte) : 0 <= Py.Z_of_byte b < 256.
Proof.
  unfold Py.Z_of_byte. pose proof (Byte.to_N_bounded b). lia.
Qed.

Lemma Z_of_byte_of_Z_mod (z : Z) : Py.Z_of_byte (Py.byte_of_Z z) = z mod 256.
Proof.
  assert (H : 0 <= z mod 256 < 256) by (apply Z.mod_pos_bound; lia).
  rewrite <- (Z_of_byte_of_Z (z mod 256) H).
  unfold Py.byte_of_Z. now rewrite Z.mod_mod by lia.
Qed.

Lemma be32_length (v : Z) : List.length (Struct.be32 v) = 4%nat.
Proof. reflexivity. Qed.

(** The four bytes of a word read back give the word. *)
Lemma be_value_be32 (v : Z) :
  0 <= v < 2 ^ 32 -> Struct.be_value (Struct.be32 v) = v.
Proof.
  intros H. unfold Struct.be_value, Struct.be32. cbn [fold_left].
  rewrite !Z_of_byte_of_Z_mod, !Z.shiftr_div_pow2 by lia.
  change (2 ^ 24) with 16777216. change (2 ^ 16) with 65536.
  change (2 ^ 8) with 256. change (2 ^ 32) with 4294967296 in H.
  Z.div_mod_to_equations. lia.
Qed.

Lemma pack_be32_ok (vs : list Z) :
  Forall (fun v => 0 <= v < 2 ^ 32) vs ->
  Struct.pack_be32 vs = Ok (List.concat (map Struct.be32 vs)).
Proof.
  induction 1 as [|v vs Hv _ IH]; [reflexivity|].
  cbn [Struct.pack_be32 map List.concat]. rewrite IH.
  destruct (Z.leb_spec 0 v); [|lia].
  destruct (Z.ltb_spec v (2 ^ 32)); [|lia].
  reflexivity.
Qed.

Lemma lxor_bound (n a b : Z) :
  0 <= n -> 0 <= a < 2 ^ n -> 0 <= b < 2 ^ n -> 0 <= Z.lxor a b < 2 ^ n.
Proof.
  intros Hn Ha Hb.
  assert (N : 0 <= Z.lxor a b) by (apply Z.lxor_nonneg; lia).
  split; [exact N|].
  destruct (Z.eq_dec (Z.lxor a b) 0) as [E|E]; [rewrite E; lia|].
  assert (P : 0 < n).
  { destruct (Z.eq_dec n 0) as [->|]; [|lia].
    assert (a = 0) as -> by (change (2 ^ 0) with 1 in Ha; lia).
    assert (b = 0) as -> by (change (2 ^ 0) with 1 in Hb; lia).
    now contradiction E. }
  apply Z.log2_lt_pow2; [lia|].
  eapply Z.le_lt_trans; [apply Z.log2_lxor; lia|].
  apply Z.max_lub_lt.
  - destruct (Z.eq_dec a 0) as [->|]; [simpl; lia|].
    apply Z.log2_lt_pow2; lia.
  - destruct (Z.eq_dec b 0) as [->|]; [simpl; lia|].
    apply Z.log2_lt_pow2; lia.
Qed.

Lemma crc_step_range (c : Z) :
  0 <= c < 2 ^ 32 -> 0 <= Binascii.crc_step c < 2 ^ 32.
Proof.
  intros H. unfold Binascii.crc_step.
  assert (S : 0 <= Z.shiftr c 1 < 2 ^ 32).
  { rewrite Z.shiftr_div_pow2 by lia. change (2 ^ 1) with 2.
    change (2 ^ 32) with 4294967296 in *. Z.div_mod_to_equations. lia. }
  destruct (Z.testbit c 0); [|exact S].
  apply lxor_bound; [lia|exact S|]. change (2 ^ 32) with 4294967296. lia.
Qed.

Lemma crc_byte_range (c : Z) (b : byte) :
  0 <= c < 2 ^ 32 -> 0 <= Binascii.crc_byte c b < 2 ^ 32.
Proof.
  intros H. unfold Binascii.crc_byte.
  do 8 apply crc_step_range.
  apply lxor_bound; [lia|exact H|].
  pose proof (Z_of_byte_range b). change (2 ^ 32) with 4294967296. lia.
Qed.

Lemma crc32_range (data : bytes) : 0 <= Binascii.crc32 data < 2 ^ 32.
Proof.
  unfold Binascii.crc32.
  assert (H : forall c, 0 <= c < 2 ^ 32 ->
                        0 <= fold_left Binascii.crc_byte data c < 2 ^ 32).
  { induction data as [|b data IH]; intros c Hc; simpl; [exact Hc|].
    apply IH, crc_byte_range, Hc. }
  apply lxor_bound; [lia| |].
  - apply H. change (2 ^ 32) with 4294967296. lia.
  - change (2 ^ 32) with 4294967296. lia.
Qed.

Lemma crc32_masked (data : bytes) :
  Z.land (Binascii.crc32 data) 0xFFFFFFFF = Binascii.crc32 data.
Proof.
  change 0xFFFFFFFF with (Z.ones 32).
  rewrite Z.land_ones by lia. apply Z.mod_small, crc32_range.
Qed.

(** What [_pack_message] returns for fields that fit their words. *)
Lemma pack_message_eq (seqno cmd : Z) (payload : bytes) :
  0 <= seqno < 2 ^ 32 -> 0 <= cmd < 2 ^ 32 ->
  Py.len payload + 8 < 2 ^ 32 ->
  let head :=
    Struct.be32 TuyaProtocol.PREFIX_VALUE ++ Struct.be32 seqno
    ++ Struct.be32 cmd ++ Struct.be32 (Py.len payload + 8) ++ payload in
  TuyaProtocol._pack_message
    {| TuyaProtocol.req_seqno := seqno; TuyaProtocol.req_cmd := cmd;
       TuyaProtocol.req_payload := payload |}
  = Ok (head ++ Struct.be32 (Binascii.crc32 head)
          ++ Struct.be32 TuyaProtocol.SUFFIX_VALUE).
Proof.
  intros Hs Hc Hl head.
  unfold TuyaProtocol._pack_message. cbn [TuyaProtocol.req_seqno
    TuyaProtocol.req_cmd TuyaProtocol.req_payload].
  assert (W : forall v, 0 <= v < 65536 -> 0 <= v < 2 ^ 32)
    by (intros v; change (2 ^ 32) with 4294967296; lia).
  rewrite pack_be32_ok.
  2:{ apply Forall_cons; [apply W; vm_compute; split; congruence|].
      apply Forall_cons; [assumption|].
      apply Forall_cons; [assumption|].
      apply Forall_cons; [|apply Forall_nil].
      unfold Struct.calcsize_2I, Py.len in *. lia. }
  cbn [bind map List.concat]. rewrite app_nil_r, crc32_masked.
  rewrite pack_be32_ok.
  2:{ apply Forall_cons; [apply crc32_range|].
      apply Forall_cons; [|apply Forall_nil].
      apply W; vm_compute; split; congruence. }
  cbn [bind map List.concat]. rewrite app_nil_r.
  unfold head, Struct.calcsize_2I. rewrite <- !app_assoc. reflexivity.
Qed.

(** * The frame codec *)

Section CodecFacts.

Import TuyaProtocol.

(** C4: a packed request is four big-endian 32-bit words (the prefix
    0x000055AA, the sequence number, the command code, the payload length
    plus 8), the payload, the big-endian CRC32 of everything before it, and
    the big-endian suffix 0x0000AA55. *)
Theorem pack_message_layout (seqno cmd : Z) (payload : bytes) :
  0 <= seqno < 2 ^ 32 -> 0 <= cmd < 2 ^ 32 ->
  Py.len payload + 8 < 2 ^ 32 ->
  exists prefix sq cm ln crc suffix : bytes,
    _pack_message {| req_seqno := seqno; req_cmd := cmd;
                     req_payload := payload |}
    = Ok (prefix ++ sq ++ cm ++ ln ++ payload ++ crc ++ suffix)
    /\ Forall (fun w => List.length w = 4%nat)
         [prefix; sq; cm; ln; crc; suffix]
    /\ Struct.be_value prefix = 0x000055AA
    /\ Struct.be_value sq = seqno
    /\ Struct.be_value cm = cmd
    /\ Struct.be_value ln = Py.len payload + 8
    /\ Struct.be_value crc
       = Binascii.crc32 (prefix ++ sq ++ cm ++ ln ++ payload)
    /\ Struct.be_value suffix = 0x0000AA55.
Proof.
  intros Hs Hc Hl.
  exists (Struct.be32 PREFIX_VALUE), (Struct.be32 seqno), (Struct.be32 cmd),
    (Struct.be32 (Py.len payload + 8)).
  eexists (Struct.be32 _), (Struct.be32 SUFFIX_VALUE).
  repeat apply conj.
  - rewrite pack_message_eq by assumption.
    rewrite <- !app_assoc. reflexivity.
  - repeat (apply Forall_cons; [reflexivity|]). apply Forall_nil.
  - reflexivity.
  - now apply be_value_be32.
  - now apply be_value_be32.
  - apply be_value_be32. unfold Py.len in *. lia.
  - apply be_value_be32, crc32_range.
  - reflexivity.
Qed.

Lemma pack_message_layout_witness :
  exists prefix sq cm ln crc suffix : bytes,
    _pack_message {| req_seqno := 1; req_cmd := 7;
                     req_payload := list_byte_of_string "{}" |}
    = Ok (prefix ++ sq ++ cm ++ ln ++ list_byte_of_string "{}"
          ++ crc ++ suffix)
    /\ Forall (fun w => List.length w = 4%nat)
         [prefix; sq; cm; ln; crc; suffix]
    /\ Struct.be_value prefix = 0x000055AA
    /\ Struct.be_value sq = 1
    /\ Struct.be_value cm = 7
    /\ Struct.be_value ln = Py.len (list_byte_of_string "{}") + 8
    /\ Struct.be_value crc
       = Binascii.crc32 (prefix ++ sq ++ cm ++ ln ++ list_byte_of_string "{}")
    /\ Struct.be_value suffix = 0x0000AA55.
Proof.
  apply (pack_message_layout 1 7 (list_byte_of_string "{}"));
    vm_compute; split; congruence.
Defined.

(** The commands [_generate_payload] encodes: the keys of the table, without
    CONTROL_NEW, which it refuses. *)
Definition supported : list Z :=
  [AP_CONFIG; CONTROL; STATUS; HEART_BEAT; DP_QUERY; DP_QUERY_NEW; UPDATEDPS].

(** The data-point query and the refresh request. *)
Definition headerless (command : Z) : bool :=
  (command =? DP_QUERY) || (command =? UPDATEDPS).

(** The template of a command and the code its frame carries. *)
Definition template (command : Z) : Json.dict :=
  match TUYA_COMMANDS_default command with
  | Some entry => TuyaProtocol.command entry
  | None => []
  end.

Definition wire_code (command : Z) : Z :=
  match TUYA_COMMANDS_default command with
  | Some entry =>
      match Text.int16 (hexByte entry) with
      | Ok code => code
      | Raise _ => 0
      end
  | None => 0
  end.

(** The serialized JSON text of a request and its bytes. *)
Definition request_text (command : Z) (id timestamp : string)
  (data : option Json.json) : string :=
  message_of (fill (template command) id timestamp data).

Definition request_bytes (command : Z) (id timestamp : string)
  (data : option Json.json) : bytes :=
  Text.encode_utf8 (request_text command id timestamp data).

Definition hex_byte (command : Z) : string :=
  match TUYA_COMMANDS_default command with
  | Some entry => hexByte entry
  | None => EmptyString
  end.

(** The header test of [_generate_payload] on a hex byte. *)
Definition takes_header (command_hb : string) : bool :=
  negb (String.eqb command_hb "0a") && negb (String.eqb command_hb "12").

(** Outside the table, and for CONTROL_NEW, nothing is encoded. *)
Lemma generate_payload_unsupported (command : Z) (id local_key version : string)
  (sequence_number : Z) (timestamp : string) (data : option Json.json)
  (frame : bytes) :
  _generate_payload command id local_key version sequence_number timestamp
    data = Ok frame ->
  In command supported.
Proof.
  unfold _generate_payload, TUYA_COMMANDS_default, supported.
  repeat match goal with
  | |- context [?c =? ?k] =>
      destruct (Z.eqb_spec c k) as [->|?];
      [ first [ discriminate | simpl; tauto ] | ]
  end.
  discriminate.
Qed.

(** In the table, a command takes the header exactly when it is neither the
    query nor the refresh request, and those two are not CONTROL. *)
Lemma supported_header (command : Z) :
  In command supported ->
  takes_header (hex_byte command) = negb (headerless command)
  /\ (headerless command = true -> (command =? CONTROL) = false).
Proof.
  intros H. unfold supported in H. simpl in H.
  repeat (destruct H as [<- | H]; [split; [reflexivity | intros Q; first [reflexivity | discriminate Q]]|]).
  destruct H.
Qed.

(** [_generate_payload] on a supported command: the payload is encoded and
    packed under the command's code. *)
Lemma generate_payload_supported (command : Z) (id local_key version : string)
  (sequence_number : Z) (timestamp : string) (data : option Json.json) :
  In command supported ->
  _generate_payload command id local_key version sequence_number timestamp
    data
  = (payload <- encode_payload (hex_byte command) command local_key version
                  (request_bytes command id timestamp data) ;;
     _pack_message {| req_seqno := sequence_number;
                      req_cmd := wire_code command;
                      req_payload := payload |}).
Proof.
  intros H. unfold supported in H. simpl in H.
  unfold request_bytes, request_text, template, wire_code, hex_byte.
  repeat (destruct H as [<- | H]; [reflexivity|]). destruct H.
Qed.

(** Version 3.3: the payload is encrypted, and prefixed unless the command
    is headerless. *)
Lemma encode_payload_33 (command : Z) (local_key : string) (payload : bytes) :
  In command supported ->
  encode_payload (hex_byte command) command local_key "3.3" payload
  = (ct <- AESCipher.encrypt (Text.encode_utf8 local_key) payload false ;;
     Ok (if headerless command then ct else PROTOCOL_33_HEADER ++ ct)).
Proof.
  intros H. destruct (supported_header command H) as [T C].
  unfold encode_payload. change (String.eqb "3.3" "3.3") with true. cbv iota.
  fold (takes_header (hex_byte command)). rewrite T.
  destruct (AESCipher.encrypt _ payload false) as [ct|e]; [|reflexivity].
  cbn [bind]. destruct (headerless command); [|reflexivity].
  cbn [negb]. now rewrite C.
Qed.

(** Any other version: the payload stays as it is, and is prefixed all the
    same unless the command is headerless. *)
Lemma encode_payload_other (command : Z) (local_key version : string)
  (payload : bytes) :
  In command supported -> String.eqb version "3.3" = false ->
  encode_payload (hex_byte command) command local_key version payload
  = Ok (if headerless command then payload
        else PROTOCOL_33_HEADER ++ payload).
Proof.
  intros H V. destruct (supported_header command H) as [T C].
  unfold encode_payload. rewrite V. cbn [bind].
  fold (takes_header (hex_byte command)). rewrite T.
  destruct (headerless command); [|reflexivity].
  cbn [negb]. now rewrite C.
Qed.

(** Under any version but 3.3 nothing is encrypted, and every command but
    the query and the refresh request gets the header of version 3.3. *)
Lemma generate_payload_other (command : Z) (id local_key version : string)
  (sequence_number : Z) (timestamp : string) (data : option Json.json) :
  In command supported -> String.eqb version "3.3" = false ->
  _generate_payload command id local_key version sequence_number timestamp
    data
  = _pack_message
      {| req_seqno := sequence_number;
         req_cmd := wire_code command;
         req_payload :=
           if headerless command
           then request_bytes command id timestamp data
           else PROTOCOL_33_HEADER
                ++ request_bytes command id timestamp data |}.
Proof.
  intros H V. rewrite generate_payload_supported by assumption.
  now rewrite encode_payload_other by assumption.
Qed.

(** C1, evaluated: under version 3.1 the control command is not encrypted
    and not signed; its plain JSON is sent behind the 15-byte header of
    version 3.3. The branch that encrypts and signs for 3.1 is never
    taken. *)
Theorem control_31_plain_behind_33_header (id local_key : string)
  (sequence_number : Z) (timestamp : string) (data : option Json.json) :
  _generate_payload CONTROL id local_key "3.1" sequence_number timestamp data
  = _pack_message
      {| req_seqno := sequence_number;
         req_cmd := 7;
         req_payload :=
           PROTOCOL_33_HEADER
           ++ Text.encode_utf8
                (message_of
                   (fill [("devId", empty); ("uid", empty); ("t", empty)]
                      id timestamp data)) |}.
Proof.
  rewrite generate_payload_other by (simpl; tauto || reflexivity).
  reflexivity.
Qed.

(** C3, as amended: under version 3.3 the JSON text is padded to the block
    size with [n] bytes of value [n], encrypted with AES in ECB mode under
    the device key, and not base64-encoded; the query and the refresh
    request carry the ciphertext alone, every other command carries it
    behind the header of the ASCII bytes 3.3 and 12 zero bytes, which is 15
    bytes long. *)
Theorem generate_payload_33 (command : Z) (id local_key : string)
  (sequence_number : Z) (timestamp : string) (data : option Json.json) :
  In command supported ->
  AES.valid_key (Text.encode_utf8 local_key) = true ->
  let text := request_bytes command id timestamp data in
  exists (n : Z) (ct : bytes),
    1 <= n <= 16
    /\ (Py.len text + n) mod 16 = 0
    /\ AES.encrypt (Text.encode_utf8 local_key)
         (text ++ repeat (Py.byte_of_Z n) (Z.to_nat n)) = Ok ct
    /\ _generate_payload command id local_key "3.3" sequence_number
         timestamp data
       = _pack_message
           {| req_seqno := sequence_number;
              req_cmd := wire_code command;
              req_payload :=
                if headerless command then ct
                else (list_byte_of_string "3.3" ++ repeat x00 12) ++ ct |}
    /\ Py.len (list_byte_of_string "3.3" ++ repeat x00 12) = 15.
Proof.
  intros H V text.
  destruct (encrypt_pad (Text.encode_utf8 local_key) text V) as [ct E].
  exists (16 - Py.len text mod 16), ct.
  pose proof (Z.mod_pos_bound (Py.len text) 16 ltac:(lia)) as B.
  repeat apply conj; try lia.
  - replace (Py.len text + (16 - Py.len text mod 16))
      with (Py.len text - Py.len text mod 16 + 1 * 16) by lia.
    rewrite Z.mod_add by lia.
    rewrite Zminus_mod_idemp_r, Z.sub_diag. reflexivity.
  - exact E.
  - rewrite generate_payload_supported by assumption.
    rewrite encode_payload_33 by assumption.
    unfold AESCipher.encrypt. fold text. rewrite E. reflexivity.
  - reflexivity.
Qed.

(** C3, refuted as stated: the header before the ciphertext is not 16 bytes
    long. It is 15, so the payload of a control frame is 15 bytes longer
    than its ciphertext and the ciphertext starts at offset 15. *)
Lemma header_33_is_not_16_bytes :
  Py.len PROTOCOL_33_HEADER = 15
  /\ exists frame ct,
       _generate_payload CONTROL "0123456789abcdef012345" "0123456789abcdef"
         "3.3" 2 "1600000000"
         (Some (Json.JObj [("1", Json.JBool true)])) = Ok frame
       /\ AES.encrypt (Text.encode_utf8 "0123456789abcdef")
            (AESCipher._pad
               (request_bytes CONTROL "0123456789abcdef012345" "1600000000"
                  (Some (Json.JObj [("1", Json.JBool true)])))) = Ok ct
       /\ Py.slice_mid 16 8 frame = PROTOCOL_33_HEADER ++ ct
       /\ Py.drop 16 (Py.slice_mid 16 8 frame) <> ct
       /\ Py.drop 15 (Py.slice_mid 16 8 frame) = ct.
Proof.
  split; [reflexivity|].
  eexists. eexists.
  split; [vm_compute; reflexivity|].
  split; [vm_compute; reflexivity|].
  split; [vm_compute; reflexivity|].
  split; [vm_compute; discriminate | vm_compute; reflexivity].
Qed.

(** ** Decoding what was encoded *)

Lemma pack_be32_length (vs : list Z) (bs : bytes) :
  Struct.pack_be32 vs = Ok bs -> List.length bs = (4 * List.length vs)%nat.
Proof.
  revert bs. induction vs as [|v vs IH]; intros bs; cbn [Struct.pack_be32].
  - now intros [= <-].
  - destruct ((0 <=? v) && (v <? 2 ^ 32)); [|discriminate].
    destruct (Struct.pack_be32 vs) as [r|]; [|discriminate].
    cbn [bind]. intros [= <-].
    cbn [List.length]. rewrite (IH r eq_refl). lia.
Qed.

(** A packed frame is a 16-byte header, the payload and an 8-byte
    trailer. *)
Lemma pack_message_parts (msg : TuyaRequest) (frame : bytes) :
  _pack_message msg = Ok frame ->
  exists header trailer,
    frame = header ++ req_payload msg ++ trailer
    /\ List.length header = 16%nat /\ List.length trailer = 8%nat.
Proof.
  unfold _pack_message.
  destruct (Struct.pack_be32 [_; _; _; _]) as [h|] eqn:H; [|discriminate].
  cbn [bind].
  destruct (Struct.pack_be32 [_; _]) as [t|] eqn:T; [|discriminate].
  intros [= <-]. exists h, t.
  rewrite <- app_assoc.
  apply pack_be32_length in H. apply pack_be32_length in T. auto.
Qed.

Lemma slice_mid_parts (header payload trailer : bytes) :
  List.length header = 16%nat -> List.length trailer = 8%nat ->
  Py.slice_mid 16 8 (header ++ payload ++ trailer) = payload.
Proof.
  intros H T. unfold Py.slice_mid, Py.drop_last.
  rewrite !length_app, H, T.
  change (Z.to_nat 8) with 8%nat. change (Z.to_nat 16) with 16%nat.
  replace (16 + (List.length payload + 8) - 8)%nat
    with (List.length header + List.length payload)%nat by lia.
  rewrite app_assoc, firstn_app, length_app.
  replace (List.length header + List.length payload
           - (List.length header + List.length payload))%nat with 0%nat by lia.
  rewrite firstn_all2 by (rewrite length_app; lia).
  rewrite firstn_O, app_nil_r.
  rewrite <- H, skipn_app, skipn_all, Nat.sub_diag. reflexivity.
Qed.

Lemma last_n_app (pre t : bytes) :
  List.length t = 8%nat -> Py.last_n 8 (pre ++ t) = t.
Proof.
  intros T. unfold Py.last_n. change (Z.to_nat 8) with 8%nat.
  rewrite length_app, T.
  replace (List.length pre + 8 - 8)%nat with (List.length pre) by lia.
  rewrite skipn_app, skipn_all, Nat.sub_diag. reflexivity.
Qed.

Lemma unpack_be32_ok (n : nat) (data : bytes) :
  List.length data = (4 * n)%nat ->
  exists vs, Struct.unpack_be32 n data = Ok vs.
Proof.
  revert data. induction n as [|n IH]; intros data L.
  - destruct data; [now exists []|discriminate L].
  - do 4 (destruct data as [|? data]; [simpl in L; lia|]).
    cbn [Struct.unpack_be32].
    destruct (IH data) as [vs ->]; [simpl in L; lia|].
    cbn [bind]. eauto.
Qed.

(** [unpack_message] reads a 20-byte header: on a packed request it takes
    the first four bytes of the payload for the return code. *)
Lemma unpack_packed (header payload trailer : bytes) :
  List.length header = 16%nat -> List.length trailer = 8%nat ->
  exists r, unpack_message (header ++ payload ++ trailer) = Ok r
            /\ TuyaProtocol.payload r = Py.drop 4 payload.
Proof.
  intros H T. unfold unpack_message.
  assert (M : Py.slice_mid Struct.calcsize_5I Struct.calcsize_2I
                (header ++ payload ++ trailer) = Py.drop 4 payload).
  { unfold Py.slice_mid, Py.drop, Struct.calcsize_5I, Struct.calcsize_2I.
    change (Z.to_nat 20) with (4 + 16)%nat.
    rewrite <- skipn_skipn.
    pose proof (slice_mid_parts header payload trailer H T) as Q.
    unfold Py.slice_mid in Q. change (Z.to_nat 16) with 16%nat in Q.
    now rewrite Q. }
  rewrite M.
  destruct (unpack_be32_ok 5
              (Py.take Struct.calcsize_5I (header ++ payload ++ trailer)))
    as [hs ->].
  { unfold Py.take, Struct.calcsize_5I. change (Z.to_nat 20) with 20%nat.
    rewrite length_firstn, !length_app. lia. }
  cbn [bind].
  unfold Struct.calcsize_2I. rewrite app_assoc, last_n_app by assumption.
  destruct (unpack_be32_ok 2 trailer) as [ts ->]; [rewrite T; reflexivity|].
  cbn [bind]. eexists. split; reflexivity.
Qed.

(** The frame codec's text survives its encoding as bytes. *)
Lemma request_bytes_brace (command : Z) (id timestamp : string)
  (data : option Json.json) :
  exists rest,
    request_bytes command id timestamp data = "{"%byte :: rest.
Proof.
  unfold request_bytes, request_text.
  destruct (message_of_brace (fill (template command) id timestamp data))
    as [rest ->].
  eexists. reflexivity.
Qed.

Lemma decrypt_of_encrypt (key text ct : bytes) (s : string) :
  AESCipher.encrypt key text false = Ok ct ->
  text = Text.encode_utf8 s ->
  AESCipher.decrypt key ct false = Ok s /\ ct <> [].
Proof.
  unfold AESCipher.encrypt, AESCipher.decrypt. intros E ->.
  destruct (AES.encrypt key _) as [c|] eqn:A; [|discriminate].
  cbn [bind] in E. injection E as <-.
  split.
  - cbn [bind]. rewrite (decrypt_encrypt _ _ _ A). cbn [bind].
    rewrite unpad_pad. cbn [bind]. apply decode_encode_utf8.
  - apply encrypt_length in A.
    destruct (pad_length (Text.encode_utf8 s)) as [q Q].
    intros ->. rewrite Q in A. simpl in A. lia.
Qed.

(** C2, as amended: the payload a request frame carries, between its
    16-byte header and 8-byte trailer, decodes to the JSON text that was
    serialized: under version 3.3 for every command (for the two headerless
    ones provided the ciphertext does not itself open with the ASCII bytes
    3.1 or 3.3), and under any other version for the two headerless
    commands. [unpack_message], which reads the 20-byte header of a
    response, returns that payload without its first four bytes. *)
Theorem payload_roundtrip (command : Z) (id local_key version : string)
  (sequence_number : Z) (timestamp : string) (data : option Json.json)
  (frame : bytes) :
  _generate_payload command id local_key version sequence_number timestamp
    data = Ok frame ->
  version = "3.3" \/ headerless command = true ->
  (version = "3.3" -> headerless command = true ->
   Py.startswith (Py.slice_mid 16 8 frame) PROTOCOL_VERSION_BYTES_31 = false
   /\ Py.startswith (Py.slice_mid 16 8 frame) PROTOCOL_VERSION_BYTES_33
      = false) ->
  _decode_payload (Py.slice_mid 16 8 frame) local_key version
  = Ok (request_text command id timestamp data)
  /\ exists r, unpack_message frame = Ok r
               /\ payload r = Py.drop 4 (Py.slice_mid 16 8 frame).
Proof.
  intros G C F.
  pose proof (generate_payload_unsupported _ _ _ _ _ _ _ _ G) as S.
  rewrite generate_payload_supported in G by assumption.
  destruct (encode_payload _ _ _ _ _) as [body|] eqn:E; [|discriminate].
  cbn [bind] in G.
  destruct (pack_message_parts _ _ G) as (h & t & -> & Hh & Ht).
  cbn [req_payload] in *. rewrite slice_mid_parts in * by assumption.
  split; [|now apply unpack_packed].
  destruct (String.eqb_spec version "3.3") as [-> | V].
  - (* version 3.3 *)
    rewrite encode_payload_33 in E by assumption.
    destruct (AESCipher.encrypt _ _ false) as [ct|] eqn:A; [|discriminate].
    cbn [bind] in E. injection E as <-.
    destruct (decrypt_of_encrypt _ _ _ _ A eq_refl) as [D N].
    destruct (headerless command) eqn:Hl.
    + destruct (F eq_refl eq_refl) as [F1 F3].
      unfold _decode_payload. destruct ct as [|c ct]; [congruence|].
      rewrite F1, F3. exact D.
    + unfold _decode_payload. destruct ct as [|c ct]; [congruence|].
      exact D.
  - (* any other version *)
    destruct C as [C | C]; [contradiction|].
    apply String.eqb_neq in V.
    rewrite encode_payload_other, C in E by assumption.
    injection E as <-.
    destruct (request_bytes_brace command id timestamp data) as [rest R].
    unfold _decode_payload. rewrite R.
    change (Py.startswith ("{"%byte :: rest) PROTOCOL_VERSION_BYTES_31)
      with false.
    change (Py.startswith ("{"%byte :: rest) (list_byte_of_string "{"))
      with true.
    cbv iota. rewrite V. rewrite <- R. apply decode_encode_utf8.
Qed.

Lemma payload_roundtrip_witness :
  exists frame,
    _generate_payload DP_QUERY "0123456789abcdef012345" "0123456789abcdef"
      "3.3" 1 "1600000000" None = Ok frame
    /\ ("3.3" = "3.3" \/ headerless DP_QUERY = true)
    /\ Py.startswith (Py.slice_mid 16 8 frame) PROTOCOL_VERSION_BYTES_31
       = false
    /\ Py.startswith (Py.slice_mid 16 8 frame) PROTOCOL_VERSION_BYTES_33
       = false
    /\ _decode_payload (Py.slice_mid 16 8 frame) "0123456789abcdef" "3.3"
       = Ok (request_text DP_QUERY "0123456789abcdef012345" "1600000000"
               None)
    /\ exists r, unpack_message frame = Ok r
                 /\ payload r = Py.drop 4 (Py.slice_mid 16 8 frame).
Proof.
  eexists. split; [vm_compute; reflexivity|].
  split; [now left|].
  split; [vm_compute; reflexivity|].
  split; [vm_compute; reflexivity|].
  apply (payload_roundtrip DP_QUERY "0123456789abcdef012345"
           "0123456789abcdef" "3.3" 1 "1600000000" None).
  - vm_compute; reflexivity.
  - now left.
  - intros _ _. split; vm_compute; reflexivity.
Defined.

(** C2, refuted as stated: decoding the very frame the encoder produced
    (unpack, then decode) does not give the JSON text back. The query of
    version 3.1 and the control command of version 3.3 both end in an
    error, because [unpack_message] skips 20 bytes where the request has a
    header of 16. *)
Lemma frame_roundtrip_fails :
  (exists frame,
     _generate_payload DP_QUERY "0123456789abcdef012345" "0123456789abcdef"
       "3.1" 1 "1600000000" None = Ok frame
     /\ data_received frame "0123456789abcdef" "3.1"
        = Raise (ValueError "Unexpected payload"))
  /\ (exists frame,
        _generate_payload CONTROL "0123456789abcdef012345" "0123456789abcdef"
          "3.3" 2 "1600000000"
          (Some (Json.JObj [("1", Json.JBool true)])) = Ok frame
        /\ data_received frame "0123456789abcdef" "3.3"
           = Raise AES.align_error).
Proof.
  split; eexists; (split; [vm_compute; reflexivity|]); vm_compute; reflexivity.
Qed.

(** The condition on the header-less commands is needed: for this id the
    ciphertext of the query opens with the ASCII bytes 3.1, for the next
    one with 3.3, and the decoder takes them for a version prefix. *)
Example query_ciphertext_opens_with_version_bytes :
  (exists frame,
     _generate_payload DP_QUERY "1198f7389abcdef0123456" "0123456789abcdef"
       "3.3" 1 "1600000000" None = Ok frame
     /\ Py.startswith (Py.slice_mid 16 8 frame) PROTOCOL_VERSION_BYTES_31
        = true
     /\ _decode_payload (Py.slice_mid 16 8 frame) "0123456789abcdef" "3.3"
        = Raise AES.align_error)
  /\ (exists frame,
        _generate_payload DP_QUERY "1acd04489abcdef0123456"
          "0123456789abcdef" "3.3" 1 "1600000000" None = Ok frame
        /\ Py.startswith (Py.slice_mid 16 8 frame) PROTOCOL_VERSION_BYTES_33
           = true
        /\ _decode_payload (Py.slice_mid 16 8 frame) "0123456789abcdef"
             "3.3" = Raise AES.align_error).
Proof.
  split; eexists; (split; [vm_compute; reflexivity|]);
    split; vm_compute; reflexivity.
Qed.

Lemma generate_payload_33_witness :
  In CONTROL supported
  /\ AES.valid_key (Text.encode_utf8 "0123456789abcdef") = true
  /\ exists (n : Z) (ct : bytes),
       1 <= n <= 16
       /\ (Py.len (request_bytes CONTROL "0123456789abcdef012345"
                     "1600000000" None) + n) mod 16 = 0
       /\ AES.encrypt (Text.encode_utf8 "0123456789abcdef")
            (request_bytes CONTROL "0123456789abcdef012345" "1600000000" None
             ++ repeat (Py.byte_of_Z n) (Z.to_nat n)) = Ok ct
       /\ _generate_payload CONTROL "0123456789abcdef012345"
            "0123456789abcdef" "3.3" 5 "1600000000" None
          = _pack_message
              {| req_seqno := 5;
                 req_cmd := wire_code CONTROL;
                 req_payload :=
                   if headerless CONTROL then ct
                   else (list_byte_of_string "3.3" ++ repeat x00 12) ++ ct |}
       /\ Py.len (list_byte_of_string "3.3" ++ repeat x00 12) = 15.
Proof.
  split; [simpl; tauto|]. split; [reflexivity|].
  apply (generate_payload_33 CONTROL "0123456789abcdef012345"
           "0123456789abcdef" 5 "1600000000" None).
  - simpl; tauto.
  - reflexivity.
Defined.

End CodecFacts.

(** * Discovery *)

Section ScannerFacts.

Import Scanner.

(** The keys of the callbacks the wrapper's loop calls with [data]: each in
    turn, up to and with the first one that raises. *)
Fixpoint reached (cbs : Dict.t DeviceFoundCallback) (data : ScanResult)
  : list string :=
  match cbs with
  | [] => []
  | (key, callback) :: cbs' =>
      key :: match callback data with
             | Ok _ => reached cbs' data
             | Raise _ => []
             end
  end.

(** How often the callback under [key] is among them. *)
Definition called (key : string) (cbs : Dict.t DeviceFoundCallback)
  (data : ScanResult) : nat :=
  List.length (filter (fun k => String.eqb k key) (reached cbs data)).

(** *** Equal values and equal tuples *)

(** Equal values are of one kind: both have a hash or neither has. *)
Lemma equal_hashable (a b : Json.json) :
  Json.equal a b = true -> Json.hashable a = Json.hashable b.
Proof.
  intros H. destruct a, b; try reflexivity; simpl in H; discriminate H.
Qed.

Ltac open_equal :=
  repeat match goal with
  | x : bool |- _ => destruct x
  | H : (_ =? _) = true |- _ => apply Z.eqb_eq in H; subst
  | H : String.eqb _ _ = true |- _ => apply String.eqb_eq in H; subst
  | H : Bool.eqb _ _ = true |- _ => apply Bool.eqb_prop in H; subst
  end.

(** On the values that have a hash, [==] is an equivalence. *)
Lemma equal_refl (a : Json.json) :
  Json.hashable a = true -> Json.equal a a = true.
Proof.
  destruct a; simpl; intros H; try discriminate H.
  - reflexivity.
  - now destruct b.
  - apply Z.eqb_refl.
  - apply String.eqb_refl.
Qed.

Lemma equal_sym (a b : Json.json) :
  Json.hashable a = true -> Json.equal a b = Json.equal b a.
Proof.
  destruct a, b; simpl; intros H; try discriminate H; try reflexivity.
  - now destruct b, b0.
  - apply Z.eqb_sym.
  - apply Z.eqb_sym.
  - apply Z.eqb_sym.
  - apply String.eqb_sym.
Qed.

Lemma equal_trans (a b c : Json.json) :
  Json.hashable a = true -> Json.equal a b = true ->
  Json.equal b c = Json.equal a c.
Proof.
  intros H E.
  destruct a; try discriminate H; destruct b; try discriminate E;
    simpl in E; destruct c; simpl; try reflexivity; open_equal;
    try reflexivity; try discriminate E.
Qed.

Lemma ScanResult_eqb_hashable (a b : ScanResult) :
  ScanResult_eqb a b = true ->
  ScanResult_hashable a = ScanResult_hashable b.
Proof.
  unfold ScanResult_eqb, ScanResult_hashable. intros H.
  repeat (apply andb_prop in H as [H ?]).
  repeat match goal with
  | Q : Json.equal _ _ = true |- _ =>
      apply equal_hashable in Q; rewrite Q; clear Q
  end.
  reflexivity.
Qed.

Lemma ScanResult_eqb_refl (a : ScanResult) :
  ScanResult_hashable a = true -> ScanResult_eqb a a = true.
Proof.
  unfold ScanResult_eqb, ScanResult_hashable. intros H.
  repeat (apply andb_prop in H as [H ?]).
  rewrite !equal_refl by assumption. reflexivity.
Qed.

Lemma ScanResult_eqb_sym (a b : ScanResult) :
  ScanResult_hashable a = true -> ScanResult_eqb a b = ScanResult_eqb b a.
Proof.
  unfold ScanResult_eqb, ScanResult_hashable. intros H.
  repeat (apply andb_prop in H as [H ?]).
  rewrite (equal_sym (ip a)), (equal_sym (gwId a)), (equal_sym (active a)),
    (equal_sym (ability a)), (equal_sym (mode a)), (equal_sym (encrypt a)),
    (equal_sym (productKey a)), (equal_sym (version a)) by assumption.
  reflexivity.
Qed.

Lemma ScanResult_eqb_trans (a b c : ScanResult) :
  ScanResult_hashable a = true -> ScanResult_eqb a b = true ->
  ScanResult_eqb b c = ScanResult_eqb a c.
Proof.
  unfold ScanResult_eqb, ScanResult_hashable. intros H E.
  repeat (apply andb_prop in H as [H ?]).
  repeat (apply andb_prop in E as [E ?]).
  rewrite (equal_trans (ip a) (ip b)), (equal_trans (gwId a) (gwId b)),
    (equal_trans (active a) (active b)),
    (equal_trans (ability a) (ability b)), (equal_trans (mode a) (mode b)),
    (equal_trans (encrypt a) (encrypt b)),
    (equal_trans (productKey a) (productKey b)),
    (equal_trans (version a) (version b)) by assumption.
  reflexivity.
Qed.

(** Equal tuples are in the same sets. *)
Lemma seen_mem_eqb (a b : ScanResult) (seen : list ScanResult) :
  ScanResult_hashable a = true -> ScanResult_eqb a b = true ->
  seen_mem b seen = seen_mem a seen.
Proof.
  intros H E. unfold seen_mem.
  induction seen as [|x seen IH]; [reflexivity|].
  cbn [existsb]. now rewrite IH, (ScanResult_eqb_trans a b x H E).
Qed.

(** *** One datagram, and a sequence of them *)

Lemma call_each_log (cbs : Dict.t DeviceFoundCallback) (data : ScanResult)
  (log : calls) :
  snd (call_each cbs data log)
  = log ++ map (fun k => (k, data)) (reached cbs data).
Proof.
  revert log. induction cbs as [|[key cb] cbs IH]; intros log; simpl.
  - now rewrite app_nil_r.
  - destruct (cb data).
    + rewrite IH, <- app_assoc. reflexivity.
    + simpl. reflexivity.
Qed.

(** When no callback raises, every one of them is reached. *)
Lemma reached_all (cbs : Dict.t DeviceFoundCallback) (data : ScanResult) :
  Forall (fun kc => snd kc data = Ok tt) cbs ->
  reached cbs data = Dict.keys cbs.
Proof.
  induction 1 as [|[key cb] cbs H _ IH]; simpl; [reflexivity|].
  simpl in H. now rewrite H, IH.
Qed.

(** The callbacks before the first that raises are reached, and so is that
    one; those after it are not. *)
Lemma reached_until (before after : Dict.t DeviceFoundCallback)
  (key : string) (cb : DeviceFoundCallback) (data : ScanResult) (e : exn) :
  Forall (fun kc => snd kc data = Ok tt) before ->
  cb data = Raise e ->
  reached (before ++ (key, cb) :: after) data = Dict.keys before ++ [key].
Proof.
  intros F E. induction F as [|[k c] before H _ IH]; simpl.
  - now rewrite E.
  - simpl in H. rewrite H. unfold Dict.keys in IH. now rewrite IH.
Qed.

Lemma delivered_app (key : string) (data : ScanResult) (l1 l2 : calls) :
  delivered key data (l1 ++ l2)
  = (delivered key data l1 + delivered key data l2)%nat.
Proof. unfold delivered. now rewrite filter_app, length_app. Qed.

Lemma delivered_map (key : string) (data r : ScanResult)
  (keys : list string) :
  delivered key data (map (fun k => (k, r)) keys)
  = if ScanResult_eqb r data
    then List.length (filter (fun k => String.eqb k key) keys)
    else 0%nat.
Proof.
  unfold delivered. induction keys as [|k keys IH]; simpl.
  - now destruct (ScanResult_eqb r data).
  - destruct (ScanResult_eqb r data) eqn:E.
    + rewrite andb_true_r. destruct (String.eqb k key); simpl; now rewrite IH.
    + rewrite andb_false_r. exact IH.
Qed.

(** One tuple handed to the wrapper by a protocol: the outcome is never an
    exception. A tuple without a hash and a tuple that was seen change
    nothing; a new one is recorded and the reached callbacks are called
    with it. *)
Lemma deliver_spec (self : DeviceScanner) (data : ScanResult) (log : calls) :
  deliver self data log
  = if negb (ScanResult_hashable data) || seen_mem data (_seen self)
    then (Ok tt, self, log)
    else (Ok tt,
          {| _seen := _seen self ++ [data];
             on_device_found := on_device_found self;
             is_running := is_running self |},
          log ++ map (fun k => (k, data))
                   (reached (on_device_found self) data)).
Proof.
  unfold deliver, _on_device_found_wrapper.
  destruct (ScanResult_hashable data); [|reflexivity].
  destruct (seen_mem data (_seen self)); [reflexivity|].
  cbn [negb orb on_device_found].
  pose proof (call_each_log (on_device_found self) data log) as L.
  destruct (call_each (on_device_found self) data log) as [r log'].
  simpl in L. now rewrite L.
Qed.

Lemma seen_mem_app (d r : ScanResult) (seen : list ScanResult) :
  seen_mem d (seen ++ [r]) = seen_mem d seen || ScanResult_eqb d r.
Proof.
  unfold seen_mem. rewrite existsb_app. simpl. now rewrite orb_false_r.
Qed.

(** A tuple that changes nothing is not the first of its kind: when
    [data] has a hash and was not seen, such a tuple is not equal to it. *)
Lemma dropped_differs (self : DeviceScanner) (data r : ScanResult) :
  negb (ScanResult_hashable r) || seen_mem r (_seen self) = true ->
  ScanResult_hashable data = true ->
  seen_mem data (_seen self) = false ->
  ScanResult_eqb data r = false.
Proof.
  intros D H S. destruct (ScanResult_eqb data r) eqn:E; [|reflexivity].
  rewrite (seen_mem_eqb data r _ H E), S, orb_false_r in D.
  rewrite <- (ScanResult_eqb_hashable data r E), H in D. discriminate D.
Qed.

(** A listener lifetime: over any sequence of tuples, the first one equal
    to [data], if [data] has a hash and was not seen before, is passed once
    to the callbacks it reaches, and no other call is made with a tuple
    equal to [data]. *)
Lemma deliver_all_spec (rs : list ScanResult) (self : DeviceScanner)
  (log : calls) (key : string) (data : ScanResult) :
  delivered key data (snd (deliver_all self rs log))
  = (delivered key data log
     + if ScanResult_hashable data && negb (seen_mem data (_seen self))
       then match find (ScanResult_eqb data) rs with
            | Some r => called key (on_device_found self) r
            | None => 0
            end
       else 0)%nat
  /\ on_device_found (fst (deliver_all self rs log)) = on_device_found self.
Proof.
  revert self log. induction rs as [|r rs IH]; intros self log.
  - simpl. split; [|reflexivity].
    destruct (ScanResult_hashable data && negb (seen_mem data (_seen self)));
      lia.
  - cbn [deliver_all]. rewrite deliver_spec.
    destruct (negb (ScanResult_hashable r) || seen_mem r (_seen self)) eqn:D.
    + destruct (IH self log) as [-> ->]. split; [|reflexivity].
      cbn [find].
      destruct (ScanResult_hashable data) eqn:H; [|reflexivity].
      destruct (seen_mem data (_seen self)) eqn:S; [reflexivity|].
      now rewrite (dropped_differs self data r D H S).
    + match goal with
      | |- context [deliver_all ?s rs ?l] => destruct (IH s l) as [-> ->]
      end.
      cbn [_seen on_device_found]. split; [|reflexivity].
      apply orb_false_elim in D as [Hr Sr].
      apply negb_false_iff in Hr.
      rewrite delivered_app, delivered_map, seen_mem_app.
      cbn [find]. rewrite (ScanResult_eqb_sym r data Hr).
      destruct (ScanResult_eqb data r) eqn:E.
      * pose proof (ScanResult_eqb_hashable data r E) as Hd.
        rewrite Hr in Hd. rewrite Hd.
        rewrite <- (seen_mem_eqb data r _ Hd E), Sr.
        cbn [negb andb orb]. unfold called. lia.
      * rewrite orb_false_r.
        destruct (ScanResult_hashable data
                  && negb (seen_mem data (_seen self))); lia.
Qed.

(** C6, as amended: an exception raised by a callback is swallowed inside
    [datagram_received] and never reaches the socket read loop: once the
    tuple of a datagram is made, the handler returns normally. A tuple not
    seen before stays recorded, and the callbacks called with it are those
    registered before the first one that raises and that one itself; those
    registered after it are not called. A tuple with a field that has no
    hash is neither recorded nor passed on: the [TypeError] of the set is
    swallowed as a callback's exception is. What is raised before the
    tuple is made, by the decoder, by [json.loads] or by [ScanResult],
    does leave the handler, with nothing recorded and no callback called. *)
Theorem callback_exception_contained (T : Type)
  (json_loads : T -> result Json.json) (decode : bytes -> result T)
  (self : DeviceScanner) (data : bytes) (log : calls) :
  match parse_datagram json_loads decode data with
  | Raise e =>
      e <> OutOfModel ->
      datagram_received json_loads decode self data log = (Raise e, self, log)
  | Ok r =>
      datagram_received json_loads decode self data log
      = (if negb (ScanResult_hashable r) || seen_mem r (_seen self)
         then (Ok tt, self, log)
         else (Ok tt,
               {| _seen := _seen self ++ [r];
                  on_device_found := on_device_found self;
                  is_running := is_running self |},
               log ++ map (fun k => (k, r))
                        (reached (on_device_found self) r)))
      /\ (forall before after key cb e,
            on_device_found self = before ++ (key, cb) :: after ->
            Forall (fun kc => snd kc r = Ok tt) before ->
            cb r = Raise e ->
            reached (on_device_found self) r = Dict.keys before ++ [key])
  end.
Proof.
  unfold datagram_received.
  destruct (parse_datagram json_loads decode data) as [r|e]; [|reflexivity].
  split; [apply deliver_spec|].
  intros before after key cb e -> F E. now apply (reached_until _ _ _ _ _ e).
Qed.

(** An announcement and two consumers, the first of which raises. *)
Definition bulb : ScanResult :=
  {| ip := Json.JStr "192.168.1.20";
     gwId := Json.JStr "0123456789abcdef012345";
     active := Json.JInt 2; ability := Json.JInt 0; mode := Json.JInt 0;
     encrypt := Json.JBool true;
     productKey := Json.JStr "keyabcdefgh12345";
     version := Json.JStr "3.3" |}.

Definition bulb_moved : ScanResult :=
  {| ip := Json.JStr "192.168.1.21";
     gwId := Json.JStr "0123456789abcdef012345";
     active := Json.JInt 2; ability := Json.JInt 0; mode := Json.JInt 0;
     encrypt := Json.JBool true;
     productKey := Json.JStr "keyabcdefgh12345";
     version := Json.JStr "3.3" |}.

Definition failing : DeviceFoundCallback := fun _ => Raise RuntimeError.
Definition quiet : DeviceFoundCallback := fun _ => Ok tt.

Definition two_consumers : DeviceScanner :=
  add_listener (add_listener new "first" failing) "second" quiet.

(** C6, refuted as stated: the first consumer raises, the datagram handler
    returns normally and the result is recorded as seen, but the second
    consumer was never called with it. *)
Lemma failing_callback_starves_the_next :
  let '(outcome, self, log) := deliver two_consumers bulb [] in
  outcome = Ok tt
  /\ seen_mem bulb (_seen self) = true
  /\ delivered "first" bulb log = 1%nat
  /\ delivered "second" bulb log = 0%nat.
Proof. vm_compute. auto. Qed.

(** The tuples of the sequence that have a hash are recorded, and nothing
    else is. *)
Lemma deliver_all_seen (rs : list ScanResult) (self : DeviceScanner)
  (log : calls) (data : ScanResult) :
  seen_mem data (_seen (fst (deliver_all self rs log)))
  = seen_mem data (_seen self)
    || (ScanResult_hashable data && existsb (ScanResult_eqb data) rs).
Proof.
  revert self log. induction rs as [|r rs IH]; intros self log.
  - simpl. now rewrite andb_false_r, orb_false_r.
  - cbn [deliver_all existsb]. rewrite deliver_spec.
    destruct (negb (ScanResult_hashable r) || seen_mem r (_seen self)) eqn:D.
    + rewrite IH.
      destruct (seen_mem data (_seen self)) eqn:S; [reflexivity|].
      destruct (ScanResult_hashable data) eqn:H; [|reflexivity].
      now rewrite (dropped_differs self data r D H S).
    + rewrite IH. cbn [_seen]. rewrite seen_mem_app, <- orb_assoc.
      f_equal. apply orb_false_elim in D as [Hr _].
      apply negb_false_iff in Hr.
      destruct (ScanResult_eqb data r) eqn:E.
      * now rewrite (ScanResult_eqb_hashable data r E), Hr.
      * reflexivity.
Qed.

(** Handling the datagrams is handling the tuples they give. *)
Lemma receive_all_parsed (T : Type) (json_loads : T -> result Json.json)
  (decoders : generation -> bytes -> result T)
  (datagrams : list (generation * bytes)) (self : DeviceScanner)
  (log : calls) :
  receive_all json_loads decoders self datagrams log
  = deliver_all self (parsed json_loads decoders datagrams) log.
Proof.
  revert self log.
  induction datagrams as [|[g data] ds IH]; intros self log; [reflexivity|].
  cbn [receive_all parsed flat_map fst snd]. unfold datagram_received.
  destruct (parse_datagram json_loads (decoders g) data) as [r|e].
  - cbn [app deliver_all]. destruct (deliver self r log) as [[o s] l].
    apply IH.
  - cbn [app]. apply IH.
Qed.

(** One datagram whose tuple has a hash and was not seen. *)
Lemma datagram_received_new (T : Type) (json_loads : T -> result Json.json)
  (decode : bytes -> result T) (self : DeviceScanner) (data : bytes)
  (log : calls) (r : ScanResult) :
  parse_datagram json_loads decode data = Ok r ->
  ScanResult_hashable r = true -> seen_mem r (_seen self) = false ->
  datagram_received json_loads decode self data log
  = (Ok tt,
     {| _seen := _seen self ++ [r];
        on_device_found := on_device_found self;
        is_running := is_running self |},
     log ++ map (fun k => (k, r)) (reached (on_device_found self) r)).
Proof.
  intros P H S. unfold datagram_received. rewrite P, deliver_spec, H, S.
  reflexivity.
Qed.



(** With consumers that return, the same datagram twice is one delivery,
    and two datagrams that differ in the ip are two. *)
Definition one_consumer : DeviceScanner := add_listener new "only" quiet.

Example same_datagram_twice :
  snd (deliver_all one_consumer [bulb; bulb] []) = [("only", bulb)].
Proof. reflexivity. Qed.

Example datagrams_differing_in_ip :
  snd (deliver_all one_consumer [bulb; bulb_moved] [])
  = [("only", bulb); ("only", bulb_moved)].
Proof. reflexivity. Qed.

(** The bulb announced with 1 where it had [True]: an equal tuple, which
    is dropped. *)
Definition bulb_as_int : ScanResult :=
  {| ip := Json.JStr "192.168.1.20";
     gwId := Json.JStr "0123456789abcdef012345";
     active := Json.JInt 2; ability := Json.JInt 0; mode := Json.JInt 0;
     encrypt := Json.JInt 1;
     productKey := Json.JStr "keyabcdefgh12345";
     version := Json.JStr "3.3" |}.

Example equal_tuple_of_other_type :
  deliver_all one_consumer [bulb; bulb_as_int] []
  = deliver_all one_consumer [bulb] [].
Proof. reflexivity. Qed.

(** Announced that way first, it is recorded and passed on as it came, and
    the bulb counts as seen and as delivered. *)
Example equal_tuple_counts :
  let '(self, log) := deliver_all one_consumer [bulb_as_int] [] in
  log = [("only", bulb_as_int)]
  /\ seen_mem bulb (_seen self) = true
  /\ delivered "only" bulb log = 1%nat.
Proof. vm_compute. auto. Qed.

(** The bulb announced with a list for its mode: the tuple has no hash,
    the handler returns, and the scanner is as it was. *)
Definition bulb_with_list : ScanResult :=
  {| ip := Json.JStr "192.168.1.20";
     gwId := Json.JStr "0123456789abcdef012345";
     active := Json.JInt 2; ability := Json.JInt 0;
     mode := Json.JList [Json.JInt 0];
     encrypt := Json.JBool true;
     productKey := Json.JStr "keyabcdefgh12345";
     version := Json.JStr "3.3" |}.

Example tuple_without_hash :
  deliver one_consumer bulb_with_list [] = (Ok tt, one_consumer, []).
Proof. reflexivity. Qed.

End ScannerFacts.

(** * The device model *)

Section DeviceFacts.

Import Device.

Lemma ValueRange_eqb_refl (r : ValueRange) : ValueRange_eqb r r = true.
Proof. unfold ValueRange_eqb. now rewrite !Z.eqb_refl. Qed.



(** Between the endpoints the value is interpolated in floating point and
    truncated. *)
Example scale_value_interpolates :
  scale_value 128 {| min := 0; max := 255 |} {| min := 0; max := 100 |}
  = Ok 50.
Proof. reflexivity. Qed.

(** A stored value that is no int: text is read as a number when the
    ranges are equal, and cannot be subtracted from when they are not. *)
Example scale_value_of_text :
  scale_value_of (Json.JStr "128") RANGE_255 RANGE_255 = Ok 128
  /\ scale_value_of (Json.JStr "dim") RANGE_255 RANGE_255
     = Raise Text.int10_error
  /\ scale_value_of (Json.JStr "128") RANGE_255 {| min := 0; max := 100 |}
     = Raise TypeError
  /\ scale_value_of Json.JNull RANGE_255 RANGE_255 = Raise TypeError
  /\ scale_value_of (Json.JBool true) {| min := 1; max := 255 |}
       {| min := 0; max := 100 |} = Ok 0
  /\ scale_value_of (Json.JStr "128") {| min := 7; max := 7 |} RANGE_255
     = Raise ZeroDivisionError.
Proof. repeat split. Qed.

(** A set that holds the v2 code of a pair and not the other one meets the
    pair in the v2 code alone. *)
Lemma inter_v2_only (c c2 : string) (attributes : PySet.t) :
  PySet.mem c2 attributes = true -> PySet.mem c attributes = false ->
  PySet.inter [c; c2] attributes = [c2].
Proof.
  intros H2 H1. unfold PySet.inter. simpl. now rewrite H1, H2.
Qed.

Lemma pop_singleton (order : PySet.t -> nat) (c : string) :
  PySet.pop order [c] = Some c.
Proof.
  unfold PySet.pop. cbn [List.length]. now rewrite Nat.mod_1_r.
Qed.

Lemma code_in_v2_only (order : PySet.t -> nat) (c c2 : string)
  (self : TuyaDevice) :
  PySet.mem c2 (_attributes self) = true ->
  PySet.mem c (_attributes self) = false ->
  code_in order [c; c2] self = Some c2.
Proof.
  intros H2 H1. unfold code_in.
  rewrite (inter_v2_only c c2 _ H2 H1).
  destruct (_attributes self); [discriminate H2|]. apply pop_singleton.
Qed.

(** C10: when the registered codes hold bright_value_v2 and not
    bright_value, the brightness code resolves to bright_value_v2, yet the
    brightness getter returns [None] and the setter produces no write; the
    same for temp_value_v2 and the color temperature. *)
Theorem v2_codes_resolve_without_value (order : PySet.t -> nat) (cfg : maps)
  (self : TuyaDevice) (value : Z) :
  (PySet.mem BRIGHT_VALUE_V2 (_attributes self) = true ->
   PySet.mem BRIGHT_VALUE (_attributes self) = false ->
   brightness_code order self = Some BRIGHT_VALUE_V2
   /\ brightness order cfg self = Ok None
   /\ set_brightness order cfg self value = Ok None)
  /\ (PySet.mem TEMP_VALUE_V2 (_attributes self) = true ->
      PySet.mem TEMP_VALUE (_attributes self) = false ->
      color_temp_code order self = Some TEMP_VALUE_V2
      /\ color_temp order cfg self = Ok None
      /\ set_color_temp order cfg self value = Ok None).
Proof.
  split; intros H2 H1.
  - pose proof (code_in_v2_only order BRIGHT_VALUE BRIGHT_VALUE_V2 self H2 H1)
      as C.
    unfold brightness, set_brightness, brightness_code, BRIGHTNESS_CODES.
    rewrite C. repeat split.
    destruct (state_value self (Some BRIGHT_VALUE_V2)); reflexivity.
  - pose proof (code_in_v2_only order TEMP_VALUE TEMP_VALUE_V2 self H2 H1)
      as C.
    unfold color_temp, set_color_temp, color_temp_code, COLOR_TEMP_CODES.
    rewrite C. repeat split.
    destruct (state_value self (Some TEMP_VALUE_V2)); reflexivity.
Qed.

(** A strip that registers the v2 codes alone. *)
Definition strip : TuyaDevice :=
  new {| name := "strip"; id := "fedcba9876543210fedcba";
         local_key := "fedcba9876543210"; device_type := "dj";
         attributes := ["switch_led"; "bright_value_v2"; "temp_value_v2"];
         ip := Json.JStr "192.168.1.30"; version := Json.JStr "3.3";
         code_to_name := None; name_to_code := None |}.

Definition defaults : maps :=
  build_map "" TUYA_TYPE_LIGHT TUYA_TYPE_SWITCH TUYA_TEMP_MODE
    TUYA_COLOR_MODE RANGE_255 TUYA_HSV_RANGE RANGE_255.

Lemma v2_codes_resolve_without_value_witness :
  PySet.mem BRIGHT_VALUE_V2 (_attributes strip) = true
  /\ PySet.mem BRIGHT_VALUE (_attributes strip) = false
  /\ brightness_code (fun _ => 0%nat) strip = Some BRIGHT_VALUE_V2
  /\ brightness (fun _ => 0%nat) defaults strip = Ok None
  /\ set_brightness (fun _ => 0%nat) defaults strip 200 = Ok None.
Proof.
  split; [reflexivity|]. split; [reflexivity|].
  apply (v2_codes_resolve_without_value (fun _ => 0%nat) defaults strip 200);
    reflexivity.
Defined.

(** ** Fetching *)

(** [n] fetches in a row that all end in a connection failure. *)
Fixpoint fail_fetches (n : nat) (self : TuyaDevice) : TuyaDevice :=
  match n with
  | O => self
  | S n' => fail_fetches n' (snd (fetch_state self (Raise ConnectionError)))
  end.

Lemma fetch_state_connection_error (self : TuyaDevice) :
  Json.truthy (ip (_data self)) = true ->
  fetch_state self (Raise ConnectionError)
  = (Ok tt, with_state self (_state self) (_failed_connect self + 1)).
Proof. intros I. unfold fetch_state. now rewrite I. Qed.

Lemma fail_fetches_counter (n : nat) (self : TuyaDevice) :
  Json.truthy (ip (_data self)) = true ->
  _failed_connect (fail_fetches n self) = _failed_connect self + Z.of_nat n
  /\ _state (fail_fetches n self) = _state self.
Proof.
  revert self. induction n as [|n IH]; intros self I.
  - simpl. split; [lia|reflexivity].
  - cbn [fail_fetches]. rewrite fetch_state_connection_error by assumption.
    cbn [snd]. destruct (IH (with_state self (_state self)
                               (_failed_connect self + 1))) as [C S].
    { exact I. }
    rewrite C, S. cbn [with_state _failed_connect _state]. split; [lia|reflexivity].
Qed.

(** Making the maps touches the device data alone. *)
Lemma map_or_create_keeps (self self' : TuyaDevice) (status : Json.json)
  (map : Dict.t string) :
  map_or_create self status = Ok (map, self') ->
  _state self' = _state self
  /\ _failed_connect self' = _failed_connect self
  /\ _attributes self' = _attributes self
  /\ ip (_data self') = ip (_data self)
  /\ version (_data self') = version (_data self).
Proof.
  unfold map_or_create, _create_code_name_maps.
  destruct (truthy_dict (code_to_name (_data self)));
    [destruct (code_to_name (_data self))|];
    try (intros E; injection E as <- <-; now repeat split);
    destruct (keys_of status); cbn [bind]; intros E;
    try discriminate E; injection E as <- <-; now repeat split.
Qed.

(** A code without a name stops the translation of a dict. *)
Lemma rekey_unnamed (m : Dict.t string) (d acc : Dict.t Json.json)
  (code : string) :
  In code (Dict.keys d) -> Dict.get code m = None ->
  rekey m d acc = Raise KeyError.
Proof.
  revert acc. induction d as [|[k v] d IH]; intros acc I G; [destruct I|].
  cbn [rekey]. unfold Dict.item.
  destruct (Dict.get k m) eqn:K; cbn [bind]; [|reflexivity].
  apply IH; [|exact G]. destruct I as [E|I]; [|exact I].
  simpl in E. subst k. congruence.
Qed.


(** A bulb that was discovered, before and after its first fetch. *)
Definition lamp_data : DeviceData :=
  {| name := "lamp"; id := "0123456789abcdef012345";
     local_key := "0123456789abcdef"; device_type := "dj";
     attributes := ["switch_led"; "bright_value"];
     ip := Json.JStr "192.168.1.20"; version := Json.JStr "3.3";
     code_to_name := None; name_to_code := None |}.

Definition lamp : TuyaDevice := new lamp_data.

Definition lamp_reply : reply :=
  Ok (Some [("devId", Json.JStr "0123456789abcdef012345");
            ("dps", Json.JObj [("1", Json.JBool true);
                               ("2", Json.JInt 128)])]).


(** A reply with more data points than the device has registered
    attributes: the second code has no name, the translation raises past
    the caller after the maps were set, and the counter stays. *)
Definition plug : TuyaDevice :=
  new {| name := "plug"; id := "0123456789abcdef012345";
         local_key := "0123456789abcdef"; device_type := "cz";
         attributes := ["switch_1"];
         ip := Json.JStr "192.168.1.40"; version := Json.JStr "3.3";
         code_to_name := None; name_to_code := None |}.

Example fetch_state_unmapped_code :
  let '(outcome, self) := fetch_state (fail_fetches 4 plug) lamp_reply in
  outcome = Raise KeyError
  /\ code_to_name (_data self) = Some [("1", "switch_1")]
  /\ name_to_code (_data self) = Some [("switch_1", "1")]
  /\ _state self = None
  /\ _failed_connect self = 4.
Proof. vm_compute. auto. Qed.

(** Data points that are no dict, for a device that has its maps: text
    is gone through by its characters, a list by its items, and the first
    of them ends the fetch. *)
Example translated_values :
  translated [("1", "switch_1")] (Json.JStr "") = Ok []
  /\ translated [("1", "switch_1")] (Json.JList []) = Ok []
  /\ translated [("1", "switch_1")] (Json.JStr "12") = Raise TypeError
  /\ translated [("1", "switch_1")] (Json.JStr "21") = Raise KeyError
  /\ translated [("1", "switch_1")] (Json.JList [Json.JInt 1])
     = Raise KeyError
  /\ translated [("1", "switch_1")] (Json.JList [Json.JList []])
     = Raise TypeError
  /\ translated [("1", "switch_1")] Json.JNull = Raise TypeError.
Proof. repeat split. Qed.

(** [n] fetches in a row that all end in a timeout. *)
Fixpoint time_out (n : nat) (self : TuyaDevice) : TuyaDevice :=
  match n with
  | O => self
  | S n' => time_out n' (snd (fetch_state self (Raise OSError)))
  end.

(** A reply whose data points are a number. *)
Definition odd_reply : reply := Ok (Some [("dps", Json.JInt 5)]).


(** ** Setting *)

Lemma get_set {V} (k k' : string) (v : V) (d : Dict.t V) :
  Dict.get k (Dict.set k' v d)
  = if String.eqb k k' then Some v else Dict.get k d.
Proof.
  induction d as [|[k0 v0] d IH]; simpl.
  - reflexivity.
  - destruct (String.eqb_spec k' k0) as [->|N]; simpl.
    + destruct (String.eqb k k0); reflexivity.
    + rewrite IH. destruct (String.eqb_spec k k0) as [->|]; [|reflexivity].
      destruct (String.eqb_spec k0 k'); [congruence|reflexivity].
Qed.

Lemma get_absent {V} (k : string) (d : Dict.t V) :
  ~ In k (Dict.keys d) -> Dict.get k d = None.
Proof.
  induction d as [|[k0 v0] d IH]; simpl; [reflexivity|].
  intros N. destruct (String.eqb_spec k k0) as [->|]; [tauto|].
  apply IH. tauto.
Qed.

(** [d.update(e)] merges: a key of [e] gets the value of [e], every other
    key keeps the value it had. *)
Lemma get_update {V} (k : string) (d e : Dict.t V) :
  NoDup (Dict.keys e) ->
  Dict.get k (Dict.update d e)
  = match Dict.get k e with
    | Some v => Some v
    | None => Dict.get k d
    end.
Proof.
  unfold Dict.update. revert d.
  induction e as [|[k' v] e IH]; intros d N; simpl; [reflexivity|].
  inversion N as [|? ? Nin N']; subst.
  rewrite (IH _ N'), get_set.
  destruct (String.eqb_spec k k') as [->|]; [|reflexivity].
  now rewrite (get_absent k' e Nin).
Qed.

Lemma attempts_two (net : Z -> reply) (self : TuyaDevice)
  (value : Dict.t Json.json) :
  attempts 2 0 net self value
  = match net 0 with
    | Ok _ => (true, merged self value, 1)
    | Raise ConnectionError =>
        match net 1 with
        | Ok _ => (true, merged self value, 2)
        | Raise _ => (false, self, 2)
        end
    | Raise _ => (false, self, 1)
    end.
Proof.
  cbn [attempts]. change (0 + 1) with 1.
  destruct (net 0) as [?|[]]; try reflexivity.
  change (1 + 1) with 2. destruct (net 1) as [?|[]]; reflexivity.
Qed.


(** The lamp after its first fetch. *)
Definition lamp_fetched : TuyaDevice := snd (fetch_state lamp lamp_reply).

Definition dim : Dict.t Json.json := [("bright_value", Json.JInt 64)].


(** A lamp that was registered and not discovered yet, and the plug after
    the fetch above: its maps are set, and it has no state. *)
Definition lamp_unseen : TuyaDevice :=
  new {| name := "lamp"; id := "0123456789abcdef012345";
         local_key := "0123456789abcdef"; device_type := "dj";
         attributes := ["switch_led"; "bright_value"];
         ip := Json.JNull; version := Json.JStr "3.3";
         code_to_name := None; name_to_code := None |}.

Definition plug_mapped : TuyaDevice := snd (fetch_state plug lamp_reply).

Definition switch_off : Dict.t Json.json := [("switch_1", Json.JBool false)].


End DeviceFacts.
(** ** Base64: decoding inverts encoding *)

Definition sextet_ok (v : Z) : bool :=
  match Base64.dec6 (Base64.enc6 v) with
  | Some w => (w =? v) && negb (Byte.eqb (Base64.enc6 v) Base64.pad_char)
  | None => false
  end.

Lemma sextets_ok : forallb (fun n => sextet_ok (Z.of_nat n)) (seq 0 64) = true.
Proof. vm_compute. reflexivity. Qed.

Lemma dec6_enc6 (v : Z) :
  0 <= v < 64 ->
  Base64.dec6 (Base64.enc6 v) = Some v
  /\ Byte.eqb (Base64.enc6 v) Base64.pad_char = false.
Proof.
  intros R. pose proof sextets_ok as H. rewrite forallb_forall in H.
  specialize (H (Z.to_nat v)). rewrite Z2Nat.id in H by lia.
  assert (I : In (Z.to_nat v) (seq 0 64)) by (apply in_seq; lia).
  apply H in I. unfold sextet_ok in I.
  destruct (Base64.dec6 (Base64.enc6 v)) as [w|]; [|discriminate].
  apply andb_true_iff in I. destruct I as [E N].
  apply Z.eqb_eq in E. subst w. split; [reflexivity|].
  now apply negb_true_iff.
Qed.

(** One alphabet character read by the decoder. *)
Lemma a2b_sextet (v : Z) (s : bytes) (quad_pos leftchar pads : Z)
  (out : bytes) :
  0 <= v < 64 ->
  Base64.a2b (Base64.enc6 v :: s) quad_pos leftchar pads out
  = if quad_pos =? 0 then Base64.a2b s 1 v 0 out
    else if quad_pos =? 1 then
      Base64.a2b s 2 (Z.land v 15) 0
        (Py.byte_of_Z (Z.lor (Z.shiftl leftchar 2) (Z.shiftr v 4)) :: out)
    else if quad_pos =? 2 then
      Base64.a2b s 3 (Z.land v 3) 0
        (Py.byte_of_Z (Z.lor (Z.shiftl leftchar 4) (Z.shiftr v 2)) :: out)
    else
      Base64.a2b s 0 0 0
        (Py.byte_of_Z (Z.lor (Z.shiftl leftchar 6) v) :: out).
Proof.
  intros R. destruct (dec6_enc6 v R) as [D N].
  cbn [Base64.a2b]. now rewrite N, D.
Qed.

(** The sextets of a group of three bytes, and the bytes the decoder puts
    together from them. *)
Definition first_ok (a b : byte) : bool :=
  let x := Py.Z_of_byte a in
  let y := Py.Z_of_byte b in
  let s1 := Z.shiftr x 2 in
  let s2 := Z.lor (Z.shiftl (Z.land x 3) 4) (Z.shiftr y 4) in
  let s2' := Z.shiftl (Z.land x 3) 4 in
  (0 <=? s1) && (s1 <? 64) && (0 <=? s2) && (s2 <? 64)
  && (0 <=? s2') && (s2' <? 64)
  && Byte.eqb (Py.byte_of_Z (Z.lor (Z.shiftl s1 2) (Z.shiftr s2 4))) a
  && Byte.eqb (Py.byte_of_Z (Z.lor (Z.shiftl s1 2) (Z.shiftr s2' 4))) a
  && (Z.land s2 15 =? Z.shiftr y 4).

Definition second_ok (b c : byte) : bool :=
  let y := Py.Z_of_byte b in
  let z := Py.Z_of_byte c in
  let s3 := Z.lor (Z.shiftl (Z.land y 15) 2) (Z.shiftr z 6) in
  let s3' := Z.shiftl (Z.land y 15) 2 in
  let s4 := Z.land z 63 in
  (0 <=? s3) && (s3 <? 64) && (0 <=? s3') && (s3' <? 64)
  && (0 <=? s4) && (s4 <? 64)
  && Byte.eqb
       (Py.byte_of_Z (Z.lor (Z.shiftl (Z.shiftr y 4) 4) (Z.shiftr s3 2))) b
  && Byte.eqb
       (Py.byte_of_Z (Z.lor (Z.shiftl (Z.shiftr y 4) 4) (Z.shiftr s3' 2))) b
  && (Z.land s3 3 =? Z.shiftr z 6)
  && Byte.eqb (Py.byte_of_Z (Z.lor (Z.shiftl (Z.shiftr z 6) 6) s4)) c.

Lemma first_ok_all (a b : byte) : first_ok a b = true.
Proof. revert a b. apply byte_cases2. vm_compute. reflexivity. Qed.

Lemma second_ok_all (b c : byte) : second_ok b c = true.
Proof. revert b c. apply byte_cases2. vm_compute. reflexivity. Qed.

Lemma first_facts (a b : byte) :
  let x := Py.Z_of_byte a in
  let y := Py.Z_of_byte b in
  let s1 := Z.shiftr x 2 in
  let s2 := Z.lor (Z.shiftl (Z.land x 3) 4) (Z.shiftr y 4) in
  let s2' := Z.shiftl (Z.land x 3) 4 in
  0 <= s1 < 64 /\ 0 <= s2 < 64 /\ 0 <= s2' < 64
  /\ Py.byte_of_Z (Z.lor (Z.shiftl s1 2) (Z.shiftr s2 4)) = a
  /\ Py.byte_of_Z (Z.lor (Z.shiftl s1 2) (Z.shiftr s2' 4)) = a
  /\ Z.land s2 15 = Z.shiftr y 4.
Proof.
  intros x y s1 s2 s2'. pose proof (first_ok_all a b) as F.
  unfold first_ok in F. fold x y s1 s2 s2' in F.
  repeat (apply andb_true_iff in F; destruct F as [F ?]).
  repeat match goal with
         | H : Byte.eqb _ _ = true |- _ => apply Byte.byte_dec_bl in H
         | H : (_ =? _) = true |- _ => apply Z.eqb_eq in H
         | H : (_ <=? _) = true |- _ => apply Z.leb_le in H
         | H : (_ <? _) = true |- _ => apply Z.ltb_lt in H
         end.
  repeat apply conj; assumption.
Qed.

Lemma second_facts (b c : byte) :
  let y := Py.Z_of_byte b in
  let z := Py.Z_of_byte c in
  let s3 := Z.lor (Z.shiftl (Z.land y 15) 2) (Z.shiftr z 6) in
  let s3' := Z.shiftl (Z.land y 15) 2 in
  let s4 := Z.land z 63 in
  0 <= s3 < 64 /\ 0 <= s3' < 64 /\ 0 <= s4 < 64
  /\ Py.byte_of_Z (Z.lor (Z.shiftl (Z.shiftr y 4) 4) (Z.shiftr s3 2)) = b
  /\ Py.byte_of_Z (Z.lor (Z.shiftl (Z.shiftr y 4) 4) (Z.shiftr s3' 2)) = b
  /\ Z.land s3 3 = Z.shiftr z 6
  /\ Py.byte_of_Z (Z.lor (Z.shiftl (Z.shiftr z 6) 6) s4) = c.
Proof.
  intros y z s3 s3' s4. pose proof (second_ok_all b c) as F.
  unfold second_ok in F. fold y z s3 s3' s4 in F.
  repeat (apply andb_true_iff in F; destruct F as [F ?]).
  repeat match goal with
         | H : Byte.eqb _ _ = true |- _ => apply Byte.byte_dec_bl in H
         | H : (_ =? _) = true |- _ => apply Z.eqb_eq in H
         | H : (_ <=? _) = true |- _ => apply Z.leb_le in H
         | H : (_ <? _) = true |- _ => apply Z.ltb_lt in H
         end.
  repeat apply conj; assumption.
Qed.

Lemma a2b_b64encode (s out : bytes) :
  Base64.a2b (Base64.b64encode s) 0 0 0 out = Ok (rev out ++ s).
Proof.
  remember (List.length s) as n eqn:L. revert s out L.
  induction n as [n IH] using lt_wf_ind. intros s out L.
  destruct s as [|a [|b [|c rest]]].
  - simpl. now rewrite app_nil_r.
  - destruct (first_facts a a) as (R1 & _ & R2 & _ & E & _).
    cbn [Base64.b64encode].
    rewrite a2b_sextet by exact R1. cbn [Z.eqb Pos.eqb].
    rewrite a2b_sextet by exact R2. cbn [Z.eqb Pos.eqb].
    rewrite E. reflexivity.
  - destruct (first_facts a b) as (R1 & R2 & _ & E & _ & L2).
    destruct (second_facts b b) as (_ & R3 & _ & _ & E2 & _).
    cbn [Base64.b64encode].
    rewrite a2b_sextet by exact R1. cbn [Z.eqb Pos.eqb].
    rewrite a2b_sextet by exact R2. cbn [Z.eqb Pos.eqb].
    rewrite a2b_sextet by exact R3. cbn [Z.eqb Pos.eqb].
    rewrite E, L2, E2. cbn [Base64.a2b].
    change (Byte.eqb Base64.pad_char Base64.pad_char) with true.
    cbn. rewrite <- !app_assoc. reflexivity.
  - destruct (first_facts a b) as (R1 & R2 & _ & E & _ & L2).
    destruct (second_facts b c) as (R3 & _ & R4 & E2 & _ & L3 & E3).
    cbn [Base64.b64encode].
    rewrite a2b_sextet by exact R1. cbn [Z.eqb Pos.eqb].
    rewrite a2b_sextet by exact R2. cbn [Z.eqb Pos.eqb].
    rewrite a2b_sextet by exact R3. cbn [Z.eqb Pos.eqb].
    rewrite a2b_sextet by exact R4. cbn [Z.eqb Pos.eqb].
    rewrite E, L2, E2, L3, E3.
    rewrite (IH (List.length rest)); [|simpl in L; lia|reflexivity].
    cbn [rev]. rewrite <- !app_assoc. reflexivity.
Qed.

Lemma b64decode_b64encode (s : bytes) :
  Base64.b64decode (Base64.b64encode s) = Ok s.
Proof. unfold Base64.b64decode. now rewrite a2b_b64encode. Qed.

(** ** The cipher wrapper *)

Section CipherFacts.

(** X1: the padding of the cipher wrapper adds between 1 and 16 bytes, the
    padded length is a multiple of 16, and unpadding gives the input
    back, for every byte string. *)
Theorem pad_unpad_roundtrip (s : bytes) :
  AESCipher._unpad (AESCipher._pad s) = Ok s
  /\ Py.len (AESCipher._pad s) mod 16 = 0
  /\ Py.len s < Py.len (AESCipher._pad s) <= Py.len s + 16.
Proof.
  split; [apply unpad_pad|].
  destruct (pad_length s) as [q Q].
  assert (L : (List.length s < List.length (AESCipher._pad s)
               <= List.length s + 16)%nat).
  { unfold AESCipher._pad, AESCipher.bs, Py.rep, Py.len.
    rewrite length_app, repeat_length.
    pose proof (Z.mod_pos_bound (Z.of_nat (List.length s)) 16 ltac:(lia)).
    lia. }
  unfold Py.len. rewrite Q in *. split; [|lia].
  replace (Z.of_nat (16 * S q)) with (Z.of_nat (S q) * 16) by lia.
  apply Z.mod_mul. lia.
Qed.

(** Decryption inverts encryption in either mode. *)
Lemma cipher_inverse (key : bytes) (s : string) (use_base64 : bool)
  (enc : bytes) :
  AESCipher.encrypt key (Text.encode_utf8 s) use_base64 = Ok enc ->
  AESCipher.decrypt key enc use_base64 = Ok s.
Proof.
  intros E. destruct use_base64.
  - unfold AESCipher.encrypt in E.
    destruct (AES.encrypt key _) as [ct|] eqn:A; [|discriminate].
    cbn [bind] in E. injection E as <-.
    assert (R : AESCipher.encrypt key (Text.encode_utf8 s) false = Ok ct).
    { unfold AESCipher.encrypt. now rewrite A. }
    destruct (decrypt_of_encrypt _ _ _ s R eq_refl) as [D _].
    unfold AESCipher.decrypt in *. now rewrite b64decode_b64encode.
  - now destruct (decrypt_of_encrypt _ _ _ s E eq_refl).
Qed.

(** X2: with a key of 16, 24 or 32 bytes, encrypting the UTF-8 bytes of a
    text succeeds and decrypting the outcome in the same mode, raw or
    Base64, returns the text. *)
Theorem cipher_roundtrip (key : bytes) (s : string) (use_base64 : bool) :
  AES.valid_key key = true ->
  exists enc,
    AESCipher.encrypt key (Text.encode_utf8 s) use_base64 = Ok enc
    /\ AESCipher.decrypt key enc use_base64 = Ok s.
Proof.
  intros V.
  destruct (encrypt_pad key (Text.encode_utf8 s) V) as [ct E].
  exists (if use_base64 then Base64.b64encode ct else ct).
  assert (R : AESCipher.encrypt key (Text.encode_utf8 s) use_base64
              = Ok (if use_base64 then Base64.b64encode ct else ct)).
  { unfold AESCipher.encrypt. rewrite E. now destruct use_base64. }
  split; [exact R|]. now apply cipher_inverse.
Qed.

Lemma cipher_roundtrip_witness :
  AES.valid_key (list_byte_of_string "0123456789abcdef") = true
  /\ exists enc,
       AESCipher.encrypt (list_byte_of_string "0123456789abcdef")
         (Text.encode_utf8 "{}") true = Ok enc
       /\ AESCipher.decrypt (list_byte_of_string "0123456789abcdef") enc true
          = Ok "{}".
Proof.
  split; [reflexivity|].
  apply (cipher_roundtrip (list_byte_of_string "0123456789abcdef") "{}" true).
  reflexivity.
Defined.

End CipherFacts.

(** ** Frames received *)

Section FrameFacts.

Import TuyaProtocol.

Lemma unpack_be32_short (n : nat) (data : bytes) :
  List.length data <> (4 * n)%nat ->
  Struct.unpack_be32 n data = Raise StructError.
Proof.
  revert data. induction n as [|n IH]; intros data L.
  - destruct data; [simpl in L; lia|reflexivity].
  - destruct data as [|a [|b [|c [|d data]]]]; try reflexivity.
    cbn [Struct.unpack_be32]. rewrite IH; [reflexivity|].
    simpl in L. lia.
Qed.

Lemma unpack_be32_words (a b c d : byte) (n : nat) (data : bytes)
  (vs : list Z) :
  Struct.unpack_be32 n data = Ok vs ->
  Struct.unpack_be32 (S n) (a :: b :: c :: d :: data)
  = Ok (Struct.be_value [a; b; c; d] :: vs).
Proof. intros E. cbn [Struct.unpack_be32]. now rewrite E. Qed.

(** The words of a byte string whose length is four times their number. *)
Lemma unpack_be32_nth (n : nat) (data : bytes) :
  List.length data = (4 * n)%nat ->
  exists vs,
    Struct.unpack_be32 n data = Ok vs
    /\ forall i, (i < n)%nat ->
         nth i vs 0
         = Struct.be_value (firstn 4 (skipn (4 * i) data)).
Proof.
  revert data. induction n as [|n IH]; intros data L.
  - destruct data; [|discriminate]. exists []. split; [reflexivity|].
    intros i Hi. lia.
  - destruct data as [|a [|b [|c [|d data]]]]; try (simpl in L; lia).
    destruct (IH data) as (vs & E & N); [simpl in L; lia|].
    exists (Struct.be_value [a; b; c; d] :: vs).
    split; [now apply unpack_be32_words|].
    intros [|i] Hi; [reflexivity|].
    replace (4 * S i)%nat with (4 + 4 * i)%nat by lia.
    cbn [nth]. rewrite N by lia. reflexivity.
Qed.

Lemma unpack_message_eq (data : bytes) :
  unpack_message data
  = if Py.len data <? 20 then Raise StructError
    else Ok {| seqno := Struct.be_value (Py.take 4 (Py.drop 4 data));
               cmd := Struct.be_value (Py.take 4 (Py.drop 8 data));
               payload := Py.slice_mid 20 8 data;
               retcode := Struct.be_value (Py.take 4 (Py.drop 16 data));
               crc := Struct.be_value (Py.take 4 (Py.last_n 8 data)) |}.
Proof.
  unfold unpack_message, Struct.calcsize_5I, Struct.calcsize_2I, Py.len.
  destruct (Z.ltb_spec (Z.of_nat (List.length data)) 20) as [S|S].
  - rewrite unpack_be32_short; [reflexivity|].
    unfold Py.take. rewrite length_firstn. lia.
  - destruct (unpack_be32_nth 5 (Py.take 20 data)) as (hs & -> & H).
    { unfold Py.take. rewrite length_firstn. lia. }
    destruct (unpack_be32_nth 2 (Py.last_n 8 data)) as (ts & -> & T).
    { unfold Py.last_n. rewrite length_skipn. lia. }
    cbn [bind]. rewrite (H 1%nat), (H 2%nat), (H 4%nat), (T 0%nat) by lia.
    unfold Py.take, Py.drop.
    change (Z.to_nat 20) with 20%nat. change (Z.to_nat 4) with 4%nat.
    change (Z.to_nat 8) with 8%nat. change (Z.to_nat 16) with 16%nat.
    cbn [Nat.mul Nat.add]. rewrite skipn_O.
    rewrite !skipn_firstn_comm, !firstn_firstn. reflexivity.
Qed.

(** X3: unpacking accepts every input of at least 20 bytes and fails with
    a struct error on every shorter one. The sequence number, command and
    return code are the second, third and fifth word of the first 20
    bytes, the checksum is the first word of the last 8 bytes, the payload
    is what lies between; the prefix, the length word, the checksum and
    the suffix are not compared with anything. *)
Theorem unpack_message_accepts_20_bytes (data : bytes) :
  unpack_message data
  = if Py.len data <? 20 then Raise StructError
    else Ok {| seqno := Struct.be_value (Py.take 4 (Py.drop 4 data));
               cmd := Struct.be_value (Py.take 4 (Py.drop 8 data));
               payload := Py.slice_mid 20 8 data;
               retcode := Struct.be_value (Py.take 4 (Py.drop 16 data));
               crc := Struct.be_value (Py.take 4 (Py.last_n 8 data)) |}.
Proof. apply unpack_message_eq. Qed.

(** The payload of a frame with a 20-byte header and an 8-byte trailer. *)
Lemma slice_mid_frame (header payload trailer : bytes) :
  List.length header = 20%nat -> List.length trailer = 8%nat ->
  Py.slice_mid 20 8 (header ++ payload ++ trailer) = payload.
Proof.
  intros H T. unfold Py.slice_mid, Py.drop_last.
  change (Z.to_nat 20) with 20%nat. change (Z.to_nat 8) with 8%nat.
  rewrite !length_app, H, T.
  replace (20 + (List.length payload + 8) - 8)%nat
    with (20 + List.length payload)%nat by lia.
  rewrite firstn_app, H, firstn_all2 by lia.
  replace (20 + List.length payload - 20)%nat with (List.length payload)
    by lia.
  rewrite firstn_app, firstn_all, Nat.sub_diag. cbn [firstn].
  rewrite app_nil_r, skipn_app, H, skipn_all2 by lia. reflexivity.
Qed.

(** What a frame resolves the future with, by the text of its payload. *)
Definition resolved (json_loads : string -> result Json.json) (s : string)
  : outcome :=
  match s with
  | EmptyString => Finished None
  | String _ _ =>
      match json_loads s with
      | Ok j => Finished (Some j)
      | Raise e => Failed e
      end
  end.

Lemma data_received_frame (json_loads : string -> result Json.json)
  (local_key version : string) (header payload trailer : bytes) :
  List.length header = 20%nat -> List.length trailer = 8%nat ->
  Events.data_received json_loads local_key version Pending
    (header ++ payload ++ trailer)
  = match _decode_payload payload local_key version with
    | Ok s => resolved json_loads s
    | Raise e => Failed e
    end.
Proof.
  intros H T.
  unfold Events.data_received, Events.decoded, TuyaProtocol.data_received.
  cbn [done]. rewrite unpack_message_eq.
  unfold Py.len. rewrite !length_app, H, T.
  destruct (Z.ltb_spec (Z.of_nat (20 + (List.length payload + 8))) 20);
    [lia|].
  cbn [bind TuyaProtocol.payload]. rewrite slice_mid_frame by assumption.
  destruct (_decode_payload payload local_key version) as [s|e];
    [|reflexivity].
  cbn [bind]. unfold resolved. destruct s; [reflexivity|].
  destruct (json_loads _); reflexivity.
Qed.

(** The decoder on a payload behind the version 3.3 header. *)
Lemma decode_payload_headed (ct : bytes) (local_key : string) :
  ct <> [] ->
  _decode_payload (PROTOCOL_33_HEADER ++ ct) local_key "3.3"
  = AESCipher.decrypt (Text.encode_utf8 local_key) ct false.
Proof.
  intros N.
  assert (A : Py.startswith (PROTOCOL_33_HEADER ++ ct)
                PROTOCOL_VERSION_BYTES_31 = false) by reflexivity.
  assert (B : Py.startswith (PROTOCOL_33_HEADER ++ ct)
                PROTOCOL_VERSION_BYTES_33 = true) by reflexivity.
  assert (C : Py.drop (Py.len PROTOCOL_33_HEADER) (PROTOCOL_33_HEADER ++ ct)
              = ct) by reflexivity.
  unfold _decode_payload. rewrite A, B, C.
  change (PROTOCOL_33_HEADER ++ ct)
    with ("3"%byte :: "."%byte :: "3"%byte :: Py.rep 12 x00 ++ ct).
  cbn [String.eqb Ascii.eqb Bool.eqb].
  destruct ct; [congruence|reflexivity].
Qed.

(** X4: a version 3.3 response whose payload is the 15-byte version
    header and the encrypted, padded UTF-8 bytes of a text resolves the
    pending future with the parsed text, with [None] for the empty text
    and with the parser's exception when the text does not parse,
    whatever the 20 bytes of the frame header and the 8 bytes of the
    trailer are. *)
Theorem response_33_resolves (json_loads : string -> result Json.json)
  (local_key s : string) (header trailer ct : bytes) :
  List.length header = 20%nat -> List.length trailer = 8%nat ->
  AESCipher.encrypt (Text.encode_utf8 local_key) (Text.encode_utf8 s) false
  = Ok ct ->
  Events.data_received json_loads local_key "3.3" Pending
    (header ++ (PROTOCOL_33_HEADER ++ ct) ++ trailer)
  = match s with
    | EmptyString => Finished None
    | String _ _ =>
        match json_loads s with
        | Ok j => Finished (Some j)
        | Raise e => Failed e
        end
    end.
Proof.
  intros H T E. rewrite data_received_frame by assumption.
  destruct (decrypt_of_encrypt _ _ _ s E eq_refl) as [D N].
  rewrite decode_payload_headed, D by assumption.
  reflexivity.
Qed.

(** A status reply as a device of version 3.3 sends it. *)
Definition reply_text : string := "{" ++ String (Text.chr 34) "dps"
  ++ String (Text.chr 34) ":{" ++ String (Text.chr 34) "1"
  ++ String (Text.chr 34) ":true}}".

Definition reply_ct : bytes :=
  Eval vm_compute in
    match AESCipher.encrypt (Text.encode_utf8 "0123456789abcdef")
            (Text.encode_utf8 reply_text) false with
    | Ok ct => ct
    | Raise _ => []
    end.

Lemma response_33_resolves_witness :
  List.length (Py.rep 20 x00) = 20%nat
  /\ List.length (Py.rep 8 xff) = 8%nat
  /\ AESCipher.encrypt (Text.encode_utf8 "0123456789abcdef")
       (Text.encode_utf8 reply_text) false = Ok reply_ct
  /\ Events.data_received (fun _ => Ok (Json.JObj [])) "0123456789abcdef"
       "3.3" Pending
       (Py.rep 20 x00 ++ (PROTOCOL_33_HEADER ++ reply_ct) ++ Py.rep 8 xff)
     = Finished (Some (Json.JObj [])).
Proof.
  assert (E : AESCipher.encrypt (Text.encode_utf8 "0123456789abcdef")
                (Text.encode_utf8 reply_text) false = Ok reply_ct)
    by (vm_compute; reflexivity).
  split; [reflexivity|]. split; [reflexivity|]. split; [exact E|].
  exact (response_33_resolves (fun _ => Ok (Json.JObj []))
           "0123456789abcdef" reply_text (Py.rep 20 x00) (Py.rep 8 xff)
           reply_ct eq_refl eq_refl E).
Defined.

(** X5: a payload that opens with the bytes of [3.1] is decoded by
    skipping those three bytes and the next sixteen, whatever they are,
    and decrypting the Base64 text behind them; the signature in the
    sixteen bytes is not checked, and the version the protocol object was
    made for plays no part. *)
Theorem decode_31_skips_signature (local_key version s : string)
  (signature enc : bytes) :
  List.length signature = 16%nat ->
  AESCipher.encrypt (Text.encode_utf8 local_key) (Text.encode_utf8 s) true
  = Ok enc ->
  _decode_payload (PROTOCOL_VERSION_BYTES_31 ++ signature ++ enc) local_key
    version = Ok s.
Proof.
  intros L E. apply cipher_inverse in E.
  assert (A : Py.startswith (PROTOCOL_VERSION_BYTES_31 ++ signature ++ enc)
                PROTOCOL_VERSION_BYTES_31 = true) by reflexivity.
  assert (B : Py.drop 16
                (Py.drop (Py.len PROTOCOL_VERSION_BYTES_31)
                   (PROTOCOL_VERSION_BYTES_31 ++ signature ++ enc)) = enc).
  { change (Py.drop (Py.len PROTOCOL_VERSION_BYTES_31)
              (PROTOCOL_VERSION_BYTES_31 ++ signature ++ enc))
      with (signature ++ enc).
    unfold Py.drop. change (Z.to_nat 16) with 16%nat.
    rewrite <- L, skipn_app, skipn_all, Nat.sub_diag. reflexivity. }
  unfold _decode_payload. rewrite A, B.
  change (PROTOCOL_VERSION_BYTES_31 ++ signature ++ enc)
    with ("3"%byte :: "."%byte :: "1"%byte :: signature ++ enc).
  exact E.
Qed.

Definition signed_enc : bytes :=
  Eval vm_compute in
    match AESCipher.encrypt (Text.encode_utf8 "0123456789abcdef")
            (Text.encode_utf8 reply_text) true with
    | Ok enc => enc
    | Raise _ => []
    end.

Lemma decode_31_skips_signature_witness :
  List.length (Py.rep 16 x00) = 16%nat
  /\ AESCipher.encrypt (Text.encode_utf8 "0123456789abcdef")
       (Text.encode_utf8 reply_text) true = Ok signed_enc
  /\ _decode_payload
       (PROTOCOL_VERSION_BYTES_31 ++ Py.rep 16 x00 ++ signed_enc)
       "0123456789abcdef" "3.3" = Ok reply_text.
Proof.
  assert (E : AESCipher.encrypt (Text.encode_utf8 "0123456789abcdef")
                (Text.encode_utf8 reply_text) true = Ok signed_enc)
    by (vm_compute; reflexivity).
  split; [reflexivity|]. split; [exact E|].
  exact (decode_31_skips_signature "0123456789abcdef" "3.3" reply_text
           (Py.rep 16 x00) signed_enc eq_refl E).
Defined.

End FrameFacts.

(** ** Requests built *)

Section RequestFacts.

Import TuyaProtocol.

Lemma pack_be32_inv (vs : list Z) (bs : bytes) :
  Struct.pack_be32 vs = Ok bs ->
  Forall (fun v => 0 <= v < 2 ^ 32) vs
  /\ bs = List.concat (map Struct.be32 vs).
Proof.
  revert bs. induction vs as [|v vs IH]; intros bs E.
  - injection E as <-. split; [constructor|reflexivity].
  - cbn [Struct.pack_be32] in E.
    destruct ((0 <=? v) && (v <? 2 ^ 32)) eqn:R; [|discriminate].
    destruct (Struct.pack_be32 vs) as [rest|]; [|discriminate].
    cbn [bind] in E. injection E as <-.
    destruct (IH rest eq_refl) as [F ->].
    apply andb_true_iff in R. destruct R as [R1 R2].
    apply Z.leb_le in R1. apply Z.ltb_lt in R2.
    split; [constructor; [lia|assumption]|reflexivity].
Qed.

(** A frame that was packed carries a sequence number of 32 bits, in its
    second word. *)
Lemma pack_message_seqno (msg : TuyaRequest) (frame : bytes) :
  _pack_message msg = Ok frame ->
  0 <= req_seqno msg < 2 ^ 32
  /\ Struct.be_value (Py.take 4 (Py.drop 4 frame)) = req_seqno msg.
Proof.
  unfold _pack_message. intros E.
  destruct (Struct.pack_be32 [_; _; _; _]) as [header|] eqn:H;
    [|discriminate].
  cbn [bind] in E.
  destruct (Struct.pack_be32 [_; _]) as [trailer|]; [|discriminate].
  cbn [bind] in E. injection E as <-.
  apply pack_be32_inv in H. destruct H as [F ->].
  inversion F as [|? ? _ F']; subst. inversion F' as [|? ? R _]; subst.
  split; [exact R|].
  rewrite <- (be_value_be32 _ R) at 2.
  destruct (Struct.be32 (req_seqno msg)) as [|a [|b [|c [|d [|? ?]]]]] eqn:B;
    try (apply (f_equal (@List.length _)) in B; rewrite be32_length in B;
         discriminate).
  cbn [List.concat map]. rewrite B.
  change (Struct.be32 PREFIX_VALUE) with [x00; x00; x55; xaa].
  reflexivity.
Qed.

Lemma pack_message_range (msg : TuyaRequest) :
  ~ 0 <= req_seqno msg < 2 ^ 32 -> _pack_message msg = Raise StructError.
Proof.
  intros N. destruct (_pack_message msg) as [frame|e] eqn:E.
  - apply pack_message_seqno in E. tauto.
  - unfold _pack_message in E. cbn [Struct.pack_be32] in E.
    change ((0 <=? PREFIX_VALUE) && (PREFIX_VALUE <? 2 ^ 32)) with true in E.
    cbv iota in E.
    destruct ((0 <=? req_seqno msg) && (req_seqno msg <? 2 ^ 32)) eqn:R.
    + apply andb_true_iff in R. destruct R as [R1 R2].
      apply Z.leb_le in R1. apply Z.ltb_lt in R2. lia.
    + cbn [bind] in E. congruence.
Qed.

Lemma unlisted_command (command : Z) :
  ~ In command (CONTROL_NEW :: supported) ->
  TUYA_COMMANDS_default command = None.
Proof.
  unfold TUYA_COMMANDS_default, supported. intros N.
  repeat match goal with
  | |- context [?c =? ?k] =>
      destruct (Z.eqb_spec c k) as [->|?]; [exfalso; apply N; simpl; tauto|]
  end.
  reflexivity.
Qed.

Lemma encode_payload_ok (command : Z) (local_key version : string)
  (payload : bytes) :
  In command supported ->
  (version = "3.3" -> AES.valid_key (Text.encode_utf8 local_key) = true) ->
  exists p,
    encode_payload (hex_byte command) command local_key version payload
    = Ok p.
Proof.
  intros S V. destruct (String.eqb_spec version "3.3") as [->|N].
  - rewrite encode_payload_33 by assumption.
    destruct (encrypt_pad _ payload (V eq_refl)) as [ct E].
    unfold AESCipher.encrypt. rewrite E. cbn [bind]. eauto.
  - rewrite encode_payload_other; [eauto|assumption|].
    now apply String.eqb_neq.
Qed.

(** X6: how building a request fails. A command the table does not list
    raises a key error; the table lists 13 and building it raises the
    not-implemented error; under version 3.3 a local key of another length
    than 16, 24 or 32 bytes raises the value error of the cipher; and when
    none of these applies, a sequence number outside 32 bits raises a
    struct error. *)
Theorem generate_payload_errors (command : Z) (id local_key version : string)
  (sequence_number : Z) (timestamp : string) (data : option Json.json) :
  let r := _generate_payload command id local_key version sequence_number
             timestamp data in
  (~ In command (CONTROL_NEW :: supported) -> r = Raise KeyError)
  /\ (command = CONTROL_NEW -> r = Raise NotImplementedError)
  /\ (In command supported -> version = "3.3" ->
      AES.valid_key (Text.encode_utf8 local_key) = false ->
      r = Raise AES.key_error)
  /\ (In command supported ->
      (version = "3.3" ->
       AES.valid_key (Text.encode_utf8 local_key) = true) ->
      ~ 0 <= sequence_number < 2 ^ 32 ->
      r = Raise StructError).
Proof.
  intros r. subst r. repeat apply conj.
  - intros N. unfold _generate_payload. now rewrite unlisted_command.
  - intros ->. reflexivity.
  - intros S -> V. rewrite generate_payload_supported by assumption.
    rewrite encode_payload_33 by assumption.
    unfold AESCipher.encrypt, AES.encrypt. now rewrite V.
  - intros S V N. rewrite generate_payload_supported by assumption.
    destruct (encode_payload_ok command local_key version
                (request_bytes command id timestamp data) S V) as [p ->].
    cbn [bind]. now apply pack_message_range.
Qed.

Lemma generate_payload_errors_witness :
  _generate_payload 99 "0123456789abcdef012345" "0123456789abcdef" "3.3" 1
    "1600000000" None = Raise KeyError
  /\ _generate_payload CONTROL_NEW "0123456789abcdef012345"
       "0123456789abcdef" "3.3" 1 "1600000000" None
     = Raise NotImplementedError
  /\ _generate_payload DP_QUERY "0123456789abcdef012345" "short" "3.3" 1
       "1600000000" None = Raise AES.key_error
  /\ _generate_payload DP_QUERY "0123456789abcdef012345" "0123456789abcdef"
       "3.3" (2 ^ 32) "1600000000" None = Raise StructError.
Proof.
  assert (S : In DP_QUERY supported) by (simpl; tauto).
  repeat apply conj.
  - apply (generate_payload_errors 99 "0123456789abcdef012345"
             "0123456789abcdef" "3.3" 1 "1600000000" None).
    unfold supported. simpl. intros [H|[H|[H|[H|[H|[H|[H|[H|[]]]]]]]]];
      discriminate H.
  - now apply (generate_payload_errors CONTROL_NEW "0123456789abcdef012345"
                 "0123456789abcdef" "3.3" 1 "1600000000" None).
  - now apply (generate_payload_errors DP_QUERY "0123456789abcdef012345"
                 "short" "3.3" 1 "1600000000" None).
  - apply (generate_payload_errors DP_QUERY "0123456789abcdef012345"
             "0123456789abcdef" "3.3" (2 ^ 32) "1600000000" None);
      [exact S | reflexivity | lia].
Defined.

(** X7: a protocol object takes the number after the class counter,
    whether or not its frame can be built. When the frame is built, that
    number lies within 32 bits and stands in the second word of the
    frame, so the counter is never wrapped around. *)
Theorem constructor_numbers_frame (sequence_number : Z)
  (id local_key version : string) (command : Z) (timestamp : string)
  (data : option Json.json) :
  fst (__init__ sequence_number id local_key version command timestamp data)
  = sequence_number + 1
  /\ forall frame,
       snd (__init__ sequence_number id local_key version command timestamp
              data) = Ok frame ->
       0 <= sequence_number + 1 < 2 ^ 32
       /\ Struct.be_value (Py.take 4 (Py.drop 4 frame)) = sequence_number + 1.
Proof.
  split; [reflexivity|]. unfold __init__. cbn [snd]. intros frame E.
  pose proof (generate_payload_unsupported _ _ _ _ _ _ _ _ E) as S.
  rewrite generate_payload_supported in E by assumption.
  destruct (encode_payload _ _ _ _ _) as [p|]; [|discriminate].
  cbn [bind] in E. now apply pack_message_seqno in E.
Qed.

Lemma constructor_numbers_frame_witness :
  exists frame,
    snd (__init__ 41 "0123456789abcdef012345" "0123456789abcdef" "3.3"
           DP_QUERY "1600000000" None) = Ok frame
    /\ 0 <= 41 + 1 < 2 ^ 32
    /\ Struct.be_value (Py.take 4 (Py.drop 4 frame)) = 41 + 1.
Proof.
  destruct (__init__ 41 "0123456789abcdef012345" "0123456789abcdef" "3.3"
              DP_QUERY "1600000000" None) as [c [frame|e]] eqn:E.
  - exists frame. split; [reflexivity|].
    apply (constructor_numbers_frame 41 "0123456789abcdef012345"
             "0123456789abcdef" "3.3" DP_QUERY "1600000000" None).
    now rewrite E.
  - vm_compute in E. discriminate E.
Defined.

(** X8: the future of an exchange is resolved by the first event of the
    connection, whichever it is, and no later event changes it. *)
Theorem first_event_decides (json_loads : string -> result Json.json)
  (local_key version : string) (ev : event) (events : list event) :
  Events.after json_loads local_key version (ev :: events)
  = Events.handle json_loads local_key version Pending ev
  /\ done (Events.handle json_loads local_key version Pending ev) = true.
Proof.
  assert (D : done (Events.handle json_loads local_key version Pending ev)
              = true).
  { destruct ev as [data|[e|]|]; cbn; try reflexivity.
    unfold Events.data_received. cbn [done].
    now destruct (Events.decoded _ _ _ _). }
  split; [|exact D]. unfold Events.after. cbn [fold_left].
  revert D. generalize (Events.handle json_loads local_key version Pending ev).
  induction events as [|ev' events IH]; intros o D; [reflexivity|].
  cbn [fold_left].
  replace (Events.handle json_loads local_key version o ev') with o;
    [now apply IH|].
  destruct ev'; cbn; unfold Events.data_received, Events.connection_lost,
    Events.eof_received; now rewrite D.
Qed.

End RequestFacts.

(** ** Spaces in a request *)

Section SpaceFacts.

Import Json.

(** A JSON value with the spaces taken out of its strings and keys. *)
Fixpoint squeeze (j : json) : json :=
  match j with
  | JStr s => JStr (Text.remove_spaces s)
  | JList l => JList (map squeeze l)
  | JObj d =>
      JObj ((fix items (d : list (string * json)) : list (string * json) :=
               match d with
               | [] => []
               | (k, v) :: d' =>
                   (Text.remove_spaces k, squeeze v) :: items d'
               end) d)
  | _ => j
  end.

Definition squeeze_items (d : dict) : dict :=
  match squeeze (JObj d) with
  | JObj d' => d'
  | _ => []
  end.

Lemma remove_spaces_idem (s : string) :
  Text.remove_spaces (Text.remove_spaces s) = Text.remove_spaces s.
Proof.
  induction s as [|c s IH]; [reflexivity|]. cbn [Text.remove_spaces].
  destruct (Ascii.eqb c " ") eqn:E; [exact IH|].
  cbn [Text.remove_spaces]. now rewrite E, IH.
Qed.

Lemma no_space_left (s : string) :
  ~ In " "%char (list_ascii_of_string (Text.remove_spaces s)).
Proof.
  induction s as [|c s IH]; [simpl; tauto|]. cbn [Text.remove_spaces].
  destruct (Ascii.eqb_spec c " ") as [->|N]; [exact IH|].
  cbn [list_ascii_of_string In]. tauto.
Qed.

Lemma escape_squeezed (s : string) :
  Text.remove_spaces (escape s)
  = Text.remove_spaces (escape (Text.remove_spaces s)).
Proof.
  induction s as [|c s IH]; [reflexivity|].
  cbn [escape Text.remove_spaces]. rewrite remove_spaces_app, IH.
  destruct (Ascii.eqb_spec c " ") as [->|N]; [reflexivity|].
  cbn [escape]. now rewrite remove_spaces_app.
Qed.

Lemma quote_squeezed (s : string) :
  Text.remove_spaces (quote s)
  = Text.remove_spaces (quote (Text.remove_spaces s)).
Proof.
  unfold quote.
  change (String (Text.chr 34) (escape s) ++ String (Text.chr 34) "")%string
    with (String (Text.chr 34) (escape s ++ String (Text.chr 34) ""))%string.
  change (String (Text.chr 34) (escape (Text.remove_spaces s))
          ++ String (Text.chr 34) "")%string
    with (String (Text.chr 34)
            (escape (Text.remove_spaces s) ++ String (Text.chr 34) ""))%string.
  cbn [Text.remove_spaces]. change (Ascii.eqb (Text.chr 34) " ") with false.
  cbv iota. now rewrite !remove_spaces_app, escape_squeezed.
Qed.

Lemma dumps_squeezed :
  forall j, Text.remove_spaces (dumps j)
            = Text.remove_spaces (dumps (squeeze j)).
Proof.
  fix IH 1. intros [|b|z|s|l|d]; try reflexivity.
  - apply quote_squeezed.
  - cbn [dumps squeeze]. rewrite !remove_spaces_app. f_equal. f_equal.
    induction l as [|x l IHl]; [reflexivity|].
    cbn [map]. destruct l as [|y l].
    + apply IH.
    + cbn [map] in *. rewrite !remove_spaces_app, IH, IHl. reflexivity.
  - cbn [dumps squeeze]. rewrite !remove_spaces_app. f_equal. f_equal.
    induction d as [|[k v] d IHd]; [reflexivity|].
    destruct d as [|[k' v'] d].
    + rewrite !remove_spaces_app, quote_squeezed, IH. reflexivity.
    + rewrite !remove_spaces_app, quote_squeezed, IH, IHd. reflexivity.
Qed.

(** X9: the text of a request holds no space, and it is the text that the
    same dict gives after every space is taken out of its strings and
    keys, at any depth: a space in a written value does not reach the
    device. *)
Theorem request_text_without_spaces (d : dict) :
  ~ In " "%char (list_ascii_of_string (TuyaProtocol.message_of d))
  /\ TuyaProtocol.message_of d = TuyaProtocol.message_of (squeeze_items d).
Proof.
  split; [apply no_space_left|].
  unfold TuyaProtocol.message_of, squeeze_items.
  apply (dumps_squeezed (JObj d)).
Qed.

End SpaceFacts.

(** ** The scanner over its lifetime *)

Section LifetimeFacts.

Import Scanner.

Variable json_loads : string -> result Json.json.

Lemma keys_set {V} (k : string) (v : V) (d : Dict.t V) :
  Dict.keys (Dict.set k v d)
  = if Dict.mem k d then Dict.keys d else Dict.keys d ++ [k].
Proof.
  induction d as [|[k0 v0] d IH]; [reflexivity|].
  cbn [Dict.set Dict.mem]. destruct (String.eqb k k0); [reflexivity|].
  cbn [Dict.keys map orb] in *. fold (Dict.keys (Dict.set k v d)).
  fold (Dict.keys d). rewrite IH. now destruct (Dict.mem k d).
Qed.

Lemma mem_keys {V} (k : string) (d : Dict.t V) :
  Dict.mem k d = true <-> In k (Dict.keys d).
Proof.
  induction d as [|[k0 v0] d IH]; [simpl; split; [discriminate|tauto]|].
  cbn [Dict.mem Dict.keys map In fst].
  destruct (String.eqb_spec k k0) as [->|N]; [simpl; tauto|].
  cbn [orb]. rewrite IH. unfold Dict.keys. split; [tauto|].
  intros [E|I]; [congruence|exact I].
Qed.

Lemma NoDup_set {V} (k : string) (v : V) (d : Dict.t V) :
  NoDup (Dict.keys d) -> NoDup (Dict.keys (Dict.set k v d)).
Proof.
  intros N. rewrite keys_set. destruct (Dict.mem k d) eqn:M; [exact N|].
  apply NoDup_app; [exact N|repeat constructor; simpl; tauto|].
  intros x I [<-|[]]. apply mem_keys in I. congruence.
Qed.

Lemma keys_remove {V} (k : string) (d : Dict.t V) :
  NoDup (Dict.keys d) ->
  NoDup (Dict.keys (Dict.remove k d))
  /\ ~ In k (Dict.keys (Dict.remove k d))
  /\ forall x, In x (Dict.keys (Dict.remove k d)) -> In x (Dict.keys d).
Proof.
  induction d as [|[k0 v0] d IH]; intros N.
  - simpl. repeat split; [constructor|tauto|tauto].
  - cbn [Dict.keys map fst] in N. inversion N as [|? ? Nin N']; subst.
    cbn [Dict.remove]. destruct (String.eqb_spec k k0) as [->|Ne].
    + repeat split; [exact N'|exact Nin|]. intros x I. now right.
    + destruct (IH N') as (A & B & C).
      cbn [Dict.keys map fst In]. repeat split.
      * constructor; [|exact A]. intros I. apply Nin. now apply C.
      * intros [E|I]; [congruence|now apply B].
      * intros x [E|I]; [now left|right; now apply C].
Qed.

(** A callback that is not registered is not reached. *)
Lemma called_absent (key : string) (cbs : Dict.t DeviceFoundCallback)
  (data : ScanResult) :
  ~ In key (Dict.keys cbs) -> called key cbs data = 0%nat.
Proof.
  unfold called. induction cbs as [|[k cb] cbs IH]; [reflexivity|].
  cbn [Dict.keys map fst In reached]. intros N.
  cbn [filter]. destruct (String.eqb_spec k key) as [->|_]; [tauto|].
  destruct (cb data); [apply IH; tauto|reflexivity].
Qed.

(** One datagram: the registry and the flag stay, the seen results grow by
    at most the result of the datagram, and the calls made are those to
    the callbacks reached by a result that was not seen. *)
Lemma datagram_received_eq (g : generation) (self : DeviceScanner)
  (data : bytes) (log : calls) :
  exists rs,
    (rs = [] \/ exists r, rs = [r])
    /\ (let '(_, self', log') :=
          datagram_received json_loads (decode_of g) self data log in
        (self', log')) = deliver_all self rs log.
Proof.
  unfold datagram_received.
  destruct (parse_datagram json_loads (decode_of g) data) as [r|e].
  - exists [r]. split; [eauto|]. cbn [deliver_all].
    destruct (deliver self r log) as [[o s] l]. reflexivity.
  - exists []. split; [auto|]. reflexivity.
Qed.

Lemma deliver_all_flag (rs : list ScanResult) (self : DeviceScanner)
  (log : calls) :
  is_running (fst (deliver_all self rs log)) = is_running self.
Proof.
  revert self log. induction rs as [|r rs IH]; intros self log;
    [reflexivity|].
  cbn [deliver_all]. rewrite deliver_spec.
  destruct (negb (ScanResult_hashable r) || seen_mem r (_seen self));
    rewrite IH; reflexivity.
Qed.

(** What stays true of a scanner made by [DeviceScanner()] whatever is
    done with it: the sockets are open exactly while a callback is
    registered, and the registry holds no key twice. *)
Definition steady (self : DeviceScanner) : Prop :=
  is_running self = negb (Nat.eqb (List.length (on_device_found self)) 0)
  /\ NoDup (Dict.keys (on_device_found self)).

Lemma act_steady (st : DeviceScanner * calls) (a : action) :
  steady (fst st) -> steady (fst (act json_loads st a)).
Proof.
  destruct st as [self log]. cbn [fst]. intros [R N].
  destruct a as [key cb|key|g data]; cbn [act fst].
  - split; [|now apply NoDup_set]. cbn [add_listener is_running
      on_device_found].
    destruct (Dict.set key cb (on_device_found self)) eqn:E; [|reflexivity].
    apply (f_equal Dict.keys) in E. rewrite keys_set in E.
    destruct (Dict.mem key (on_device_found self)) eqn:M.
    + apply mem_keys in M. rewrite E in M. destruct M.
    + now destruct (Dict.keys (on_device_found self)).
  - destruct (keys_remove key (on_device_found self) N) as (A & _ & _).
    unfold remove, with_registry. cbn [on_device_found].
    destruct (Dict.remove key (on_device_found self)) as [|kv d] eqn:E.
    + unfold _stop, with_running. cbn [is_running].
      destruct (is_running self); split; try reflexivity; constructor.
    + split; [|exact A]. cbn [is_running on_device_found]. rewrite R.
      destruct (on_device_found self); [discriminate E|reflexivity].
  - destruct (datagram_received_eq g self data log) as (rs & _ & E).
    destruct (datagram_received json_loads (decode_of g) self data log)
      as [[o s] l].
    cbn [fst].
    pose proof (deliver_all_flag rs self log) as F.
    pose proof (deliver_all_spec rs self log "" bulb) as [_ G].
    rewrite <- E in F, G. cbn [fst] in F, G.
    split; [now rewrite F, G|now rewrite G].
Qed.

Lemma run_steady (actions : list action) (self : DeviceScanner)
  (log : calls) :
  steady self -> steady (fst (run json_loads self log actions)).
Proof.
  unfold run. change self with (fst (self, log)) at 1.
  generalize (self, log). clear self log.
  induction actions as [|a actions IH]; intros st S; [exact S|].
  cbn [fold_left]. apply IH. now apply act_steady.
Qed.

(** X10: whatever listeners are added and removed and whatever datagrams
    arrive in between, a scanner is running exactly while its registry
    holds a callback: the first listener starts it, the removal of the
    last one stops it, and a listener added later starts it again. *)
Theorem running_while_listened (actions : list action) :
  let self := fst (run json_loads new [] actions) in
  is_running self = negb (Nat.eqb (List.length (on_device_found self)) 0).
Proof.
  cbv zeta. apply (run_steady actions new []).
  split; [reflexivity|constructor].
Qed.

(** The calls one action adds for [key] and [data]. *)
Lemma act_delivered (self : DeviceScanner) (log : calls) (a : action)
  (key : string) (data : ScanResult) :
  let st := act json_loads (self, log) a in
  (seen_mem data (_seen self) = true ->
   seen_mem data (_seen (fst st)) = true
   /\ delivered key data (snd st) = delivered key data log)
  /\ (~ In key (Dict.keys (on_device_found self)) ->
      match a with Add k _ => k <> key | _ => True end ->
      ~ In key (Dict.keys (on_device_found (fst st)))
      /\ delivered key data (snd st) = delivered key data log)
  /\ (NoDup (Dict.keys (on_device_found self)) ->
      NoDup (Dict.keys (on_device_found (fst st)))).
Proof.
  destruct a as [k cb|k|g bs]; cbn [act fst snd].
  - cbn [add_listener _seen on_device_found]. repeat apply conj.
    + auto.
    + intros N D. split; [|reflexivity]. rewrite keys_set.
      destruct (Dict.mem k (on_device_found self)); [exact N|].
      rewrite in_app_iff. simpl. tauto.
    + apply NoDup_set.
  - unfold remove, with_registry. cbn [on_device_found].
    assert (E : forall s, _seen (match Dict.remove k (on_device_found self)
                                 with [] => _stop s | _ :: _ => s end)
                          = _seen s
                /\ on_device_found
                     (match Dict.remove k (on_device_found self)
                      with [] => _stop s | _ :: _ => s end)
                   = on_device_found s).
    { intros s. destruct (Dict.remove k (on_device_found self));
        [|now split].
      unfold _stop, with_running. now destruct (is_running s). }
    match goal with |- context [_seen (match _ with [] => _stop ?s
                                         | _ :: _ => _ end)] =>
      destruct (E s) as [-> ->] end.
    cbn [_seen on_device_found]. repeat apply conj.
    + auto.
    + intros N _. split; [|reflexivity]. clear E.
      induction (on_device_found self) as [|[k0 v0] d IH]; [exact N|].
      cbn [Dict.remove]. cbn [Dict.keys map fst In] in N.
      destruct (String.eqb k k0); [tauto|].
      cbn [Dict.keys map fst In]. unfold Dict.keys in IH. tauto.
    + intros N. now destruct (keys_remove k (on_device_found self) N).
  - destruct (datagram_received_eq g self bs log) as (rs & S & E).
    destruct (datagram_received json_loads (decode_of g) self bs log)
      as [[o s] l].
    cbn [fst snd].
    pose proof (deliver_all_spec rs self log key data) as [D G].
    pose proof (deliver_all_seen rs self log data) as M.
    rewrite <- E in D, G, M. cbn [fst snd] in D, G, M.
    repeat apply conj.
    + intros T. rewrite M, D, T. cbn [negb orb]. rewrite andb_false_r.
      split; [reflexivity|]. lia.
    + intros N _. rewrite G, D. split; [exact N|].
      destruct (_ && _); [|lia].
      destruct (find (ScanResult_eqb data) rs) as [r|]; [|lia].
      rewrite (called_absent key _ r N). lia.
    + intros N. now rewrite G.
Qed.

(** X11: a result that the scanner has seen is not handed to any callback
    again, whatever listeners are added or removed and whatever datagrams
    arrive afterwards: the seen results are kept over stops and starts,
    and a listener added late is not told of them. *)
Theorem seen_result_not_delivered_again (self : DeviceScanner) (log : calls)
  (actions : list action) (key : string) (data : ScanResult) :
  seen_mem data (_seen self) = true ->
  delivered key data (snd (run json_loads self log actions))
  = delivered key data log
  /\ seen_mem data (_seen (fst (run json_loads self log actions))) = true.
Proof.
  unfold run. revert self log.
  induction actions as [|a actions IH]; intros self log S; [now split|].
  cbn [fold_left].
  destruct (act_delivered self log a key data) as ((S' & D) & _); [exact S|].
  destruct (act json_loads (self, log) a) as [self' log'].
  cbn [fst snd] in S', D. rewrite <- D. now apply IH.
Qed.

(** X12: once the closure returned for a key has been called, the callback
    of that key is not called again, whatever results arrive, unless a
    listener is added under the same key. *)
Theorem removed_listener_not_called (self : DeviceScanner) (log : calls)
  (actions : list action) (key : string) (data : ScanResult) :
  NoDup (Dict.keys (on_device_found self)) ->
  Forall (fun a => match a with Add k _ => k <> key | _ => True end)
    actions ->
  delivered key data (snd (run json_loads (remove self key) log actions))
  = delivered key data log.
Proof.
  intros N F.
  assert (A : ~ In key (Dict.keys (on_device_found (remove self key)))).
  { destruct (keys_remove key (on_device_found self) N) as (_ & B & _).
    unfold remove, with_registry. cbn [on_device_found].
    destruct (Dict.remove key (on_device_found self)) eqn:E.
    - unfold _stop, with_running. cbn [is_running on_device_found].
      destruct (is_running self); simpl; tauto.
    - exact B. }
  revert A. generalize (remove self key). clear self N. intros self.
  unfold run. revert self log.
  induction F as [|a actions Ha F IH]; intros self log A; [reflexivity|].
  cbn [fold_left].
  destruct (act_delivered self log a key data) as (_ & B & _).
  destruct (B A Ha) as [A' D].
  destruct (act json_loads (self, log) a) as [self' log'].
  cbn [fst snd] in A', D. rewrite <- D. now apply IH.
Qed.

(** ** Datagrams decoded *)

Lemma udpkey_valid : AES.valid_key udpkey = true.
Proof. vm_compute. reflexivity. Qed.

(** X13: an announcement is read from the bytes between the first 20 and
    the last 8 of its datagram, which are not looked at. On the port of
    the older generation those bytes are the UTF-8 text itself; on the
    other port they are the padded text encrypted under the fixed
    discovery key, and decoding gives the text back. What the text parses
    to is the result, or the error, of the datagram. *)
Theorem announcement_decoded (s : string) (header footer : bytes) :
  List.length header = 20%nat -> List.length footer = 8%nat ->
  parse_datagram json_loads decode_31
    (header ++ Text.encode_utf8 s ++ footer)
  = (j <- json_loads s ;; ScanResult_of j)
  /\ exists ct,
       AES.encrypt udpkey (AESCipher._pad (Text.encode_utf8 s)) = Ok ct
       /\ parse_datagram json_loads decode_33 (header ++ ct ++ footer)
          = (j <- json_loads s ;; ScanResult_of j).
Proof.
  intros H F. split.
  - unfold parse_datagram, decode_31.
    rewrite slice_mid_frame, decode_encode_utf8 by assumption. reflexivity.
  - destruct (encrypt_pad udpkey (Text.encode_utf8 s) udpkey_valid)
      as [ct E].
    exists ct. split; [exact E|].
    unfold parse_datagram, decode_33.
    rewrite slice_mid_frame by assumption.
    rewrite (decrypt_encrypt _ _ _ E). cbn [bind].
    rewrite unpad_pad. cbn [bind]. rewrite decode_encode_utf8. reflexivity.
Qed.

(** X14: on the port of the newer generation a datagram of at most 28
    bytes has nothing between its header and footer; unpadding the empty
    plaintext raises a type error, which leaves the handler before any
    callback is called and before the scanner changes. *)
Theorem short_datagram_33_raises (self : DeviceScanner) (data : bytes)
  (log : calls) :
  Py.len data <= 28 ->
  datagram_received json_loads decode_33 self data log
  = (Raise TypeError, self, log).
Proof.
  intros L. unfold datagram_received, parse_datagram.
  assert (E : Py.slice_mid 20 8 data = []).
  { unfold Py.slice_mid, Py.drop_last. apply skipn_all2.
    rewrite length_firstn. unfold Py.len in L.
    change (Z.to_nat 20) with 20%nat. change (Z.to_nat 8) with 8%nat. lia. }
  rewrite E. unfold decode_33, AES.decrypt. rewrite udpkey_valid.
  reflexivity.
Qed.

(** X15: adding a listener registers the callback before the ports are
    bound. While the scanner runs the ports are left alone; when it does
    not run and binding fails, the exception leaves [add_listener] with
    the callback registered and the scanner not running, so the caller
    holds no closure to remove it with. *)
Theorem add_listener_registers_first (self : DeviceScanner) (key : string)
  (cb : DeviceFoundCallback) (endpoints : result unit) :
  let r := add_listener_bind self key cb endpoints in
  Dict.get key (on_device_found (snd r)) = Some cb
  /\ _seen (snd r) = _seen self
  /\ (is_running self = true \/ endpoints = Ok tt ->
      r = (Ok tt, add_listener self key cb))
  /\ (forall e, is_running self = false -> endpoints = Raise e ->
      fst r = Raise e /\ is_running (snd r) = false).
Proof.
  cbv zeta. unfold add_listener_bind, _start, with_registry, with_running,
    add_listener.
  cbn [is_running on_device_found _seen].
  assert (G : Dict.get key (Dict.set key cb (on_device_found self))
              = Some cb) by (rewrite get_set; now rewrite String.eqb_refl).
  destruct (is_running self) eqn:R; cbn [snd fst on_device_found _seen].
  - split; [exact G|]. split; [reflexivity|]. split.
    + reflexivity.
    + intros e E. discriminate E.
  - destruct endpoints as [[]|e];
      cbn [snd fst on_device_found _seen is_running];
      (split; [exact G|]); (split; [reflexivity|]); split.
    + reflexivity.
    + intros e' _ E. discriminate E.
    + intros [E|E]; discriminate E.
    + intros e' _ E. injection E as <-. now split.
Qed.

End LifetimeFacts.

(** A parser that reads the bulb's announcement out of any text, and a
    datagram of the older generation that carries an empty text. *)
Definition bulb_json : Json.json :=
  Json.JObj [("ip", Json.JStr "192.168.1.20");
             ("gwId", Json.JStr "0123456789abcdef012345");
             ("active", Json.JInt 2); ("ability", Json.JInt 0);
             ("mode", Json.JInt 0); ("encrypt", Json.JBool true);
             ("productKey", Json.JStr "keyabcdefgh12345");
             ("version", Json.JStr "3.3")].

Definition announce : string -> result Json.json := fun _ => Ok bulb_json.

Definition empty_datagram : bytes := Py.rep 28 x00.

(** The scanner after its one consumer was told of the bulb. *)
Definition told : Scanner.DeviceScanner :=
  fst (Scanner.deliver_all one_consumer [bulb] []).

Lemma seen_result_not_delivered_again_witness :
  Scanner.seen_mem bulb (Scanner._seen told) = true
  /\ Scanner.delivered "late" bulb
       (snd (Scanner.run announce told []
               [Scanner.Add "late" quiet;
                Scanner.Receive Scanner.Gen31 empty_datagram]))
     = Scanner.delivered "late" bulb []
  /\ Scanner.seen_mem bulb
       (Scanner._seen
          (fst (Scanner.run announce told []
                  [Scanner.Add "late" quiet;
                   Scanner.Receive Scanner.Gen31 empty_datagram]))) = true.
Proof.
  split; [reflexivity|].
  apply (seen_result_not_delivered_again announce told []
           [Scanner.Add "late" quiet;
            Scanner.Receive Scanner.Gen31 empty_datagram] "late" bulb).
  reflexivity.
Defined.

Definition pair_of_consumers : Scanner.DeviceScanner :=
  Scanner.add_listener (Scanner.add_listener Scanner.new "first" quiet)
    "second" quiet.

Lemma removed_listener_not_called_witness :
  NoDup (Dict.keys (Scanner.on_device_found pair_of_consumers))
  /\ Scanner.delivered "first" bulb
       (snd (Scanner.run announce
               (Scanner.remove pair_of_consumers "first") []
               [Scanner.Receive Scanner.Gen31 empty_datagram]))
     = Scanner.delivered "first" bulb []
  /\ Scanner.delivered "second" bulb
       (snd (Scanner.run announce
               (Scanner.remove pair_of_consumers "first") []
               [Scanner.Receive Scanner.Gen31 empty_datagram])) = 1%nat.
Proof.
  assert (N : NoDup (Dict.keys (Scanner.on_device_found pair_of_consumers))).
  { repeat constructor; simpl; intuition discriminate. }
  split; [exact N|]. split; [|reflexivity].
  apply (removed_listener_not_called announce pair_of_consumers []
           [Scanner.Receive Scanner.Gen31 empty_datagram] "first" bulb N).
  repeat constructor.
Defined.

Lemma announcement_decoded_witness :
  List.length (Py.rep 20 x00) = 20%nat
  /\ List.length (Py.rep 8 xff) = 8%nat
  /\ Scanner.parse_datagram announce Scanner.decode_31
       (Py.rep 20 x00 ++ Text.encode_utf8 "{}" ++ Py.rep 8 xff) = Ok bulb
  /\ exists ct,
       AES.encrypt Scanner.udpkey (AESCipher._pad (Text.encode_utf8 "{}"))
       = Ok ct
       /\ Scanner.parse_datagram announce Scanner.decode_33
            (Py.rep 20 x00 ++ ct ++ Py.rep 8 xff) = Ok bulb.
Proof.
  split; [reflexivity|]. split; [reflexivity|].
  exact (announcement_decoded announce "{}" (Py.rep 20 x00) (Py.rep 8 xff)
           eq_refl eq_refl).
Defined.

Lemma short_datagram_33_raises_witness :
  Py.len empty_datagram <= 28
  /\ Scanner.datagram_received announce Scanner.decode_33 one_consumer
       empty_datagram [] = (Raise TypeError, one_consumer, []).
Proof.
  assert (L : Py.len empty_datagram <= 28) by (vm_compute; discriminate).
  split; [exact L|].
  exact (short_datagram_33_raises announce one_consumer empty_datagram [] L).
Defined.

(** A parser that tells two announcements apart by their text, and the
    datagram of the older generation that carries a text. *)
Definition bulb_moved_json : Json.json :=
  Json.JObj [("ip", Json.JStr "192.168.1.21");
             ("gwId", Json.JStr "0123456789abcdef012345");
             ("active", Json.JInt 2); ("ability", Json.JInt 0);
             ("mode", Json.JInt 0); ("encrypt", Json.JBool true);
             ("productKey", Json.JStr "keyabcdefgh12345");
             ("version", Json.JStr "3.3")].

Definition announce_by_text : string -> result Json.json :=
  fun s => if String.eqb s "moved" then Ok bulb_moved_json else Ok bulb_json.

Definition datagram_of (s : string) : bytes :=
  Py.rep 20 x00 ++ Text.encode_utf8 s ++ Py.rep 8 xff.

(** The same datagram received twice is one call of the consumer; two
    datagrams whose announcements differ in the ip are two. *)
Example same_datagram_received_twice :
  snd (Scanner.receive_all announce_by_text Scanner.decode_of one_consumer
         [(Scanner.Gen31, datagram_of "bulb");
          (Scanner.Gen31, datagram_of "bulb")] [])
  = [("only", bulb)].
Proof. vm_compute. reflexivity. Qed.

Example two_datagrams_differing_in_ip :
  snd (Scanner.receive_all announce_by_text Scanner.decode_of one_consumer
         [(Scanner.Gen31, datagram_of "bulb");
          (Scanner.Gen31, datagram_of "moved")] [])
  = [("only", bulb); ("only", bulb_moved)].
Proof. vm_compute. reflexivity. Qed.

(** ** Power, mode and type of a device *)

Section SwitchingFacts.

Import Device.

Variable order : PySet.t -> nat.

Lemma pop_some (s : PySet.t) :
  s <> [] -> exists c, PySet.pop order s = Some c /\ In c s.
Proof.
  intros N. unfold PySet.pop. destruct s as [|x s]; [congruence|].
  destruct (nth_error (x :: s) (order (x :: s) mod List.length (x :: s)))
    as [c|] eqn:E.
  - exists c. split; [reflexivity|]. now apply nth_error_In in E.
  - apply nth_error_None in E.
    pose proof (Nat.mod_upper_bound (order (x :: s))
                  (List.length (x :: s))) as U.
    simpl in *. lia.
Qed.

(** The body of the code properties, without the test on the attributes:
    an empty set of attributes meets every set of codes in nothing. *)
Lemma code_in_pop (codes : PySet.t) (self : TuyaDevice) :
  code_in order codes self
  = PySet.pop order (PySet.inter codes (_attributes self)).
Proof.
  unfold code_in. destruct (_attributes self) eqn:A; [|reflexivity].
  unfold PySet.inter. induction codes as [|c codes IH]; [reflexivity|].
  cbn [filter PySet.mem existsb]. exact IH.
Qed.

Lemma inter_member (codes attributes : PySet.t) (c : string) :
  In c (PySet.inter codes attributes) <->
  In c codes /\ PySet.mem c attributes = true.
Proof. unfold PySet.inter. apply filter_In. Qed.

(** X16: a power write is made for a device that registers switch_led or
    switch_1, under a code the device registers, whichever element the
    set operation hands out; a device that registers neither gets the
    value error. When both codes are registered, the code written is the
    one the iteration order of the set gives, and both occur. *)
Theorem set_power_state_code (self : TuyaDevice) (value : bool) :
  (PySet.mem SWITCH_LED (_attributes self) = false ->
   PySet.mem SWITCH_1 (_attributes self) = false ->
   set_power_state order self value = Raise power_unsupported)
  /\ (PySet.mem SWITCH_LED (_attributes self) = true
      \/ PySet.mem SWITCH_1 (_attributes self) = true ->
      exists code,
        set_power_state order self value = Ok [(code, Json.JBool value)]
        /\ PySet.mem code (_attributes self) = true
        /\ (code = SWITCH_LED \/ code = SWITCH_1))
  /\ (PySet.mem SWITCH_LED (_attributes self) = true ->
      PySet.mem SWITCH_1 (_attributes self) = true ->
      set_power_state (fun _ => 0%nat) self value
      = Ok [(SWITCH_LED, Json.JBool value)]
      /\ set_power_state (fun _ => 1%nat) self value
         = Ok [(SWITCH_1, Json.JBool value)]).
Proof.
  split; [|split].
  - intros A B. unfold set_power_state, power_code.
    rewrite code_in_pop. unfold PySet.inter, TURN_ON_CODES.
    cbn [filter]. now rewrite A, B.
  - intros H. unfold set_power_state, power_code. rewrite code_in_pop.
    destruct (pop_some (PySet.inter TURN_ON_CODES (_attributes self)))
      as (c & -> & I).
    { unfold PySet.inter, TURN_ON_CODES. cbn [filter].
      destruct H as [-> | ->]; [discriminate|].
      destruct (PySet.mem SWITCH_LED (_attributes self)); discriminate. }
    apply inter_member in I. destruct I as [[<-|[<-|[]]] M].
    + exists SWITCH_LED. auto.
    + exists SWITCH_1. auto.
  - intros A B. unfold set_power_state, power_code, code_in, PySet.inter,
      TURN_ON_CODES.
    cbn [filter]. rewrite A, B.
    destruct (_attributes self); [discriminate A|]. split; reflexivity.
Qed.

Lemma update_not_empty {V} (d e : Dict.t V) :
  d <> [] -> Dict.update d e <> [].
Proof.
  unfold Dict.update. revert d.
  induction e as [|[k v] e IH]; intros d N; [exact N|].
  cbn [fold_left]. apply IH. cbn [fst snd].
  destruct d as [|[k0 v0] d]; [congruence|].
  cbn [Dict.set]. destruct (String.eqb k k0); discriminate.
Qed.

(** A write that [set_state] reports as made was merged into the state. *)
Lemma set_state_true (self self' : TuyaDevice) (value : Dict.t Json.json)
  (net : Z -> reply) (sent : Z) :
  set_state self value net = (Ok true, self', sent) ->
  self' = merged self value.
Proof.
  unfold set_state.
  destruct (negb (Json.truthy (ip (_data self)))); [discriminate|].
  destruct (negb (truthy_dict (name_to_code (_data self)))); [discriminate|].
  destruct (name_to_code (_data self)) as [map|]; [|discriminate].
  destruct (rekey map value []) as [status|]; [|discriminate].
  change (Z.to_nat (max_attempt - 0)) with 2%nat. rewrite attempts_two.
  destruct (net 0) as [?|[]]; try (intros E; now inversion E).
  destruct (net 1) as [?|[]]; intros E; now inversion E.
Qed.

(** X17: after a fetch gave the device a state, a power write that
    [set_state] reports as made is what [power_state] reads next, before
    any further fetch; without a fetched state the read stays [False]
    whatever was written. *)
Theorem power_written_is_read_back (self self' : TuyaDevice) (value : bool)
  (dps : Dict.t Json.json) (net : Z -> reply) (sent : Z) :
  set_power_state order self value = Ok dps ->
  set_state self dps net = (Ok true, self', sent) ->
  power_state order self'
  = if truthy_dict (_state self) then Json.JBool value else Json.JBool false.
Proof.
  intros W S. apply set_state_true in S. subst self'.
  assert (C : exists code,
             power_code order self = Some code
             /\ truthy_str (Some code) = true
             /\ dps = [(code, Json.JBool value)]).
  { unfold set_power_state in W.
    destruct (power_code order self) as [code|]; [|discriminate].
    exists code. split; [reflexivity|].
    destruct (truthy_str (Some code)); [|discriminate].
    split; [reflexivity|]. cbn [code_is] in W.
    destruct (String.eqb_spec code SWITCH_LED) as [E|_];
      [injection W as <-; now rewrite E|].
    destruct (String.eqb_spec code SWITCH_1) as [E|_];
      [injection W as <-; now rewrite E|discriminate]. }
  destruct C as (code & P & T & ->).
  assert (P' : power_code order (merged self [(code, Json.JBool value)])
               = Some code).
  { rewrite <- P. unfold power_code, code_in, merged.
    destruct (truthy_dict (_state self)); [|reflexivity].
    destruct (_state self); reflexivity. }
  unfold power_state. rewrite P'. unfold state_value. rewrite T.
  unfold merged.
  destruct (_state self) as [[|kv state]|] eqn:St; cbn [truthy_dict];
    try (rewrite St; reflexivity).
  cbn [_state with_state andb].
  pose proof (update_not_empty (kv :: state) [(code, Json.JBool value)]
                ltac:(discriminate)) as N.
  destruct (Dict.update (kv :: state) [(code, Json.JBool value)])
    as [|kv' state'] eqn:U; [congruence|].
  cbn [truthy_dict]. rewrite <- U, get_update.
  - cbn [Dict.get]. now rewrite String.eqb_refl.
  - repeat constructor. simpl. tauto.
Qed.

End SwitchingFacts.

Lemma power_written_is_read_back_witness :
  Device.set_power_state (fun _ => 0%nat) lamp_fetched false
  = Ok [("switch_led", Json.JBool false)]
  /\ Device.set_state lamp_fetched [("switch_led", Json.JBool false)]
       (fun _ => Ok None)
     = (Ok true,
        Device.merged lamp_fetched [("switch_led", Json.JBool false)], 1)
  /\ Device.power_state (fun _ => 0%nat) lamp_fetched = Json.JBool true
  /\ Device.power_state (fun _ => 0%nat)
       (Device.merged lamp_fetched [("switch_led", Json.JBool false)])
     = Json.JBool false.
Proof.
  split; [reflexivity|]. split; [reflexivity|]. split; [reflexivity|].
  exact (power_written_is_read_back (fun _ => 0%nat) lamp_fetched
           (Device.merged lamp_fetched [("switch_led", Json.JBool false)])
           false [("switch_led", Json.JBool false)] (fun _ => Ok None) 1
           eq_refl eq_refl).
Defined.

(** ** The maps of [build_map] *)

Section MapFacts.

Import Device.

Variable order : PySet.t -> nat.

(** The names the integration gives the types and modes, and its ranges. *)
Variables device_type_unknown device_type_light device_type_switch : string.
Variables light_mode_temperature light_mode_color : string.
Variables range_brightness range_color_temperature : ValueRange.
Variable range_hsv : ValueRange * ValueRange * ValueRange.

Definition built : maps :=
  build_map device_type_unknown device_type_light device_type_switch
    light_mode_temperature light_mode_color range_brightness range_hsv
    range_color_temperature.

(** X18: the type of a device is the integration's name for a light when
    the category is dj, its name for a switch when it is cz, and its name
    for an unknown type for every other category; the property raises for
    no category. *)
Theorem device_type_falls_back (self : TuyaDevice) :
  device_type_of built self
  = Ok (if String.eqb (device_type (_data self)) TUYA_TYPE_LIGHT
        then device_type_light
        else if String.eqb (device_type (_data self)) TUYA_TYPE_SWITCH
             then device_type_switch
             else device_type_unknown).
Proof.
  unfold device_type_of, built, build_map.
  cbn [_map_from_tuya device_types]. 
  change (Dict.of_items [(TUYA_TYPE_LIGHT, device_type_light);
                         (TUYA_TYPE_SWITCH, device_type_switch);
                         ("", device_type_unknown)])
    with [(TUYA_TYPE_LIGHT, device_type_light);
          (TUYA_TYPE_SWITCH, device_type_switch);
          ("", device_type_unknown)].
  unfold Dict.item. cbn [Dict.get]. 
  change (String.eqb "" TUYA_TYPE_LIGHT) with false.
  change (String.eqb "" TUYA_TYPE_SWITCH) with false.
  change (String.eqb "" "") with true. cbn [bind].
  destruct (String.eqb (device_type (_data self)) TUYA_TYPE_LIGHT);
    [reflexivity|].
  destruct (String.eqb (device_type (_data self)) TUYA_TYPE_SWITCH);
    [reflexivity|].
  now destruct (String.eqb (device_type (_data self)) "").
Qed.

Lemma work_mode_code_registered (self : TuyaDevice) :
  PySet.mem WORK_MODE (_attributes self) = true ->
  work_mode_code order self = Some WORK_MODE.
Proof.
  intros M. unfold work_mode_code, code_in, PySet.inter, WORK_MODES.
  cbn [filter]. rewrite M.
  destruct (_attributes self); [discriminate M|]. apply pop_singleton.
Qed.

Lemma light_modes_to_tuya :
  light_modes (_map_to_tuya built)
  = if String.eqb light_mode_color light_mode_temperature
    then [(light_mode_temperature, TUYA_COLOR_MODE)]
    else [(light_mode_temperature, TUYA_TEMP_MODE);
          (light_mode_color, TUYA_COLOR_MODE)].
Proof.
  unfold built, build_map. cbn [_map_to_tuya light_modes].
  unfold inverted.
  change (Dict.of_items [(TUYA_TEMP_MODE, light_mode_temperature);
                         (TUYA_COLOR_MODE, light_mode_color)])
    with [(TUYA_TEMP_MODE, light_mode_temperature);
          (TUYA_COLOR_MODE, light_mode_color)].
  unfold Dict.of_items, Dict.update. cbn [map fold_left fst snd Dict.set].
  now destruct (String.eqb light_mode_color light_mode_temperature).
Qed.

(** X19: for a device that registers work_mode, the mode written for the
    integration's colour mode is colour, the mode written for its
    temperature mode is white when the two names differ, and any other
    name raises a key error; a stored colour or white is read as the
    integration's name of that mode and any other text as [None]. So a
    mode that was written and stored is the mode that is read. *)
Theorem color_mode_names (self : TuyaDevice) :
  PySet.mem WORK_MODE (_attributes self) = true ->
  set_color_mode order built self light_mode_color
  = Ok (Some [(WORK_MODE, Json.JStr TUYA_COLOR_MODE)])
  /\ (light_mode_temperature <> light_mode_color ->
      set_color_mode order built self light_mode_temperature
      = Ok (Some [(WORK_MODE, Json.JStr TUYA_TEMP_MODE)]))
  /\ (forall mode,
        mode <> light_mode_temperature -> mode <> light_mode_color ->
        set_color_mode order built self mode = Raise KeyError)
  /\ (forall state tuya_mode,
        _state self = Some state ->
        Dict.get WORK_MODE state = Some (Json.JStr tuya_mode) ->
        color_mode order built self
        = Ok (if String.eqb tuya_mode TUYA_TEMP_MODE
              then Some light_mode_temperature
              else if String.eqb tuya_mode TUYA_COLOR_MODE
                   then Some light_mode_color
                   else None)).
Proof.
  intros M. pose proof (work_mode_code_registered self M) as C.
  unfold set_color_mode, color_mode. rewrite C, light_modes_to_tuya.
  change (truthy_str (Some WORK_MODE) && code_is (Some WORK_MODE) WORK_MODE)
    with true. cbv iota.
  split; [|split; [|split]].
  - destruct (String.eqb_spec light_mode_color light_mode_temperature)
      as [->|N]; unfold Dict.item; cbn [Dict.get].
    + now rewrite String.eqb_refl.
    + destruct (String.eqb_spec light_mode_color light_mode_temperature);
        [congruence|].
      now rewrite String.eqb_refl.
  - intros N.
    destruct (String.eqb_spec light_mode_color light_mode_temperature);
      [congruence|].
    unfold Dict.item. cbn [Dict.get]. now rewrite String.eqb_refl.
  - intros mode N1 N2. unfold Dict.item.
    destruct (String.eqb light_mode_color light_mode_temperature);
      cbn [Dict.get];
      destruct (String.eqb_spec mode light_mode_temperature);
      try congruence; try reflexivity.
    destruct (String.eqb_spec mode light_mode_color); [congruence|].
    reflexivity.
  - intros state tuya_mode S G. unfold state_value. rewrite S.
    change (truthy_str (Some WORK_MODE)) with true.
    destruct state as [|kv state]; [discriminate G|].
    cbn [truthy_dict andb]. rewrite G.
    unfold built, build_map. cbn [_map_from_tuya light_modes].
    change (Dict.of_items [(TUYA_TEMP_MODE, light_mode_temperature);
                           (TUYA_COLOR_MODE, light_mode_color)])
      with [(TUYA_TEMP_MODE, light_mode_temperature);
            (TUYA_COLOR_MODE, light_mode_color)].
    cbn [Dict.get].
    destruct (String.eqb tuya_mode TUYA_TEMP_MODE); [reflexivity|].
    destruct (String.eqb tuya_mode TUYA_COLOR_MODE); reflexivity.
Qed.

(** X20: a brightness write carries bright_value and a value of at least
    25. With the integration's range equal to the device's, as the
    integration configures it, the value written for a device that
    registers bright_value and not bright_value_v2 is the larger of 25
    and the value asked for: small values are raised to 25 and no value
    is lowered, also one above 255. *)
Theorem set_brightness_floor (cfg : maps) (self : TuyaDevice) (value : Z) :
  (forall dps, set_brightness order cfg self value = Ok (Some dps) ->
     exists v, dps = [(BRIGHT_VALUE, Json.JInt v)] /\ 25 <= v)
  /\ (Device.range_brightness (_map_from_tuya cfg)
      = Device.range_brightness (_map_to_tuya cfg) ->
      PySet.mem BRIGHT_VALUE (_attributes self) = true ->
      PySet.mem BRIGHT_VALUE_V2 (_attributes self) = false ->
      set_brightness order cfg self value
      = Ok (Some [(BRIGHT_VALUE, Json.JInt (Z.max 25 value))])).
Proof.
  split.
  - intros dps. unfold set_brightness.
    destruct (_ && _); [|discriminate].
    destruct (scale_value _ _ _) as [v|]; [|discriminate].
    cbn [bind]. intros E. injection E as <-. exists (Z.max 25 v).
    split; [reflexivity|lia].
  - intros R M1 M2. unfold set_brightness, brightness_code, code_in,
      PySet.inter, BRIGHTNESS_CODES.
    cbn [filter]. rewrite M1, M2.
    destruct (_attributes self); [discriminate M1|].
    rewrite pop_singleton.
    change (truthy_str (Some BRIGHT_VALUE)
            && code_is (Some BRIGHT_VALUE) BRIGHT_VALUE) with true.
    cbv iota. unfold scale_value. rewrite R, ValueRange_eqb_refl.
    reflexivity.
Qed.

(** X21: while a device has no state, or an empty one, every reading is
    absent: brightness, colour temperature and mode are [None] and the
    power state is [False]; a device is unavailable as long as it has no
    ip or no state, and a new device has neither a state nor failures
    counted. *)
Theorem no_state_no_readings (cfg : maps) (self : TuyaDevice)
  (data : DeviceData) :
  (truthy_dict (_state self) = false ->
   brightness order cfg self = Ok None
   /\ color_temp order cfg self = Ok None
   /\ color_mode order cfg self = Ok None
   /\ power_state order self = Json.JBool false)
  /\ (is_available self = true <->
      ip (_data self) <> Json.JNull /\ _state self <> None)
  /\ _state (new data) = None
  /\ is_available (new data) = false
  /\ assumed_state (new data) = false.
Proof.
  split; [|split; [|split; [|split]]]; try reflexivity.
  - intros T.
    assert (V : forall code, state_value self code = None).
    { intros code. unfold state_value. rewrite T.
      now rewrite andb_false_r. }
    unfold brightness, color_temp, color_mode, power_state.
    now rewrite !V.
  - unfold is_available.
    destruct (ip (_data self)), (_state self); split;
      try discriminate; try (intros [A B]; congruence);
      intros _; split; discriminate.
  - unfold is_available, new. cbn [_data _state].
    now destruct (ip data).
Qed.

End MapFacts.

(** ** The code maps *)

Section CodeMapFacts.

Import Device.

Lemma set_fresh {V} (k : string) (v : V) (d : Dict.t V) :
  ~ In k (Dict.keys d) -> Dict.set k v d = d ++ [(k, v)].
Proof.
  induction d as [|[k0 v0] d IH]; [reflexivity|].
  cbn [Dict.keys map fst In Dict.set]. intros N.
  destruct (String.eqb_spec k k0) as [->|_]; [tauto|].
  cbn [app]. f_equal. apply IH. unfold Dict.keys. tauto.
Qed.

Lemma update_fresh {V} (e d : Dict.t V) :
  NoDup (Dict.keys d ++ Dict.keys e) -> Dict.update d e = d ++ e.
Proof.
  unfold Dict.update. revert d.
  induction e as [|[k v] e IH]; intros d N;
    [now rewrite app_nil_r|].
  cbn [fold_left fst snd]. cbn [Dict.keys map fst] in N.
  rewrite set_fresh.
  - rewrite IH.
    + now rewrite <- app_assoc.
    + unfold Dict.keys in *. rewrite map_app, <- app_assoc. exact N.
  - apply NoDup_remove_2 in N. rewrite in_app_iff in N. tauto.
Qed.

(** A dict display or comprehension over distinct keys holds its items as
    they were given. *)
Lemma of_items_distinct {V} (items : list (string * V)) :
  NoDup (map fst items) -> Dict.of_items items = items.
Proof. intros N. unfold Dict.of_items. now rewrite update_fresh. Qed.

Lemma zip_codes (codes names : list string) :
  map fst (zip codes names) = firstn (List.length names) codes
  /\ map snd (zip codes names) = firstn (List.length codes) names.
Proof.
  revert names. induction codes as [|c codes IH]; intros [|a names];
    try (split; reflexivity).
  destruct (IH names) as [A B]. cbn [zip map fst snd List.length firstn].
  now rewrite A, B.
Qed.

Lemma NoDup_firstn {A} (n : nat) (l : list A) :
  NoDup l -> NoDup (firstn n l).
Proof.
  intros N. rewrite <- (firstn_skipn n l) in N.
  now apply NoDup_app_remove_r in N.
Qed.

Lemma NoDup_app_disjoint {A} (l1 l2 : list A) (x : A) :
  NoDup (l1 ++ l2) -> In x l2 -> ~ In x l1.
Proof.
  induction l1 as [|y l1 IH]; [tauto|].
  cbn [app]. intros N I [E|I1].
  - subst y. apply NoDup_cons_iff in N. destruct N as [N _].
    apply N. rewrite in_app_iff. tauto.
  - apply NoDup_cons_iff in N. destruct N as [_ N]. now apply (IH N I).
Qed.

Lemma Forall2_weaken {A B} (R R' : A -> B -> Prop) (l1 : list A)
  (l2 : list B) :
  Forall2 R l1 l2 -> (forall x y, In x l1 -> R x y -> R' x y) ->
  Forall2 R' l1 l2.
Proof.
  induction 1 as [|x y l1 l2 H F IH]; intros W; constructor.
  - apply W; [now left|exact H].
  - apply IH. intros x' y' I. apply W. now right.
Qed.

(** The code at each position is mapped to the name at that position. *)
Lemma get_zip (codes names : list string) :
  NoDup codes -> (List.length codes <= List.length names)%nat ->
  Forall2 (fun c a => Dict.get c (zip codes names) = Some a) codes
    (firstn (List.length codes) names).
Proof.
  revert names. induction codes as [|c codes IH]; intros names N L;
    [constructor|].
  destruct names as [|a names]; [simpl in L; lia|].
  cbn [List.length firstn zip]. constructor.
  - cbn [Dict.get]. now rewrite String.eqb_refl.
  - apply NoDup_cons_iff in N. destruct N as [Nin N].
    apply (Forall2_weaken
             (fun c' a' => Dict.get c' (zip codes names) = Some a')).
    + apply IH; [exact N|simpl in L; lia].
    + intros c' a' I G. cbn [Dict.get].
      destruct (String.eqb_spec c' c) as [->|_]; [tauto|exact G].
Qed.

(** The translation of a dict whose keys all have a name, the names
    distinct: the values under the names, in the order of the dict. *)
Lemma rekey_named (m : Dict.t string) (d : Dict.t Json.json)
  (names : list string) (acc : Dict.t Json.json) :
  Forall2 (fun c a => Dict.get c m = Some a) (Dict.keys d) names ->
  NoDup (Dict.keys acc ++ names) ->
  rekey m d acc = Ok (acc ++ combine names (map snd d)).
Proof.
  revert names acc. induction d as [|[k v] d IH]; intros names acc F N.
  - inversion F; subst. cbn [rekey combine]. now rewrite app_nil_r.
  - cbn [Dict.keys map fst] in F. inversion F as [|? a ? names' G F']; subst.
    cbn [rekey]. unfold Dict.item. rewrite G. cbn [bind].
    rewrite set_fresh.
    + rewrite (IH names').
      * cbn [map snd combine]. now rewrite <- app_assoc.
      * exact F'.
      * unfold Dict.keys in *. rewrite map_app, <- app_assoc. exact N.
    + apply NoDup_remove_2 in N. rewrite in_app_iff in N. tauto.
Qed.

Lemma status_dps (d : Json.dict) (dps : Json.json) :
  Dict.get "dps" d = Some dps -> status (Ok (Some d)) = Ok dps.
Proof.
  intros G. unfold status. cbn [bind].
  destruct d as [|kv d]; [discriminate G|]. cbn [truthy_dict].
  now rewrite G.
Qed.

(** X22: the first fetch of a device names the data points by position:
    when the reply has no more data points than the device has registered
    attributes, the i-th code of the reply is mapped to the i-th
    attribute and back, the state holds each value under the attribute of
    its position, and the failure counter is zero. *)
Theorem first_fetch_names_by_position (self : TuyaDevice) (d : Json.dict)
  (dps : Dict.t Json.json) :
  Json.truthy (ip (_data self)) = true ->
  truthy_dict (code_to_name (_data self)) = false ->
  Dict.get "dps" d = Some (Json.JObj dps) ->
  NoDup (Dict.keys dps) ->
  NoDup (attributes (_data self)) ->
  (List.length dps <= List.length (attributes (_data self)))%nat ->
  let self' := snd (fetch_state self (Ok (Some d))) in
  fst (fetch_state self (Ok (Some d))) = Ok tt
  /\ _state self'
     = Some (combine (firstn (List.length dps) (attributes (_data self)))
               (map snd dps))
  /\ code_to_name (_data self')
     = Some (zip (Dict.keys dps) (attributes (_data self)))
  /\ name_to_code (_data self')
     = Some (map (fun ca => (snd ca, fst ca))
               (zip (Dict.keys dps) (attributes (_data self))))
  /\ _failed_connect self' = 0.
Proof.
  intros I C G Nk Na L. cbv zeta.
  set (names := attributes (_data self)) in *.
  set (pairs := zip (Dict.keys dps) names).
  destruct (zip_codes (Dict.keys dps) names) as [Zf Zs].
  assert (Lk : List.length (Dict.keys dps) = List.length dps)
    by (unfold Dict.keys; apply length_map).
  assert (Op : Dict.of_items pairs = pairs).
  { apply of_items_distinct. unfold pairs. rewrite Zf.
    now apply NoDup_firstn. }
  assert (Ip : inverted pairs = map (fun ca => (snd ca, fst ca)) pairs).
  { unfold inverted. apply of_items_distinct.
    replace (map fst (map (fun kv => (snd kv, fst kv)) pairs))
      with (map snd pairs) by (rewrite map_map; reflexivity).
    unfold pairs. rewrite Zs. now apply NoDup_firstn. }
  assert (R : rekey pairs dps []
              = Ok (combine (firstn (List.length dps) names) (map snd dps))).
  { rewrite (rekey_named pairs dps (firstn (List.length dps) names) []).
    - reflexivity.
    - rewrite <- Lk. apply get_zip; [exact Nk|lia].
    - cbn [Dict.keys map app]. now apply NoDup_firstn. }
  unfold fetch_state. rewrite I. cbn [negb]. rewrite (status_dps d _ G).
  unfold map_or_create. rewrite C.
  unfold _create_code_name_maps. cbn [keys_of bind]. fold names. fold pairs.
  rewrite Op, Ip. cbn [translated]. rewrite R. cbn. repeat split.
Qed.

(** X23: when the first reply has more data points than the device has
    registered attributes, the fetch raises a key error and leaves the
    state and the failure counter as they were, yet it has stored the maps
    of the codes that did get a name; with at least one attribute those
    maps are kept, and a later fetch with the same reply raises again and
    changes nothing. *)
Theorem first_fetch_with_unnamed_code (self : TuyaDevice) (d : Json.dict)
  (dps : Dict.t Json.json) :
  Json.truthy (ip (_data self)) = true ->
  truthy_dict (code_to_name (_data self)) = false ->
  Dict.get "dps" d = Some (Json.JObj dps) ->
  NoDup (Dict.keys dps) ->
  (List.length (attributes (_data self)) < List.length dps)%nat ->
  let r := fetch_state self (Ok (Some d)) in
  fst r = Raise KeyError
  /\ _state (snd r) = _state self
  /\ _failed_connect (snd r) = _failed_connect self
  /\ code_to_name (_data (snd r))
     = Some (zip (Dict.keys dps) (attributes (_data self)))
  /\ (attributes (_data self) <> [] ->
      fetch_state (snd r) (Ok (Some d)) = (Raise KeyError, snd r)).
Proof.
  intros I C G Nk L. cbv zeta.
  set (names := attributes (_data self)) in *.
  set (pairs := zip (Dict.keys dps) names).
  destruct (zip_codes (Dict.keys dps) names) as [Zf Zs].
  assert (Lk : List.length (Dict.keys dps) = List.length dps)
    by (unfold Dict.keys; apply length_map).
  assert (Op : Dict.of_items pairs = pairs).
  { apply of_items_distinct. unfold pairs. rewrite Zf.
    now apply NoDup_firstn. }
  assert (U : exists k, In k (Dict.keys dps) /\ Dict.get k pairs = None).
  { destruct (skipn (List.length names) (Dict.keys dps)) as [|k rest] eqn:S.
    - apply (f_equal (@List.length _)) in S. rewrite length_skipn in S.
      simpl in S. lia.
    - exists k.
      assert (Ik : In k (skipn (List.length names) (Dict.keys dps)))
        by (rewrite S; now left).
      split.
      + rewrite <- (firstn_skipn (List.length names) (Dict.keys dps)).
        apply in_or_app. now right.
      + apply get_absent. unfold Dict.keys, pairs. rewrite Zf.
        rewrite <- (firstn_skipn (List.length names) (Dict.keys dps)) in Nk.
        now apply (NoDup_app_disjoint _ _ k Nk). }
  destruct U as (k & Ik & Gk).
  pose proof (rekey_unnamed pairs dps [] k Ik Gk) as R.
  set (made := with_data self
                  {| name := name (_data self); id := id (_data self);
                     local_key := local_key (_data self);
                     device_type := device_type (_data self);
                     attributes := names; ip := ip (_data self);
                     version := version (_data self);
                     code_to_name := Some pairs;
                     name_to_code := Some (inverted pairs) |}).
  assert (E : fetch_state self (Ok (Some d)) = (Raise KeyError, made)).
  { unfold fetch_state. rewrite I. cbn [negb].
    rewrite (status_dps d _ G). unfold map_or_create. rewrite C.
    unfold _create_code_name_maps. cbn [keys_of bind].
    fold names. fold pairs. rewrite Op. cbn [translated]. rewrite R.
    reflexivity. }
  rewrite E. unfold made.
  cbn [fst snd _state _failed_connect _data with_data code_to_name].
  repeat apply conj; try reflexivity.
  intros Ne. unfold fetch_state. cbn [_data with_data ip code_to_name].
  rewrite I. cbn [negb]. rewrite (status_dps d _ G).
  unfold map_or_create. cbn [_data with_data code_to_name].
  assert (T : truthy_dict (Some pairs) = true).
  { unfold pairs. destruct names as [|a names']; [congruence|].
    destruct (Dict.keys dps) as [|c codes]; [simpl in *; lia|reflexivity]. }
  rewrite T. cbn [translated]. rewrite R. reflexivity.
Qed.

(** X24: once a device has a code map that is not empty, no fetch and no
    write changes its data, the maps included; a reply with a code the
    map does not hold makes the fetch raise a key error and leaves the
    device as it was, and a write under a name the map of names does not
    hold raises a key error before anything is sent. *)
Theorem maps_are_made_once (self : TuyaDevice) :
  truthy_dict (code_to_name (_data self)) = true ->
  (forall r, _data (snd (fetch_state self r)) = _data self)
  /\ (forall (value : Dict.t Json.json) (net : Z -> reply),
        _data (snd (fst (set_state self value net))) = _data self)
  /\ (forall (d : Json.dict) (dps : Dict.t Json.json) (code : string)
             (map : Dict.t string),
        Json.truthy (ip (_data self)) = true ->
        code_to_name (_data self) = Some map ->
        Dict.get "dps" d = Some (Json.JObj dps) ->
        In code (Dict.keys dps) -> Dict.get code map = None ->
        fetch_state self (Ok (Some d)) = (Raise KeyError, self))
  /\ (forall (value : Dict.t Json.json) (net : Z -> reply)
             (name : string) (map : Dict.t string),
        Json.truthy (ip (_data self)) = true ->
        name_to_code (_data self) = Some map -> map <> [] ->
        In name (Dict.keys value) -> Dict.get name map = None ->
        set_state self value net = (Raise KeyError, self, 0)).
Proof.
  intros T. repeat apply conj.
  - intros r. unfold fetch_state.
    destruct (negb (Json.truthy (ip (_data self)))); [reflexivity|].
    destruct (status r) as [dps|[]]; try reflexivity.
    unfold map_or_create. rewrite T.
    destruct (code_to_name (_data self)) as [map|]; [|discriminate T].
    destruct (translated map dps); reflexivity.
  - intros value net. unfold set_state.
    destruct (negb (Json.truthy (ip (_data self)))); [reflexivity|].
    destruct (negb (truthy_dict (name_to_code (_data self))));
      [reflexivity|].
    destruct (name_to_code (_data self)) as [map|]; [|reflexivity].
    destruct (rekey map value []); [|reflexivity].
    change (Z.to_nat (max_attempt - 0)) with 2%nat. rewrite attempts_two.
    assert (M : _data (merged self value) = _data self).
    { unfold merged. destruct (truthy_dict (_state self)); [|reflexivity].
      now destruct (_state self). }
    destruct (net 0) as [?|[]]; try reflexivity; try exact M.
    destruct (net 1) as [?|[]]; try reflexivity; exact M.
  - intros d dps code map I C G Ic Gc. unfold fetch_state.
    rewrite I. cbn [negb]. rewrite (status_dps d _ G).
    unfold map_or_create. rewrite T, C. cbn [translated].
    now rewrite (rekey_unnamed map dps [] code Ic Gc).
  - intros value net name map I C Ne Ic Gc. unfold set_state.
    rewrite I, C. cbn [negb]. destruct map as [|kv map]; [congruence|].
    cbn [truthy_dict negb].
    now rewrite (rekey_unnamed (kv :: map) value [] name Ic Gc).
Qed.

End CodeMapFacts.

(** The data points of the lamp's reply, and a bulb that registers a work
    mode under the names the integration uses. *)
Definition lamp_dps : Dict.t Json.json :=
  [("1", Json.JBool true); ("2", Json.JInt 128)].

Definition lamp_answer : Json.dict :=
  [("devId", Json.JStr "0123456789abcdef012345");
   ("dps", Json.JObj lamp_dps)].

Definition colour_bulb : Device.TuyaDevice :=
  Device.new
    {| Device.name := "bulb"; Device.id := "0123456789abcdef012345";
       Device.local_key := "0123456789abcdef"; Device.device_type := "dj";
       Device.attributes := ["switch_led"; "work_mode"; "bright_value"];
       Device.ip := Json.JStr "192.168.1.20";
               Device.version := Json.JStr "3.3";
       Device.code_to_name := None; Device.name_to_code := None |}.

Lemma color_mode_names_witness :
  PySet.mem Device.WORK_MODE (Device._attributes colour_bulb) = true
  /\ Device.set_color_mode (fun _ => 0%nat)
       (built "" "light" "switch" "color_temp" "hs" Device.RANGE_255
          Device.RANGE_255 Device.TUYA_HSV_RANGE)
       colour_bulb "hs"
     = Ok (Some [(Device.WORK_MODE, Json.JStr Device.TUYA_COLOR_MODE)]).
Proof.
  split; [reflexivity|].
  apply (color_mode_names (fun _ => 0%nat) "" "light" "switch" "color_temp"
           "hs" Device.RANGE_255 Device.RANGE_255 Device.TUYA_HSV_RANGE
           colour_bulb).
  reflexivity.
Defined.

Lemma first_fetch_names_by_position_witness :
  Json.truthy (Device.ip (Device._data lamp)) = true
  /\ Device.truthy_dict (Device.code_to_name (Device._data lamp)) = false
  /\ Dict.get "dps" lamp_answer = Some (Json.JObj lamp_dps)
  /\ NoDup (Dict.keys lamp_dps)
  /\ NoDup (Device.attributes (Device._data lamp))
  /\ (List.length lamp_dps
      <= List.length (Device.attributes (Device._data lamp)))%nat
  /\ Device._state (snd (Device.fetch_state lamp (Ok (Some lamp_answer))))
     = Some [("switch_led", Json.JBool true);
             ("bright_value", Json.JInt 128)].
Proof.
  assert (Nk : NoDup (Dict.keys lamp_dps))
    by (repeat constructor; simpl; intuition discriminate).
  assert (Na : NoDup (Device.attributes (Device._data lamp)))
    by (repeat constructor; simpl; intuition discriminate).
  assert (L : (List.length lamp_dps
               <= List.length (Device.attributes (Device._data lamp)))%nat)
    by (simpl; lia).
  repeat (split; [first [reflexivity | assumption]|]).
  apply (first_fetch_names_by_position lamp lamp_answer lamp_dps eq_refl
           eq_refl eq_refl Nk Na L).
Defined.

Lemma first_fetch_with_unnamed_code_witness :
  Json.truthy (Device.ip (Device._data plug)) = true
  /\ Device.truthy_dict (Device.code_to_name (Device._data plug)) = false
  /\ Dict.get "dps" lamp_answer = Some (Json.JObj lamp_dps)
  /\ NoDup (Dict.keys lamp_dps)
  /\ (List.length (Device.attributes (Device._data plug))
      < List.length lamp_dps)%nat
  /\ fst (Device.fetch_state plug (Ok (Some lamp_answer))) = Raise KeyError.
Proof.
  assert (Nk : NoDup (Dict.keys lamp_dps))
    by (repeat constructor; simpl; intuition discriminate).
  assert (L : (List.length (Device.attributes (Device._data plug))
               < List.length lamp_dps)%nat) by (simpl; lia).
  repeat (split; [first [reflexivity | assumption]|]).
  apply (first_fetch_with_unnamed_code plug lamp_answer lamp_dps eq_refl
           eq_refl eq_refl Nk L).
Defined.

Lemma maps_are_made_once_witness :
  Device.truthy_dict (Device.code_to_name (Device._data lamp_fetched)) = true
  /\ forall r,
       Device._data (snd (Device.fetch_state lamp_fetched r))
       = Device._data lamp_fetched.
Proof.
  split; [reflexivity|].
  apply (maps_are_made_once lamp_fetched). reflexivity.
Defined.

(** ** Scaling *)

Section ScaleFacts.

Import Device.

(** X25: a source range whose two bounds are equal, and which is not the
    target range, scales no value but the bound itself: the division by
    the width of the range raises a zero-division error, after the width
    of the target range was made a float, so the call never returns. *)
Theorem scale_value_degenerate_range (R R2 : ValueRange) (v : Z) :
  min R = max R -> v <> min R -> ValueRange_eqb R R2 = false ->
  (forall f, Float.of_int (max R2 - min R2) = Ok f ->
     scale_value v R R2 = Raise ZeroDivisionError)
  /\ exists e, scale_value v R R2 = Raise e.
Proof.
  intros E N D.
  assert (S : scale_value v R R2
              = match Float.of_int (max R2 - min R2) with
                | Ok _ => Raise ZeroDivisionError
                | Raise e => Raise e
                end).
  { unfold scale_value. rewrite D.
    destruct (Z.eqb_spec v (min R)) as [|_]; [congruence|].
    destruct (Z.eqb_spec v (max R)) as [|_]; [congruence|].
    rewrite <- E, Z.sub_diag.
    change (Float.of_int 0) with (Ok (S754_zero false)). cbn [bind].
    change (Float.mul Float.one (S754_zero false)) with (S754_zero false).
    destruct (Float.of_int (max R2 - min R2)) as [f|e]; reflexivity. }
  split.
  - intros f F. now rewrite S, F.
  - rewrite S. destruct (Float.of_int (max R2 - min R2)); eauto.
Qed.

Lemma scale_value_degenerate_range_witness :
  min {| min := 5; max := 5 |} = max {| min := 5; max := 5 |}
  /\ 7 <> min {| min := 5; max := 5 |}
  /\ scale_value 7 {| min := 5; max := 5 |} RANGE_255
     = Raise ZeroDivisionError.
Proof.
  split; [reflexivity|]. split; [discriminate|].
  destruct (scale_value_degenerate_range {| min := 5; max := 5 |} RANGE_255
              7 eq_refl ltac:(discriminate) eq_refl) as [Z _].
  apply (Z (binary_normalize Float.prec Float.emax 255 0 false)).
  reflexivity.
Defined.

(** A value that goes to the device range and back within one step. *)
Definition there_and_back (r1 r2 : ValueRange) (x : Z) : bool :=
  match scale_value x r1 r2 with
  | Ok t =>
      (min r2 <=? t) && (t <=? max r2)
      && match scale_value t r2 r1 with
         | Ok b => (x - 1 <=? b) && (b <=? x + 1)
         | Raise _ => false
         end
  | Raise _ => false
  end.

Lemma there_and_back_all (r1 r2 : ValueRange) (lo : Z) (n : nat) (x : Z) :
  forallb (fun i => there_and_back r1 r2 (lo + Z.of_nat i)) (seq 0 n) = true ->
  lo <= x < lo + Z.of_nat n ->
  exists t b,
    scale_value x r1 r2 = Ok t /\ min r2 <= t <= max r2
    /\ scale_value t r2 r1 = Ok b /\ x - 1 <= b <= x + 1.
Proof.
  intros F R. rewrite forallb_forall in F.
  specialize (F (Z.to_nat (x - lo))).
  replace (lo + Z.of_nat (Z.to_nat (x - lo))) with x in F by lia.
  assert (I : In (Z.to_nat (x - lo)) (seq 0 n)) by (apply in_seq; lia).
  apply F in I. unfold there_and_back in I.
  destruct (scale_value x r1 r2) as [t|]; [|discriminate].
  destruct (scale_value t r2 r1) as [b|] eqn:B;
    [|rewrite andb_false_r in I; discriminate].
  exists t, b.
  repeat match goal with
         | H : (_ && _) = true |- _ =>
             apply andb_true_iff in H; destruct H as [? ?]
         | H : (_ <=? _) = true |- _ => apply Z.leb_le in H
         end.
  repeat split; assumption.
Qed.

(** X26: with the ranges the integration configures, a saturation of 0 to
    100 and a value of 1 to 255 are each scaled into the device range 0
    to 255, and scaling the outcome back gives the number that was
    written or a neighbour of it; a hue is written and read as it is. *)
Theorem hsv_scaling_roundtrip (h s v : Z) :
  let '(hue, sat, val) := Integration.HA_HSV_RANGE in
  let '(t_hue, t_sat, t_val) := TUYA_HSV_RANGE in
  scale_value h hue t_hue = Ok h /\ scale_value h t_hue hue = Ok h
  /\ (0 <= s <= 100 ->
      exists t b,
        scale_value s sat t_sat = Ok t /\ 0 <= t <= 255
        /\ scale_value t t_sat sat = Ok b /\ s - 1 <= b <= s + 1)
  /\ (1 <= v <= 255 ->
      exists t b,
        scale_value v val t_val = Ok t /\ 0 <= t <= 255
        /\ scale_value t t_val val = Ok b /\ v - 1 <= b <= v + 1).
Proof.
  cbn [Integration.HA_HSV_RANGE TUYA_HSV_RANGE].
  split; [reflexivity|]. split; [reflexivity|]. split.
  - intros R.
    apply (there_and_back_all {| min := 0; max := 100 |}
             {| min := 0; max := 255 |} 0 101 s);
      [vm_compute; reflexivity|lia].
  - intros R.
    apply (there_and_back_all {| min := 1; max := 255 |}
             {| min := 0; max := 255 |} 1 255 v);
      [vm_compute; reflexivity|lia].
Qed.

End ScaleFacts.

(** ** Normalised addresses *)

Section MacFacts.

Import Utils.

Lemma lower_digit (c : ascii) : mac_digit c = true -> lower_char c = c.
Proof.
  unfold mac_digit, lower_char. intros D.
  destruct (((65 <=? Text.code c) && (Text.code c <=? 90))
            || ((192 <=? Text.code c) && (Text.code c <=? 222)
                && negb (Text.code c =? 215))) eqn:U; [|reflexivity].
  exfalso.
  repeat match goal with
         | H : (_ || _) = true |- _ =>
             apply orb_true_iff in H; destruct H as [H|H]
         | H : (_ && _) = true |- _ =>
             apply andb_true_iff in H; destruct H as [? ?]
         | H : (_ <=? _) = true |- _ => apply Z.leb_le in H
         end; lia.
Qed.

Lemma strip_digits (s : string) :
  Forall (fun c => mac_digit c = true) (list_ascii_of_string (strip s)).
Proof.
  induction s as [|c s IH]; [constructor|]. cbn [strip].
  destruct (mac_digit c) eqn:D; [|exact IH].
  cbn [list_ascii_of_string]. now constructor.
Qed.

Lemma normal_fixed (s : string) :
  Forall (fun c => mac_digit c = true) (list_ascii_of_string s) ->
  normalize_mac s = s.
Proof.
  unfold normalize_mac. induction s as [|c s IH]; [reflexivity|].
  cbn [list_ascii_of_string]. intros F. inversion F as [|? ? D F']; subst.
  cbn [lower strip]. rewrite (lower_digit c D), D. f_equal. now apply IH.
Qed.

Lemma lower_app (a b : string) : lower (a ++ b) = (lower a ++ lower b)%string.
Proof.
  induction a as [|c a IH]; [reflexivity|]. cbn [append lower].
  now rewrite IH.
Qed.

Lemma strip_app (a b : string) : strip (a ++ b) = (strip a ++ strip b)%string.
Proof.
  induction a as [|c a IH]; [reflexivity|]. cbn [append strip].
  destruct (mac_digit c); [cbn [append]|]; now rewrite IH.
Qed.

(** X27: a normalised address holds decimal digits and the letters a to f
    only and is never longer than the address; normalising is idempotent
    and leaves a string of such characters as it is, and it works piece by
    piece, so that what separates the digits plays no part. *)
Theorem normalize_mac_canonical (mac rest : string) :
  Forall (fun c => 48 <= Text.code c <= 57 \/ 97 <= Text.code c <= 102)
    (list_ascii_of_string (normalize_mac mac))
  /\ (String.length (normalize_mac mac) <= String.length mac)%nat
  /\ normalize_mac (normalize_mac mac) = normalize_mac mac
  /\ normalize_mac (mac ++ rest)
     = (normalize_mac mac ++ normalize_mac rest)%string.
Proof.
  split; [|split; [|split]].
  - eapply Forall_impl; [|apply (strip_digits (lower mac))].
    intros c D. unfold mac_digit in D.
    repeat match goal with
           | H : (_ || _) = true |- _ =>
               apply orb_true_iff in H; destruct H as [H|H]
           | H : (_ && _) = true |- _ =>
               apply andb_true_iff in H; destruct H as [? ?]
           | H : (_ <=? _) = true |- _ => apply Z.leb_le in H
           end; lia.
  - unfold normalize_mac. induction mac as [|c mac IH]; [constructor|].
    cbn [lower strip]. destruct (mac_digit (lower_char c));
      cbn [String.length]; lia.
  - apply normal_fixed, strip_digits.
  - unfold normalize_mac. now rewrite lower_app, strip_app.
Qed.

(** The two common notations of one address. *)
Example normalize_mac_notations :
  normalize_mac "D8:F1:5B:0A:9C:3E" = "d8f15b0a9c3e"
  /\ normalize_mac "d8-f1-5b-0a-9c-3e" = "d8f15b0a9c3e".
Proof. split; reflexivity. Qed.

End MacFacts.

(** ** Colours *)

Section ColourFacts.

Import Device.

Variable order : PySet.t -> nat.

(** A number that is written as a field of [w] digits and read back. *)
Definition field_ok (w : nat) (m : Z) : bool :=
  Nat.eqb (String.length (Text.format_x w m)) w
  && match Text.int_base16 (Text.format_x w m) with
     | Ok z => z =? m
     | Raise _ => false
     end.

Lemma fields_of_two : forallb (fun n => field_ok 2 (Z.of_nat n)) (seq 0 256) = true.
Proof. vm_compute. reflexivity. Qed.

Lemma fields_of_three :
  forallb (fun n => field_ok 3 (Z.of_nat n)) (seq 0 4096) = true.
Proof. vm_compute. reflexivity. Qed.

Lemma field_read (w n : nat) (m : Z) :
  forallb (fun n => field_ok w (Z.of_nat n)) (seq 0 n) = true ->
  0 <= m < Z.of_nat n ->
  String.length (Text.format_x w m) = w
  /\ Text.int_base16 (Text.format_x w m) = Ok m.
Proof.
  intros F R. rewrite forallb_forall in F.
  specialize (F (Z.to_nat m)). rewrite Z2Nat.id in F by lia.
  assert (I : In (Z.to_nat m) (seq 0 n)) by (apply in_seq; lia).
  apply F in I. unfold field_ok in I.
  apply andb_true_iff in I. destruct I as [L V].
  apply Nat.eqb_eq in L. split; [exact L|].
  destruct (Text.int_base16 (Text.format_x w m)) as [z|]; [|discriminate].
  apply Z.eqb_eq in V. now subst z.
Qed.

Lemma two_chars (s : string) :
  String.length s = 2%nat -> exists a b, s = String a (String b "").
Proof.
  destruct s as [|a [|b [|c s]]]; try discriminate. eauto.
Qed.

Lemma three_chars (s : string) :
  String.length s = 3%nat ->
  exists a b c, s = String a (String b (String c "")).
Proof.
  destruct s as [|a [|b [|c [|d s]]]]; try discriminate. eauto.
Qed.

Lemma colour_code_registered (self : TuyaDevice) :
  PySet.mem COLOUR_DATA (_attributes self) = true ->
  color_code order self = Some COLOUR_DATA.
Proof.
  intros M. unfold color_code, code_in, PySet.inter, COLOR_CODES.
  cbn [filter]. rewrite M.
  destruct (_attributes self); [discriminate M|]. apply pop_singleton.
Qed.

Lemma colour_stored (self : TuyaDevice) (state : TuyaState) (j : Json.json) :
  color_code order self = Some COLOUR_DATA ->
  _state self = Some state ->
  Dict.get COLOUR_DATA state = Some j ->
  state_value self (color_code order self) = Some j.
Proof.
  intros C S G. rewrite C.
  unfold state_value. rewrite S.
  destruct state as [|kv state]; [discriminate G|]. exact G.
Qed.

Lemma length_app_text (a b : string) :
  String.length (a ++ b) = (String.length a + String.length b)%nat.
Proof.
  induction a as [|c a IH]; [reflexivity|]. cbn [append String.length].
  now rewrite IH.
Qed.

Lemma app_assoc_text (a b c : string) :
  ((a ++ b) ++ c = a ++ b ++ c)%string.
Proof.
  induction a as [|x a IH]; [reflexivity|]. cbn [append]. now rewrite IH.
Qed.

Lemma zeros_length (n : nat) : String.length (Text.zeros n) = n.
Proof. induction n; [reflexivity|]. cbn. now f_equal. Qed.

(** A field is never shorter than its width. *)
Lemma field_width (w : nat) (z : Z) :
  (1 <= w)%nat -> (w <= String.length (Text.format_x w z))%nat.
Proof.
  intros W. unfold Text.format_x, Text.zfill.
  destruct z as [|p|p].
  - rewrite length_app_text, zeros_length. lia.
  - rewrite length_app_text, zeros_length. lia.
  - change (String.length (String "-" ?s)) with (S (String.length s)).
    rewrite length_app_text, zeros_length. lia.
Qed.

(** The HSV reading of a text whose last seven characters are the three
    fields, behind six characters and one more. *)
Lemma colour_fields_read (cfg : maps) (self : TuyaDevice) (state : TuyaState)
  (rgb : string) (c : ascii) (h s v : Z) :
  color_code order self = Some COLOUR_DATA ->
  _state self = Some state ->
  Dict.get COLOUR_DATA state
  = Some (Json.JStr (rgb ++ String c (Text.format_x 3 h ++ Text.format_x 2 s
                                      ++ Text.format_x 2 v))) ->
  String.length rgb = 6%nat ->
  0 <= h < 4096 -> 0 <= s < 256 -> 0 <= v < 256 ->
  color_hsv order cfg self
  = (ho <- scale_value h
             (fst (fst (Device.range_hsv (_map_to_tuya cfg))))
             (fst (fst (Device.range_hsv (_map_from_tuya cfg)))) ;;
     so <- scale_value s
             (snd (fst (Device.range_hsv (_map_to_tuya cfg))))
             (snd (fst (Device.range_hsv (_map_from_tuya cfg)))) ;;
     vo <- scale_value v
             (snd (Device.range_hsv (_map_to_tuya cfg)))
             (snd (Device.range_hsv (_map_from_tuya cfg))) ;;
     Ok (ho, so, vo)).
Proof.
  intros C S G L Rh Rs Rv.
  pose proof (colour_stored self state _ C S G) as V.
  unfold color_hsv. rewrite V, C.
  change (code_is (Some COLOUR_DATA) COLOUR_DATA) with true. cbv iota.
  destruct (Device.range_hsv (_map_from_tuya cfg)) as [[r0 r1] r2].
  destruct (Device.range_hsv (_map_to_tuya cfg)) as [[t0 t1] t2].
  cbn [fst snd len_of bind].
  destruct (field_read 3 4096 h fields_of_three Rh) as [Lh Ih].
  destruct (field_read 2 256 s fields_of_two Rs) as [Ls Is].
  destruct (field_read 2 256 v fields_of_two Rv) as [Lv Iv].
  destruct (three_chars _ Lh) as (h1 & h2 & h3 & Eh).
  destruct (two_chars _ Ls) as (s1 & s2 & Es).
  destruct (two_chars _ Lv) as (v1 & v2 & Ev).
  rewrite Eh, Es, Ev in *.
  destruct rgb as [|a1 [|a2 [|a3 [|a4 [|a5 [|a6 [|a7 rgb]]]]]]];
    try discriminate L.
  cbn [append String.length Z.of_nat Pos.of_succ_nat Pos.succ Z.eqb
       Pos.eqb int_slice Text.slice Text.drop Text.take Nat.sub].
  now rewrite Ih, Is, Iv.
Qed.

(** X28: a stored colour is read by position: in a text of 14 characters
    the first six are the red, green and blue fields, the seventh is not
    looked at, and the next three, two and two are hue, saturation and
    value, which are scaled to the integration's ranges. A text of any
    other length has no RGB reading and makes the HSV property raise the
    unsupported error. *)
Theorem colour_text_read (cfg : maps) (self : TuyaDevice) (state : TuyaState)
  (text : string) :
  PySet.mem COLOUR_DATA (_attributes self) = true ->
  _state self = Some state ->
  Dict.get COLOUR_DATA state = Some (Json.JStr text) ->
  (String.length text <> 14%nat ->
   color_rgb order self = Ok None
   /\ color_hsv order cfg self = Raise hsv_unsupported)
  /\ (forall (r g b h s v : Z) (c : ascii),
        0 <= r < 256 -> 0 <= g < 256 -> 0 <= b < 256 ->
        0 <= h < 4096 -> 0 <= s < 256 -> 0 <= v < 256 ->
        text = (Text.format_x 2 r ++ Text.format_x 2 g ++ Text.format_x 2 b
                ++ String c (Text.format_x 3 h ++ Text.format_x 2 s
                             ++ Text.format_x 2 v))%string ->
        color_rgb order self = Ok (Some (r, g, b))
        /\ color_hsv order cfg self
           = (ho <- scale_value h
                      (fst (fst (Device.range_hsv (_map_to_tuya cfg))))
                      (fst (fst (Device.range_hsv (_map_from_tuya cfg)))) ;;
              so <- scale_value s
                      (snd (fst (Device.range_hsv (_map_to_tuya cfg))))
                      (snd (fst (Device.range_hsv (_map_from_tuya cfg)))) ;;
              vo <- scale_value v
                      (snd (Device.range_hsv (_map_to_tuya cfg)))
                      (snd (Device.range_hsv (_map_from_tuya cfg))) ;;
              Ok (ho, so, vo))).
Proof.
  intros M S G. pose proof (colour_code_registered self M) as C.
  pose proof (colour_stored self state _ C S G) as V.
  split.
  - intros N. unfold color_rgb, color_hsv. rewrite V, C.
    change (code_is (Some COLOUR_DATA) COLOUR_DATA) with true. cbv iota.
    destruct (Device.range_hsv (_map_from_tuya cfg)) as [[r0 r1] r2].
    destruct (Device.range_hsv (_map_to_tuya cfg)) as [[t0 t1] t2].
    cbn [len_of bind].
    destruct (Z.eqb_spec (Z.of_nat (String.length text)) 14) as [E|_];
      [lia|]. now split.
  - intros r g b h s v c Rr Rg Rb Rh Rs Rv E.
    destruct (field_read 2 256 r fields_of_two Rr) as [Lr Ir].
    destruct (field_read 2 256 g fields_of_two Rg) as [Lg Ig].
    destruct (field_read 2 256 b fields_of_two Rb) as [Lb Ib].
    split.
    + unfold color_rgb. rewrite V, C. subst text.
      change (code_is (Some COLOUR_DATA) COLOUR_DATA) with true. cbv iota.
      destruct (field_read 3 4096 h fields_of_three Rh) as [Lh _].
      destruct (field_read 2 256 s fields_of_two Rs) as [Ls _].
      destruct (field_read 2 256 v fields_of_two Rv) as [Lv _].
      cbn [len_of bind]. rewrite !length_app_text. cbn [String.length].
      rewrite !length_app_text, Lr, Lg, Lb, Lh, Ls, Lv.
      destruct (two_chars _ Lr) as (r1' & r2' & Er).
      destruct (two_chars _ Lg) as (g1 & g2 & Eg).
      destruct (two_chars _ Lb) as (b1 & b2 & Eb).
      rewrite Er, Eg, Eb in *.
      cbn [append Z.of_nat Nat.add Pos.of_succ_nat Pos.succ Z.eqb
           Pos.eqb int_slice Text.slice Text.drop Text.take Nat.sub].
      now rewrite Ir, Ig, Ib.
    + subst text.
      apply (colour_fields_read cfg self state
               (Text.format_x 2 r ++ Text.format_x 2 g ++ Text.format_x 2 b)
               c h s v C S); try assumption.
      * now rewrite G, !app_assoc_text.
      * rewrite !length_app_text. lia.
Qed.

Ltac open_bind H n :=
  match type of H with
  | bind ?x _ = Ok _ =>
      destruct x as [n|] eqn:?; [cbn [bind] in H|discriminate H]
  end.

(** What a colour write holds: the six fields of the numbers computed. *)
Lemma set_color_hsv_fields (cfg : maps) (self : TuyaDevice)
  (color : Z * Z * Z) (dps : Dict.t Json.json) :
  set_color_hsv order cfg self color = Ok (Some dps) ->
  color_code order self = Some COLOUR_DATA
  /\ exists r g b h s v,
       scale_value (fst (fst color))
         (fst (fst (Device.range_hsv (_map_from_tuya cfg))))
         (fst (fst (Device.range_hsv (_map_to_tuya cfg)))) = Ok h
       /\ scale_value (snd (fst color))
            (snd (fst (Device.range_hsv (_map_from_tuya cfg))))
            (snd (fst (Device.range_hsv (_map_to_tuya cfg)))) = Ok s
       /\ scale_value (snd color)
            (snd (Device.range_hsv (_map_from_tuya cfg)))
            (snd (Device.range_hsv (_map_to_tuya cfg))) = Ok v
       /\ dps = [(COLOUR_DATA,
                  Json.JStr (Text.format_x 2 r ++ Text.format_x 2 g
                             ++ Text.format_x 2 b ++ "0"
                             ++ Text.format_x 3 h ++ Text.format_x 2 s
                             ++ Text.format_x 2 v))].
Proof.
  unfold set_color_hsv.
  destruct (Device.range_hsv (_map_from_tuya cfg)) as [[r0 r1] r2].
  destruct (Device.range_hsv (_map_to_tuya cfg)) as [[t0 t1] t2].
  destruct color as [[c0 c1] c2]. cbn [fst snd].
  destruct (color_code order self) as [code|]; [|discriminate].
  destruct (truthy_str (Some code)); [|discriminate]. cbn [andb code_is].
  destruct (String.eqb_spec code COLOUR_DATA) as [E|_]; [|discriminate].
  intros H. split; [now rewrite E|].
  open_bind H hn. open_bind H sn. open_bind H vn. open_bind H rgb.
  destruct rgb as [[rn gn] bn].
  open_bind H r. open_bind H g. open_bind H b.
  open_bind H h. open_bind H s. open_bind H v.
  injection H as <-. now exists r, g, b, h, s, v.
Qed.

(** X29: with the integration's colour ranges, a hue of 0 to 360, a
    saturation of 0 to 100 and a value of 1 to 255 that are written as a
    text of 14 characters and merged into a state that is not empty are
    read back as the same hue and as a saturation and a value that differ
    from the written ones by one at most. *)
Theorem hsv_written_is_read_back (device_type_unknown device_type_light
  device_type_switch light_mode_temperature light_mode_color : string)
  (range_brightness range_color_temperature : ValueRange)
  (self : TuyaDevice) (h s v : Z) (text : string) :
  let cfg := build_map device_type_unknown device_type_light
               device_type_switch light_mode_temperature light_mode_color
               range_brightness Integration.HA_HSV_RANGE
               range_color_temperature in
  0 <= h <= 360 -> 0 <= s <= 100 -> 1 <= v <= 255 ->
  set_color_hsv order cfg self (h, s, v)
  = Ok (Some [(COLOUR_DATA, Json.JStr text)]) ->
  String.length text = 14%nat ->
  truthy_dict (_state self) = true ->
  exists s' v',
    color_hsv order cfg (merged self [(COLOUR_DATA, Json.JStr text)])
    = Ok (h, s', v')
    /\ s - 1 <= s' <= s + 1 /\ v - 1 <= v' <= v + 1.
Proof.
  intros cfg Rh Rs Rv W L T.
  destruct (set_color_hsv_fields cfg self _ _ W)
    as (C & r & g & b & h2 & s2 & v2 & Sh & Ss & Sv & D).
  injection D as D.
  change (Ok h = Ok h2) in Sh. injection Sh as <-.
  cbn [fst snd cfg build_map _map_from_tuya _map_to_tuya Device.range_hsv
       Integration.HA_HSV_RANGE TUYA_HSV_RANGE] in Ss, Sv.
  destruct (there_and_back_all {| min := 0; max := 100 |}
              {| min := 0; max := 255 |} 0 101 s)
    as (ts & bs & Ts & Rts & Bs & Rbs); [vm_compute; reflexivity|lia|].
  destruct (there_and_back_all {| min := 1; max := 255 |}
              {| min := 0; max := 255 |} 1 255 v)
    as (tv & bv & Tv & Rtv & Bv & Rbv); [vm_compute; reflexivity|lia|].
  rewrite Ts in Ss. injection Ss as <-.
  rewrite Tv in Sv. injection Sv as <-.
  cbn [min max] in Rts, Rtv.
  destruct (field_read 3 4096 h fields_of_three ltac:(lia)) as [Lh _].
  destruct (field_read 2 256 ts fields_of_two ltac:(lia)) as [Ls _].
  destruct (field_read 2 256 tv fields_of_two ltac:(lia)) as [Lv _].
  pose proof (field_width 2 r ltac:(lia)) as Wr.
  pose proof (field_width 2 g ltac:(lia)) as Wg.
  pose proof (field_width 2 b ltac:(lia)) as Wb.
  assert (L6 : String.length (Text.format_x 2 r ++ Text.format_x 2 g
                              ++ Text.format_x 2 b) = 6%nat).
  { rewrite D in L. rewrite !length_app_text in L.
    cbn [String.length] in L. rewrite !length_app_text in L.
    rewrite !length_app_text. lia. }
  destruct (_state self) as [[|kv state]|] eqn:St; try discriminate T.
  exists bs, bv. split; [|split; assumption].
  assert (C' : color_code order (merged self [(COLOUR_DATA, Json.JStr text)])
               = Some COLOUR_DATA).
  { rewrite <- C. unfold merged. rewrite St. reflexivity. }
  rewrite (colour_fields_read cfg _
             (Dict.update (kv :: state) [(COLOUR_DATA, Json.JStr text)])
             (Text.format_x 2 r ++ Text.format_x 2 g ++ Text.format_x 2 b)
             "0" h ts tv C').
  - cbn [fst snd cfg build_map _map_from_tuya _map_to_tuya Device.range_hsv
         Integration.HA_HSV_RANGE TUYA_HSV_RANGE].
    rewrite Bs, Bv. reflexivity.
  - unfold merged. rewrite St. reflexivity.
  - rewrite get_update by (repeat constructor; simpl; tauto).
    cbn [Dict.get]. rewrite String.eqb_refl, D, !app_assoc_text.
    reflexivity.
  - exact L6.
  - lia.
  - lia.
  - lia.
Qed.

End ColourFacts.

(** A bulb with a colour, after the fetch that gave it a state, under the
    ranges of the integration. *)
Definition integration_maps : Device.maps :=
  Device.build_map "" "light" "switch" "color_temp" "hs"
    Integration.RANGE_255 Integration.HA_HSV_RANGE Integration.RANGE_255.

Definition rgb_bulb : Device.TuyaDevice :=
  snd (Device.fetch_state
         (Device.new
            {| Device.name := "bulb"; Device.id := "0123456789abcdef012345";
               Device.local_key := "0123456789abcdef";
               Device.device_type := "dj";
               Device.attributes := ["switch_led"; "colour_data"];
               Device.ip := Json.JStr "192.168.1.20";
               Device.version := Json.JStr "3.3";
               Device.code_to_name := None; Device.name_to_code := None |})
         (Ok (Some [("dps",
                     Json.JObj [("1", Json.JBool true);
                                ("5", Json.JStr "ff00000168ffff")])]))).

Definition rgb_state : Device.TuyaState :=
  [("switch_led", Json.JBool true);
   ("colour_data", Json.JStr "ff00000168ffff")].

Lemma colour_text_read_witness :
  PySet.mem Device.COLOUR_DATA (Device._attributes rgb_bulb) = true
  /\ Device._state rgb_bulb = Some rgb_state
  /\ Dict.get Device.COLOUR_DATA rgb_state
     = Some (Json.JStr "ff00000168ffff")
  /\ Device.color_rgb (fun _ => 0%nat) rgb_bulb = Ok (Some (255, 0, 0))
  /\ Device.color_hsv (fun _ => 0%nat) integration_maps rgb_bulb
     = Ok (360, 100, 255).
Proof.
  split; [reflexivity|]. split; [reflexivity|]. split; [reflexivity|].
  destruct (colour_text_read (fun _ => 0%nat) integration_maps rgb_bulb
              rgb_state "ff00000168ffff" eq_refl eq_refl eq_refl)
    as [_ R].
  apply (R 255 0 0 360 255 255 "0"%char); try lia. reflexivity.
Defined.

Lemma hsv_written_is_read_back_witness :
  Device.set_color_hsv (fun _ => 0%nat) integration_maps rgb_bulb
    (120, 50, 200)
  = Ok (Some [(Device.COLOUR_DATA, Json.JStr "64c86400787fc7")])
  /\ exists s' v',
       Device.color_hsv (fun _ => 0%nat) integration_maps
         (Device.merged rgb_bulb
            [(Device.COLOUR_DATA, Json.JStr "64c86400787fc7")])
       = Ok (120, s', v')
       /\ 50 - 1 <= s' <= 50 + 1 /\ 200 - 1 <= v' <= 200 + 1.
Proof.
  assert (W : Device.set_color_hsv (fun _ => 0%nat) integration_maps rgb_bulb
                (120, 50, 200)
              = Ok (Some [(Device.COLOUR_DATA, Json.JStr "64c86400787fc7")]))
    by (vm_compute; reflexivity).
  split; [exact W|].
  apply (hsv_written_is_read_back (fun _ => 0%nat) "" "light" "switch"
           "color_temp" "hs" Integration.RANGE_255 Integration.RANGE_255
           rgb_bulb 120 50 200 "64c86400787fc7");
    [lia | lia | lia | exact W | reflexivity | reflexivity].
Defined.

(** ** Discovery *)

Section DiscoveryFacts.

Import Device.

Lemma rekey_raises_key_error (m : Dict.t string) (d acc : Dict.t Json.json)
  (e : exn) :
  rekey m d acc = Raise e -> e = KeyError.
Proof.
  revert acc. induction d as [|[k v] d IH]; intros acc; [discriminate|].
  cbn [rekey]. unfold Dict.item.
  destruct (Dict.get k m); cbn [bind]; [apply IH|congruence].
Qed.

(** What the [else] branch of a fetch can raise. *)
Lemma map_or_create_raises (self : TuyaDevice) (status : Json.json)
  (e : exn) :
  map_or_create self status = Raise e -> e = AttributeError.
Proof.
  unfold map_or_create, _create_code_name_maps.
  destruct (truthy_dict (code_to_name (_data self)));
    [destruct (code_to_name (_data self)); [discriminate|]|];
    destruct status; cbn [keys_of bind]; intros E;
    first [discriminate E | now injection E as <-].
Qed.

Lemma translated_raises (map : Dict.t string) (status : Json.json)
  (e : exn) :
  translated map status = Raise e -> e = KeyError \/ e = TypeError.
Proof.
  destruct status as [| | |s|l|d]; cbn [translated].
  - intros E. injection E as <-. now right.
  - intros E. injection E as <-. now right.
  - intros E. injection E as <-. now right.
  - destruct s as [|c s]; [discriminate|]. unfold Dict.item.
    destruct (Dict.get _ map); cbn [bind]; intros E; injection E as <-; auto.
  - destruct l as [|x l]; [discriminate|].
    destruct x; try (intros E; injection E as <-; now auto).
    unfold Dict.item.
    destruct (Dict.get _ map); cbn [bind]; intros E; injection E as <-; auto.
  - intros E. left. now apply (rekey_raises_key_error map d []).
Qed.

(** X30: applying a scan result sets the ip and the version of a device to
    what the result holds for them, and nothing else. A device whose ip is
    [None], empty or otherwise false fails every fetch and every write with
    the no-ip error before anything is sent and stays as it is; after a
    result with an ip that is true was applied, no fetch fails with that
    error. A device is available once it has an applied ip that is not
    [None], empty or not, and a state. *)
Theorem discovery_makes_reachable (self : TuyaDevice)
  (result : Scanner.ScanResult) (r : reply) :
  ip (_data (apply self result)) = Scanner.ip result
  /\ version (_data (apply self result)) = Scanner.version result
  /\ _state (apply self result) = _state self
  /\ _failed_connect (apply self result) = _failed_connect self
  /\ _attributes (apply self result) = _attributes self
  /\ code_to_name (_data (apply self result)) = code_to_name (_data self)
  /\ name_to_code (_data (apply self result)) = name_to_code (_data self)
  /\ is_available (apply self result)
     = match Scanner.ip result, _state self with
       | Json.JNull, _ => false
       | _, Some _ => true
       | _, None => false
       end
  /\ (Json.truthy (ip (_data self)) = false ->
      fetch_state self r = (Raise no_ip, self)
      /\ forall (value : Dict.t Json.json) (net : Z -> reply),
           set_state self value net = (Raise no_ip, self, 0))
  /\ (Json.truthy (Scanner.ip result) = true ->
      fst (fetch_state (apply self result) r) <> Raise no_ip).
Proof.
  repeat apply conj; try reflexivity.
  - intros T. split.
    + unfold fetch_state. now rewrite T.
    + intros value net. unfold set_state. now rewrite T.
  - intros N. unfold fetch_state.
    cbn [apply _data with_data ip]. rewrite N. cbn [negb].
    destruct (status r) as [dps|[]]; try discriminate.
    destruct (map_or_create _ dps) as [[map self']|e] eqn:M.
    + destruct (translated map dps) as [state|e] eqn:R; [discriminate|].
      apply translated_raises in R. destruct R; subst e; discriminate.
    + apply map_or_create_raises in M. subst e. discriminate.
Qed.

End DiscoveryFacts.
